(** * pastebin-lite: the paste lifecycle of [server/index.js]

    A shallow embedding of the storage helpers ([savePaste], [getPaste],
    [deletePaste]), of [decrementViewsAtomic], of [getCurrentTime] and of
    the three API handlers (POST /api/pastes, GET /api/pastes/:id,
    GET /api/pastes/:id/metadata), followed by the lifecycle properties.
    Around them: the page GET /p/:id, the health check, [initRedis] with
    its listeners and [reconnectStrategy], the settings of [config.js]
    that the server reads, and on the side of the client
    [validateInputs] and the payload of [handleSubmit] (CreatePaste) and
    [getTimeRemaining] (ViewPaste).

    The handlers are asynchronous functions over two stores (a Redis
    client and the in-process [memoryStore]).  They are embedded as
    programs over the store commands, so that one definition of a handler
    is run in two ways: to completion against a world (a request served on
    its own), and command by command under a schedule (requests whose
    Redis round trips overlap).

    What the model leaves to its environment: the failures of Redis, given
    as a schedule of the commands that throw; the wall clock and the
    identifiers [nanoid] draws, read from the world; and the two JSON
    built-ins, taken through an interface.  A JavaScript string is held as
    its UTF-8 encoding; [length] counts its UTF-16 code units and white
    space is that of [trim] and [parseInt].  The Redis client library, the
    DOM and the locale of the browser are outside the model. *)

From Stdlib Require Import ZArith List String Ascii Bool Lia.
From stdpp Require Import base option gmap strings pretty.

Local Open Scope string_scope.

(** ** Data model *)

(** The value stored under an identifier: the object literal [pasteData]
    of the creation handler.  Timestamps and counters are JavaScript
    numbers holding integers; they are modelled in [Z], which is exact
    below 2^53.  [null] is [None]. *)
Record paste := {
  content : string;
  created_at : Z;
  expires_at : option Z;
  max_views : option Z;
  remaining_views : option Z;
  view_count : Z
}.

Definition set_remaining_views (p : paste) (r : option Z) : paste :=
  {| content := content p; created_at := created_at p;
     expires_at := expires_at p; max_views := max_views p;
     remaining_views := r; view_count := view_count p |}.

Definition set_view_count (p : paste) (v : Z) : paste :=
  {| content := content p; created_at := created_at p;
     expires_at := expires_at p; max_views := max_views p;
     remaining_views := remaining_views p; view_count := v |}.

(** JavaScript numbers as the validation code can tell them apart:
    [Number.isInteger] holds of [Integer z] only; [NonInteger] stands for
    a fraction, NaN or an infinity. *)
Inductive number := Integer (z : Z) | NonInteger.

(** A field of a decoded request body. *)
Inductive jsvalue :=
| JUndefined
| JNull
| JBool (b : bool)
| JNumber (n : number)
| JString (s : string)
| JObject.

(** A field of a response body.  [RIsoDate ms] is the string
    [new Date(ms).toISOString()]. *)
Inductive json :=
| RNull
| RNumber (z : Z)
| RString (s : string)
| RIsoDate (ms : Z).

(** [res.status(status).json(body)] *)
Record response := {
  status : Z;
  body : list (string * json)
}.

(** [body.f]: the first binding of field [f]. *)
Fixpoint field (f : string) (b : list (string * json)) : option json :=
  match b with
  | [] => None
  | (k, v) :: b' => if String.eqb k f then Some v else field f b'
  end.

(** [s === ''], the one string that is falsy. *)
Definition is_empty (s : string) : bool :=
  match s with EmptyString => true | _ => false end.

(** ** JSON.stringify / JSON.parse

    The two built-ins are not code of the repository.  They are taken
    through an interface: [JSON_parse] answers [None] where the built-in
    throws a SyntaxError, parsing what [JSON_stringify] printed gives the
    record back, and the text of an object is never the empty string.
    Payloads that parse to something else than a paste object are outside
    the model. *)
Class JSON := {
  JSON_stringify : paste -> string;
  JSON_parse : string -> option paste;
  JSON_parse_stringify : forall p, JSON_parse (JSON_stringify p) = Some p;
  JSON_stringify_nonempty : forall p, is_empty (JSON_stringify p) = false
}.

(** ** The world the handlers run in *)

(** [redis] is the content of the remote store, key to payload.
    [faults] schedules the outcome of the coming Redis commands: [true]
    is a command that throws (and has no effect), [false] and the empty
    schedule are commands that succeed.  [entropy] and [drawn] stand for
    the random source of [nanoid]; [wallClock] is [Date.now()]. *)
Record world := {
  redisClient : bool;
  redisConnected : bool;
  redis : gmap string string;
  memoryStore : gmap string paste;
  faults : list bool;
  wallClock : Z;
  entropy : nat -> string;
  drawn : nat
}.

Definition set_redis (m : gmap string string) (w : world) : world :=
  {| redisClient := redisClient w; redisConnected := redisConnected w;
     redis := m; memoryStore := memoryStore w; faults := faults w;
     wallClock := wallClock w; entropy := entropy w; drawn := drawn w |}.

Definition set_memoryStore (m : gmap string paste) (w : world) : world :=
  {| redisClient := redisClient w; redisConnected := redisConnected w;
     redis := redis w; memoryStore := m; faults := faults w;
     wallClock := wallClock w; entropy := entropy w; drawn := drawn w |}.

Definition set_faults (fs : list bool) (w : world) : world :=
  {| redisClient := redisClient w; redisConnected := redisConnected w;
     redis := redis w; memoryStore := memoryStore w; faults := fs;
     wallClock := wallClock w; entropy := entropy w; drawn := drawn w |}.

Definition set_drawn (n : nat) (w : world) : world :=
  {| redisClient := redisClient w; redisConnected := redisConnected w;
     redis := redis w; memoryStore := memoryStore w; faults := faults w;
     wallClock := wallClock w; entropy := entropy w; drawn := n |}.

Definition set_wallClock (t : Z) (w : world) : world :=
  {| redisClient := redisClient w; redisConnected := redisConnected w;
     redis := redis w; memoryStore := memoryStore w; faults := faults w;
     wallClock := t; entropy := entropy w; drawn := drawn w |}.

(** ** Commands and programs *)

(** What a Redis command answers: it throws, or it returns. *)
Inductive reply (A : Type) :=
| Failed
| Done (a : A).
Arguments Failed {A}.
Arguments Done {A} a.

(** The places where a handler touches the world. *)
Inductive cmd : Type -> Type :=
| RedisReady : cmd bool                          (* redisClient && redisConnected *)
| RedisGet (key : string) : cmd (reply (option string))
| RedisSet (key value : string) : cmd (reply unit)
| RedisDel (key : string) : cmd (reply unit)
| MemGet (id : string) : cmd (option paste)      (* memoryStore.get *)
| MemSet (id : string) (p : paste) : cmd unit    (* memoryStore.set *)
| MemDelete (id : string) : cmd unit             (* memoryStore.delete *)
| Sleep (ms : Z) : cmd unit                      (* setTimeout backoff *)
| DateNow : cmd Z
| Nanoid : cmd string.

(** A handler: it returns, throws, or issues a command and goes on with
    the answer. *)
Inductive prog (A : Type) : Type :=
| Ret (a : A)
| Throw (msg : string)
| Vis {X : Type} (c : cmd X) (k : X -> prog A).
Arguments Ret {A} a.
Arguments Throw {A} msg.
Arguments Vis {A X} c k.

Fixpoint bind {A B : Type} (m : prog A) (f : A -> prog B) : prog B :=
  match m with
  | Ret a => f a
  | Throw e => Throw e
  | Vis c k => Vis c (fun x => bind (k x) f)
  end.

(** [try { m } catch (error) { h error }] *)
Fixpoint try_catch {A : Type} (m : prog A) (h : string -> prog A) : prog A :=
  match m with
  | Ret a => Ret a
  | Throw e => h e
  | Vis c k => Vis c (fun x => try_catch (k x) h)
  end.

Definition call {X : Type} (c : cmd X) : prog X := Vis c Ret.

Declare Scope prog_scope.
Delimit Scope prog_scope with prog.
Notation "x <- m ;; k" := (bind m (fun x => k))
  (at level 100, m at next level, right associativity) : prog_scope.
Notation "m ;; k" := (bind m (fun _ => k))
  (at level 100, right associativity) : prog_scope.
Local Open Scope prog_scope.

(** The next entry of the fault schedule. *)
Definition next_fault (w : world) : bool * world :=
  match faults w with
  | [] => (false, w)
  | f :: fs => (f, set_faults fs w)
  end.

Definition exec {X : Type} (c : cmd X) (w : world) : X * world :=
  match c in cmd T return T * world with
  | RedisReady => (redisClient w && redisConnected w, w)
  | RedisGet key =>
      let '(f, w') := next_fault w in
      if f then (Failed, w') else (Done (redis w' !! key), w')
  | RedisSet key value =>
      let '(f, w') := next_fault w in
      if f then (Failed, w') else (Done tt, set_redis (<[key := value]> (redis w')) w')
  | RedisDel key =>
      let '(f, w') := next_fault w in
      if f then (Failed, w') else (Done tt, set_redis (delete key (redis w')) w')
  | MemGet id => (memoryStore w !! id, w)
  | MemSet id p => (tt, set_memoryStore (<[id := p]> (memoryStore w)) w)
  | MemDelete id => (tt, set_memoryStore (delete id (memoryStore w)) w)
  | Sleep _ => (tt, w)
  | DateNow => (wallClock w, w)
  | Nanoid => (entropy w (drawn w), set_drawn (S (drawn w)) w)
  end.

Inductive outcome (A : Type) :=
| Returned (a : A)
| Thrown (msg : string).
Arguments Returned {A} a.
Arguments Thrown {A} msg.

(** A request served on its own: the program runs to its end. *)
Fixpoint run {A : Type} (m : prog A) (w : world) : outcome A * world :=
  match m with
  | Ret a => (Returned a, w)
  | Throw e => (Thrown e, w)
  | Vis c k => let '(x, w') := exec c w in run (k x) w'
  end.

(** ** Strings *)

(** A JavaScript string is held as its UTF-8 encoding, one [ascii] per
    byte (a lone surrogate as the three bytes of its code point): the
    character U+00A0 is the two bytes C2 A0.  The functions below read
    the encoding as JavaScript reads the characters. *)

Definition code (c : ascii) : nat := nat_of_ascii c.

(** A byte that continues a character begun before it (10xxxxxx). *)
Definition continuation (c : ascii) : bool :=
  (128 <=? code c)%nat && (code c <? 192)%nat.

(** [s.length]: the number of UTF-16 code units.  A character of four
    bytes (lead byte F0 and up) is a surrogate pair and counts two, every
    other character one; a continuation byte is counted with its lead. *)
Fixpoint js_length (s : string) : nat :=
  match s with
  | EmptyString => 0
  | String c r =>
      if continuation c then js_length r
      else if (240 <=? code c)%nat then
        match r with
        | String d r' =>
            if continuation d then S (S (js_length r')) else S (js_length r)
        | EmptyString => 1
        end
      else S (js_length r)
  end.

(** White space and line terminators, the characters that
    [String.prototype.trim] and [parseInt] strip: U+0009 to U+000D and
    U+0020 ... *)
Definition is_space (c : ascii) : bool :=
  ((9 <=? code c)%nat && (code c <=? 13)%nat) || (code c =? 32)%nat.

(** ... U+00A0 (C2 A0) ... *)
Definition is_space2 (a b : ascii) : bool :=
  (code a =? 194)%nat && (code b =? 160)%nat.

(** ... and U+1680 (E1 9A 80), U+2000 to U+200A (E2 80 80 to E2 80 8A),
    U+2028 and U+2029 (E2 80 A8, E2 80 A9), U+202F (E2 80 AF), U+205F
    (E2 81 9F), U+3000 (E3 80 80) and U+FEFF (EF BB BF). *)
Definition is_space3 (a b c : ascii) : bool :=
  ((code a =? 225)%nat && (code b =? 154)%nat && (code c =? 128)%nat)
  || ((code a =? 226)%nat && (code b =? 128)%nat
      && (((128 <=? code c)%nat && (code c <=? 138)%nat)
          || (code c =? 168)%nat || (code c =? 169)%nat || (code c =? 175)%nat))
  || ((code a =? 226)%nat && (code b =? 129)%nat && (code c =? 159)%nat)
  || ((code a =? 227)%nat && (code b =? 128)%nat && (code c =? 128)%nat)
  || ((code a =? 239)%nat && (code b =? 187)%nat && (code c =? 191)%nat).

(** [s.trimStart()] *)
Fixpoint skip_spaces (s : string) : string :=
  match s with
  | EmptyString => EmptyString
  | String a r =>
      if is_space a then skip_spaces r
      else
        match r with
        | EmptyString => s
        | String b r2 =>
            if is_space2 a b then skip_spaces r2
            else
              match r2 with
              | EmptyString => s
              | String c r3 => if is_space3 a b c then skip_spaces r3 else s
              end
        end
  end.

(** [s.trimEnd()]: the string up to the point from which only white
    space follows. *)
Fixpoint trim_end (s : string) : string :=
  match s with
  | EmptyString => EmptyString
  | String c s' =>
      if is_empty (skip_spaces s) then EmptyString else String c (trim_end s')
  end.

Definition trim (s : string) : string := trim_end (skip_spaces s).

(** The string Node makes of the bytes of a header value: every byte is
    the character of that code (Latin-1), so that the byte A0 on the
    wire is the character U+00A0. *)
Fixpoint latin1 (wire : string) : string :=
  match wire with
  | EmptyString => EmptyString
  | String c r =>
      if (code c <? 128)%nat then String c (latin1 r)
      else String (ascii_of_nat (192 + code c / 64))
             (String (ascii_of_nat (128 + code c mod 64)) (latin1 r))
  end.

(** [s.replace(/\/+$/, '')] *)
Fixpoint strip_trailing_slashes (s : string) : string :=
  match s with
  | EmptyString => EmptyString
  | String c s' =>
      match strip_trailing_slashes s' with
      | EmptyString => if Ascii.eqb c "/" then EmptyString else String c EmptyString
      | t => String c t
      end
  end.

(** [hay.includes(needle)] *)
Fixpoint includes (needle hay : string) : bool :=
  String.prefix needle hay ||
  match hay with
  | EmptyString => false
  | String _ hay' => includes needle hay'
  end.

Definition digit_of (c : ascii) : option Z :=
  let n := nat_of_ascii c in
  if (48 <=? n)%nat && (n <=? 57)%nat then Some (Z.of_nat (n - 48)) else None.

(** The value of the longest prefix of decimal digits; [acc] is the
    value read so far, [None] before the first digit. *)
Fixpoint leading_digits (s : string) (acc : option Z) : option Z :=
  match s with
  | EmptyString => acc
  | String c s' =>
      match digit_of c with
      | Some d => leading_digits s' (Some (10 * default 0 acc + d)%Z)
      | None => acc
      end
  end.

(** A JavaScript number that is an integer is held as that integer, and
    [Infinity] as [2 ^ 1024], the first power of two past every finite
    double: the comparisons the server makes come out the same. *)
Definition infinity : Z := 2 ^ 1024.

(** The double nearest to a natural number [n], ties to the even
    significand: [n] itself below [2 ^ 53]; above, [n] is cut to its 53
    leading bits. *)
Definition round_double (n : Z) : Z :=
  if (n <? 2 ^ 53)%Z then n
  else
    let e := (Z.log2 n - 52)%Z in
    let q := Z.shiftr n e in
    let r := (n - Z.shiftl q e)%Z in
    let half := Z.shiftl 1 (e - 1) in
    let q' := if (half <? r)%Z || ((r =? half)%Z && Z.odd q) then (q + 1)%Z else q in
    Z.min (Z.shiftl q' e) infinity.

(** [parseInt(s, 10)]; [None] is NaN.  The digits are read as an exact
    integer, which becomes the nearest double. *)
Definition parseInt (s : string) : option Z :=
  match skip_spaces s with
  | String "-" r => Z.opp <$> (round_double <$> leading_digits r None)
  | String "+" r => round_double <$> leading_digits r None
  | r => round_double <$> leading_digits r None
  end.

(** ** Requests and configuration *)

Record config := {
  testMode : bool;             (* process.env.TEST_MODE === '1' *)
  baseUrl : option string      (* process.env.BASE_URL || null *)
}.

(** The strings of a request are those the handlers are given: the
    identifier as Express decoded it from the path, and the header as
    Node read it from the wire ([latin1]). *)
Record request := {
  params_id : string;                  (* req.params.id *)
  x_test_now_ms : option string;       (* req.headers['x-test-now-ms'] *)
  host : string;                       (* req.get("host"), of a request that has the header *)
  body_content : jsvalue;              (* req.body.content *)
  body_ttl_seconds : jsvalue;          (* req.body.ttl_seconds *)
  body_max_views : jsvalue             (* req.body.max_views *)
}.

(** ** The clock *)

Definition getCurrentTime (cfg : config) (req : request) : prog Z :=
  if testMode cfg && negb (is_empty (default EmptyString (x_test_now_ms req))) then
    match parseInt (default EmptyString (x_test_now_ms req)) with
    | None => call DateNow
    | Some testTime => if (testTime <? 0)%Z then call DateNow else Ret testTime
    end
  else call DateNow.

(** ** Storage helpers *)

Definition redis_key (id : string) : string := "paste:" +:+ id.

Section Storage.
Context `{JSON}.

(** The [for] loop of [savePaste], entered at index [i] with [n]
    iterations to go. *)
Fixpoint savePaste_from (id : string) (data : paste) (retries i n : nat) : prog bool :=
  match n with
  | O => Ret false
  | S n' =>
      ready <- call RedisReady ;;
      if ready then
        r <- call (RedisSet (redis_key id) (JSON_stringify data)) ;;
        match r with
        | Done _ => Ret true
        | Failed =>
            if (i =? retries - 1)%nat
            then Throw "Failed to save paste after multiple attempts"
            else (call (Sleep (100 * (Z.of_nat i + 1))) ;;
                  savePaste_from id data retries (S i) n')
        end
      else
        match JSON_parse (JSON_stringify data) with
        | Some clone => call (MemSet id clone) ;; Ret true
        | None =>
            if (i =? retries - 1)%nat
            then Throw "Failed to save paste after multiple attempts"
            else (call (Sleep (100 * (Z.of_nat i + 1))) ;;
                  savePaste_from id data retries (S i) n')
        end
  end.

Definition savePaste (id : string) (data : paste) : prog bool :=
  savePaste_from id data 3 0 3.

Fixpoint deletePaste_from (id : string) (retries i n : nat) : prog bool :=
  match n with
  | O => Ret false
  | S n' =>
      ready <- call RedisReady ;;
      if ready then
        r <- call (RedisDel (redis_key id)) ;;
        match r with
        | Done _ => Ret true
        | Failed =>
            if (i =? retries - 1)%nat
            then Ret false
            else (call (Sleep (100 * (Z.of_nat i + 1))) ;;
                  deletePaste_from id retries (S i) n')
        end
      else
        (call (MemDelete id) ;; Ret true)
  end.

Definition deletePaste (id : string) : prog bool :=
  deletePaste_from id 3 0 3.

Fixpoint getPaste_from (id : string) (retries i n : nat) : prog (option paste) :=
  match n with
  | O => Ret None
  | S n' =>
      ready <- call RedisReady ;;
      if ready then
        r <- call (RedisGet (redis_key id)) ;;
        match r with
        | Done None => Ret None
        | Done (Some data) =>
            if is_empty data then Ret None
            else
              match JSON_parse data with
              | Some p => Ret (Some p)
              | None => deletePaste id ;; Ret None
              end
        | Failed =>
            if (i =? retries - 1)%nat
            then Ret None
            else (call (Sleep (100 * (Z.of_nat i + 1))) ;;
                  getPaste_from id retries (S i) n')
        end
      else
        data <- call (MemGet id) ;;
        match data with
        | None => Ret None
        | Some d =>
            match JSON_parse (JSON_stringify d) with
            | Some clone => Ret (Some clone)
            | None =>
                if (i =? retries - 1)%nat
                then Ret None
                else (call (Sleep (100 * (Z.of_nat i + 1))) ;;
                      getPaste_from id retries (S i) n')
            end
        end
  end.

Definition getPaste (id : string) : prog (option paste) :=
  getPaste_from id 3 0 3.

(** ** The view counter *)

(** The object returned by [decrementViewsAtomic]: [success: false], or
    [success: true] with the in-hand copy and the [deleted] flag (absent
    in the unlimited branch, where it reads as false). *)
Inductive decrement_result :=
| Refused
| Granted (p : paste) (deleted : bool).

Definition decrementViewsAtomic (id : string) (p : paste) : prog decrement_result :=
  match remaining_views p with
  | None => Ret (Granted p false)
  | Some r =>
      if (r <=? 0)%Z then
        (deletePaste id ;; Ret Refused)
      else
        let p' := set_remaining_views p (Some (r - 1)%Z) in
        if (r - 1 <=? 0)%Z then
          (deletePaste id ;; Ret (Granted p' true))
        else
          (savePaste id p' ;; Ret (Granted p' false))
  end.

End Storage.

(** ** Responses *)

Definition not_found : response :=
  {| status := 404; body := [("error", RString "Paste not found")] |}.

Definition internal_server_error : response :=
  {| status := 500; body := [("error", RString "Internal server error")] |}.

Definition bad_request (msg : string) : response :=
  {| status := 400; body := [("error", RString msg)] |}.

(** [t ? new Date(t).toISOString() : null] *)
Definition iso_or_null (t : option Z) : json :=
  match t with
  | Some ms => if (ms =? 0)%Z then RNull else RIsoDate ms
  | None => RNull
  end.

Definition number_or_null (v : option Z) : json :=
  match v with
  | Some z => RNumber z
  | None => RNull
  end.

(** [text.replace(/c/g, rep)] for a single character [c]. *)
Fixpoint replace_all (c : ascii) (rep : string) (text : string) : string :=
  match text with
  | EmptyString => EmptyString
  | String d t =>
      if Ascii.eqb d c then rep +:+ replace_all c rep t
      else String d (replace_all c rep t)
  end.

Definition double_quote : ascii := ascii_of_nat 34.

Definition escapeHtml (text : string) : string :=
  replace_all "'" "&#039;"
    (replace_all double_quote "&quot;"
      (replace_all ">" "&gt;"
        (replace_all "<" "&lt;"
          (replace_all "&" "&amp;" text)))).

(** ** Validation of a creation request (the checks of POST /api/pastes,
    in the order of the handler) *)

Inductive checked_content :=
| BadContent (error : string)
| GoodContent (content : string).

Definition check_content (v : jsvalue) : checked_content :=
  match v with
  | JUndefined | JNull => BadContent "content is required"
  | JString s =>
      if is_empty (trim s) then BadContent "content cannot be empty"
      else if (10 * 1024 * 1024 <? Z.of_nat (js_length s))%Z
           then BadContent "content exceeds maximum size of 10MB"
           else GoodContent s
  | _ => BadContent "content must be a string"
  end.

(** [Some error] when the field is rejected. *)
Definition check_ttl_seconds (v : jsvalue) : option string :=
  match v with
  | JUndefined | JNull => None
  | JNumber NonInteger => Some "ttl_seconds must be an integer"
  | JNumber (Integer t) =>
      if (t <? 1)%Z then Some "ttl_seconds must be >= 1"
      else if (365 * 24 * 60 * 60 <? t)%Z then Some "ttl_seconds cannot exceed 1 year"
      else None
  | _ => Some "ttl_seconds must be a number"
  end.

Definition check_max_views (v : jsvalue) : option string :=
  match v with
  | JUndefined | JNull => None
  | JNumber NonInteger => Some "max_views must be an integer"
  | JNumber (Integer n) =>
      if (n <? 1)%Z then Some "max_views must be >= 1"
      else if (1000000 <? n)%Z then Some "max_views cannot exceed 1,000,000"
      else None
  | _ => Some "max_views must be a number"
  end.

(** [v ? f(v) : null] and [v || null] on a field that passed its check:
    it is undefined, null or an integer, and an integer is truthy unless
    it is zero. *)
Definition truthy_integer (v : jsvalue) : option Z :=
  match v with
  | JNumber (Integer z) => if (z =? 0)%Z then None else Some z
  | _ => None
  end.

(** The object literal [pasteData] of the creation handler. *)
Definition pasteData (content : string) (ttl_seconds max_views : jsvalue)
    (createdAt : Z) : paste :=
  {| content := content;
     created_at := createdAt;
     expires_at :=
       (fun ttl => (createdAt + ttl * 1000)%Z) <$> truthy_integer ttl_seconds;
     max_views := truthy_integer max_views;
     remaining_views := truthy_integer max_views;
     view_count := 0 |}.

Definition maxAttempts : nat := 10.

Section Handlers.
Context `{JSON}.
Variable cfg : config.

(** The [do ... while (attempts < maxAttempts)] loop that draws an
    identifier: the last identifier drawn and the final [attempts]. *)
Fixpoint draw_id (n attempts : nat) : prog (string * nat) :=
  match n with
  | O => Ret (EmptyString, attempts)
  | S n' =>
      id <- call Nanoid ;;
      existing <- getPaste id ;;
      match existing with
      | None => Ret (id, attempts)
      | Some _ =>
          if (S attempts <? maxAttempts)%nat
          then draw_id n' (S attempts)
          else Ret (id, S attempts)
      end
  end.

(** The link returned to the creator. *)
Definition paste_url (req : request) (id : string) : string :=
  let base :=
    match baseUrl cfg with
    | Some b =>
        if is_empty b
        then (if includes "localhost" (host req)
              then "http://" +:+ host req else "https://" +:+ host req)
        else strip_trailing_slashes (trim b)
    | None =>
        if includes "localhost" (host req)
        then "http://" +:+ host req else "https://" +:+ host req
    end in
  base +:+ "/p/" +:+ id.

(** POST /api/pastes *)
Definition post_api_pastes (req : request) : prog response :=
  try_catch
    (match check_content (body_content req) with
     | BadContent e => Ret (bad_request e)
     | GoodContent content =>
       match check_ttl_seconds (body_ttl_seconds req) with
       | Some e => Ret (bad_request e)
       | None =>
         match check_max_views (body_max_views req) with
         | Some e => Ret (bad_request e)
         | None =>
             allocated <- draw_id maxAttempts 0 ;;
             let id := fst allocated in
             let attempts := snd allocated in
             if (attempts =? maxAttempts)%nat then
               Ret {| status := 500;
                      body := [("error", RString "Failed to generate unique ID")] |}
             else
               createdAt <- call DateNow ;;
               savePaste id
                 (pasteData content (body_ttl_seconds req) (body_max_views req)
                    createdAt) ;;
               Ret {| status := 201;
                      body := [("id", RString id);
                               ("url", RString (paste_url req id))] |}
         end
       end
     end)
    (fun _ => Ret internal_server_error).

(** [now >= paste.expires_at] under the null guard. *)
Definition expired (now : Z) (p : paste) : bool :=
  match expires_at p with
  | Some e => (e <=? now)%Z
  | None => false
  end.

(** [paste.remaining_views !== null && paste.remaining_views <= 0] *)
Definition views_exhausted (p : paste) : bool :=
  match remaining_views p with
  | Some r => (r <=? 0)%Z
  | None => false
  end.

(** GET /api/pastes/:id *)
Definition get_api_pastes_id (req : request) : prog response :=
  try_catch
    (let id := params_id req in
     if is_empty id then Ret not_found
     else if (100 <? js_length id)%nat then Ret not_found
     else
       loaded <- getPaste id ;;
       match loaded with
       | None => Ret not_found
       | Some p =>
           now <- getCurrentTime cfg req ;;
           if expired now p then (deletePaste id ;; Ret not_found)
           else
             result <- decrementViewsAtomic id p ;;
             match result with
             | Refused => Ret not_found
             | Granted p deleted =>
                 let p :=
                   set_view_count p
                     ((if (view_count p =? 0)%Z then 0 else view_count p) + 1)%Z in
                 (if deleted then Ret true else savePaste id p) ;;
                 Ret {| status := 200;
                        body := [("content", RString (content p));
                                 ("remaining_views", number_or_null (remaining_views p));
                                 ("expires_at", iso_or_null (expires_at p))] |}
             end
       end)
    (fun _ => Ret internal_server_error).

(** GET /api/pastes/:id/metadata *)
Definition get_api_pastes_id_metadata (req : request) : prog response :=
  try_catch
    (let id := params_id req in
     if is_empty id || (100 <? js_length id)%nat then Ret not_found
     else
       loaded <- getPaste id ;;
       match loaded with
       | None => Ret not_found
       | Some p =>
           now <- getCurrentTime cfg req ;;
           if expired now p then (deletePaste id ;; Ret not_found)
           else
             if views_exhausted p then (deletePaste id ;; Ret not_found)
             else
               Ret {| status := 200;
                      body := [("content", RString (escapeHtml (content p)));
                               ("remaining_views", number_or_null (remaining_views p));
                               ("expires_at", iso_or_null (expires_at p));
                               ("created_at", iso_or_null (Some (created_at p)))] |}
       end)
    (fun _ => Ret internal_server_error).

End Handlers.

(** ** Requests whose Redis round trips overlap

    A handler gives up control at an [await] of a Redis command or of a
    backoff timer, and nowhere else: the in-memory store is read and
    written without a pause. *)
Definition suspends {X : Type} (c : cmd X) : bool :=
  match c with
  | RedisGet _ | RedisSet _ _ | RedisDel _ | Sleep _ => true
  | _ => false
  end.

(** A handler resumed: it runs up to and including its next suspending
    command, whose answer it will read when it is resumed again. *)
Fixpoint resume {A : Type} (m : prog A) (w : world) : prog A * world :=
  match m with
  | Vis c k =>
      let '(x, w') := exec c w in
      if suspends c then (k x, w') else resume (k x) w'
  | _ => (m, w)
  end.

(** The requests in flight are resumed in the order of [schedule]. *)
Fixpoint interleave {A : Type} (schedule : list nat) (pool : list (prog A)) (w : world)
  : list (prog A) * world :=
  match schedule with
  | [] => (pool, w)
  | i :: schedule' =>
      match pool !! i with
      | Some m =>
          let '(m', w') := resume m w in
          interleave schedule' (<[i := m']> pool) w'
      | None => interleave schedule' pool w
      end
  end.

(** ** Notions used to state the properties *)

Definition redis_ready (w : world) : bool := redisClient w && redisConnected w.

(** The record an identifier stands for in the store in use: what a load
    that is not disturbed finds. *)
Definition stored `{JSON} (w : world) (id : string) : option paste :=
  if redis_ready w then
    match redis w !! redis_key id with
    | Some data => if is_empty data then None else JSON_parse data
    | None => None
    end
  else memoryStore w !! id.

(** A fault schedule in which no three Redis commands in a row fail: no
    helper exhausts its three attempts. *)
Fixpoint calm (fs : list bool) : bool :=
  match fs with
  | [] => true
  | f :: fs' =>
      negb (f && match fs' with true :: true :: _ => true | _ => false end) && calm fs'
  end.

(** [w'] is [w] some commands later: the schedule is still calm, and the
    connection, the clock and the random source are as they were. *)
Definition steady (w w' : world) : Prop :=
  calm (faults w') = true /\
  redisClient w' = redisClient w /\
  redisConnected w' = redisConnected w /\
  wallClock w' = wallClock w /\
  entropy w' = entropy w /\
  drawn w' = drawn w.

(** The time [getCurrentTime] resolves to when [Date.now()] is [clock]. *)
Definition current_time (cfg : config) (req : request) (clock : Z) : Z :=
  if testMode cfg then
    match x_test_now_ms req with
    | Some h =>
        match parseInt h with
        | Some t => if (t <? 0)%Z then clock else t
        | None => clock
        end
    | None => clock
    end
  else clock.

(** Strings of decimal digits, to say what [parseInt] reads. *)
Fixpoint all_digits (s : string) : bool :=
  match s with
  | EmptyString => true
  | String c s' => bool_decide (is_Some (digit_of c)) && all_digits s'
  end.

Definition starts_with_digit (s : string) : bool :=
  match s with
  | String c _ => bool_decide (is_Some (digit_of c))
  | EmptyString => false
  end.

(** The number a string of decimal digits denotes. *)
Definition decimal (ds : string) : Z := default 0%Z (leading_digits ds None).

(** A request that arrives when the wall clock shows [t]. *)
Definition serve {A : Type} (handler : request -> prog A) (t : Z) (req : request)
    (w : world) : outcome A * world :=
  run (handler req) (set_wallClock t w).

(** Requests served one after the other. *)
Fixpoint serve_all {A : Type} (handler : request -> prog A)
    (arrivals : list (Z * request)) (w : world) : list (outcome A) * world :=
  match arrivals with
  | [] => ([], w)
  | (t, req) :: rest =>
      let '(r, w') := serve handler t req w in
      let '(rs, w'') := serve_all handler rest w' in
      (r :: rs, w'')
  end.

(** [v === undefined || v === null] *)
Definition absent (v : jsvalue) : bool :=
  match v with JUndefined | JNull => true | _ => false end.

Definition integer_within (lo hi : Z) (v : jsvalue) : bool :=
  match v with
  | JNumber (Integer z) => (lo <=? z)%Z && (z <=? hi)%Z
  | _ => false
  end.

Definition valid_content (v : jsvalue) : bool :=
  match v with
  | JString s =>
      negb (is_empty (trim s)) && (Z.of_nat (js_length s) <=? 10485760)%Z
  | _ => false
  end.

(** The creation request the specification calls valid: the content is a
    string that is not blank and holds at most 10 MiB, [ttl_seconds] is
    absent or an integer in [1, 31536000], [max_views] is absent or an
    integer in [1, 1000000]. *)
Definition valid_creation (req : request) : bool :=
  valid_content (body_content req) &&
  (absent (body_ttl_seconds req) || integer_within 1 31536000 (body_ttl_seconds req)) &&
  (absent (body_max_views req) || integer_within 1 1000000 (body_max_views req)).

(** The same of the three fields of a body. *)
Definition valid_fields (content ttl_seconds max_views : jsvalue) : bool :=
  valid_content content &&
  (absent ttl_seconds || integer_within 1 31536000 ttl_seconds) &&
  (absent max_views || integer_within 1 1000000 max_views).

(** What [getPaste] does with the answer of [redisClient.get]. *)
Definition after_get `{JSON} (id : string) (data : option string) : prog (option paste) :=
  match data with
  | None => Ret None
  | Some data =>
      if is_empty data then Ret None
      else
        match JSON_parse data with
        | Some p => Ret (Some p)
        | None => deletePaste id ;; Ret None
        end
  end.

(** ** The two reads as the specification words them (section 4.4)

    [FetchCounted] and [FetchMetadata] take the time and the record the
    identifier stands for, and give the response together with what the
    identifier stands for afterwards. *)

Definition counted (p : paste) : paste :=
  set_view_count
    match remaining_views p with
    | Some r => set_remaining_views p (Some (r - 1)%Z)
    | None => p
    end
    (view_count p + 1)%Z.

Definition counted_body (p : paste) : response :=
  {| status := 200;
     body := [("content", RString (content p));
              ("remaining_views", number_or_null (remaining_views p));
              ("expires_at", iso_or_null (expires_at p))] |}.

Definition metadata_body (p : paste) : response :=
  {| status := 200;
     body := [("content", RString (escapeHtml (content p)));
              ("remaining_views", number_or_null (remaining_views p));
              ("expires_at", iso_or_null (expires_at p));
              ("created_at", iso_or_null (Some (created_at p)))] |}.

Definition FetchCounted (now : Z) (record : option paste) : response * option paste :=
  match record with
  | None => (not_found, None)
  | Some p =>
      if expired now p then (not_found, None)
      else
        match remaining_views p with
        | None => (counted_body (counted p), Some (counted p))
        | Some r =>
            if (r <=? 0)%Z then (not_found, None)
            else (counted_body (counted p),
                  if (r - 1 <=? 0)%Z then None else Some (counted p))
        end
  end.

Definition FetchMetadata (now : Z) (record : option paste) : response * option paste :=
  match record with
  | None => (not_found, None)
  | Some p =>
      if expired now p || views_exhausted p then (not_found, None)
      else (metadata_body p, Some p)
  end.

(** The five characters [escapeHtml] rewrites. *)
Definition html_special (c : ascii) : bool :=
  Ascii.eqb c "&" || Ascii.eqb c "<" || Ascii.eqb c ">" ||
  Ascii.eqb c double_quote || Ascii.eqb c "'".

Fixpoint plain_text (s : string) : bool :=
  match s with
  | EmptyString => true
  | String c s' => negb (html_special c) && plain_text s'
  end.

Fixpoint occurs (c : ascii) (s : string) : bool :=
  match s with
  | EmptyString => false
  | String d s' => Ascii.eqb d c || occurs c s'
  end.

(** ** A codec to run the model on

    The properties below hold for every [JSON] codec.  To evaluate the
    handlers on concrete worlds one codec is needed; this one prints the
    numeric fields bit by bit, then the content as it is. *)
Module Codec.

Fixpoint print_positive (p : positive) : string :=
  match p with
  | xH => "."
  | xO q => String "0" (print_positive q)
  | xI q => String "1" (print_positive q)
  end.

Fixpoint read_positive (s : string) : option (positive * string) :=
  match s with
  | String "." r => Some (xH, r)
  | String "0" r =>
      match read_positive r with
      | Some (q, r') => Some (xO q, r')
      | None => None
      end
  | String "1" r =>
      match read_positive r with
      | Some (q, r') => Some (xI q, r')
      | None => None
      end
  | _ => None
  end.

Definition print_Z (z : Z) : string :=
  match z with
  | Z0 => "z"
  | Zpos p => String "+" (print_positive p)
  | Zneg p => String "-" (print_positive p)
  end.

Definition read_Z (s : string) : option (Z * string) :=
  match s with
  | String "z" r => Some (Z0, r)
  | String "+" r =>
      match read_positive r with
      | Some (p, r') => Some (Zpos p, r')
      | None => None
      end
  | String "-" r =>
      match read_positive r with
      | Some (p, r') => Some (Zneg p, r')
      | None => None
      end
  | _ => None
  end.

Definition print_nullable (v : option Z) : string :=
  match v with
  | None => "n"
  | Some z => String "s" (print_Z z)
  end.

Definition read_nullable (s : string) : option (option Z * string) :=
  match s with
  | String "n" r => Some (None, r)
  | String "s" r =>
      match read_Z r with
      | Some (z, r') => Some (Some z, r')
      | None => None
      end
  | _ => None
  end.

Definition print (p : paste) : string :=
  print_Z (created_at p) +:+ print_nullable (expires_at p) +:+
  print_nullable (max_views p) +:+ print_nullable (remaining_views p) +:+
  print_Z (view_count p) +:+ content p.

Definition read (s : string) : option paste :=
  match read_Z s with
  | Some (c, s1) =>
    match read_nullable s1 with
    | Some (e, s2) =>
      match read_nullable s2 with
      | Some (m, s3) =>
        match read_nullable s3 with
        | Some (r, s4) =>
          match read_Z s4 with
          | Some (v, s5) =>
              Some {| content := s5; created_at := c; expires_at := e;
                      max_views := m; remaining_views := r; view_count := v |}
          | None => None
          end
        | None => None
        end
      | None => None
      end
    | None => None
    end
  | None => None
  end.

End Codec.

(** ** Worlds and requests to evaluate the handlers on

    They are used by the examples and by the instances of the theorems. *)

Definition test_config : config := {| testMode := true; baseUrl := None |}.

(** A world whose random source yields ["abc1234567"] first. *)
Definition example_world (redisOn : bool) (fs : list bool) : world :=
  {| redisClient := redisOn; redisConnected := redisOn;
     redis := ∅; memoryStore := ∅; faults := fs; wallClock := 1000;
     entropy := fun n => if (n =? 0)%nat then "abc1234567" else "xyz7654321";
     drawn := 0 |}.

Definition create_request (content : string) (ttl_seconds max_views : jsvalue) : request :=
  {| params_id := EmptyString; x_test_now_ms := None; host := "localhost:3001";
     body_content := JString content;
     body_ttl_seconds := ttl_seconds; body_max_views := max_views |}.

Definition read_request (id : string) (now : option string) : request :=
  {| params_id := id; x_test_now_ms := now; host := "localhost:3001";
     body_content := JUndefined;
     body_ttl_seconds := JUndefined; body_max_views := JUndefined |}.

(** A world that holds one record under ["abc1234567"], in both stores. *)
Definition holding `{JSON} (redisOn : bool) (fs : list bool) (p : paste) : world :=
  {| redisClient := redisOn; redisConnected := redisOn;
     redis := {[ redis_key "abc1234567" := JSON_stringify p ]};
     memoryStore := {[ "abc1234567" := p ]};
     faults := fs; wallClock := 5000;
     entropy := fun _ => "xyz7654321"; drawn := 1 |}.

Definition spent_paste : paste :=
  {| content := "secret"; created_at := 1000; expires_at := None;
     max_views := Some 1%Z; remaining_views := Some 0%Z; view_count := 1 |}.

Definition fresh_paste (views : Z) : paste :=
  {| content := "secret"; created_at := 1000; expires_at := Some 61000%Z;
     max_views := Some views; remaining_views := Some views; view_count := 0 |}.

Definition two_reads : list (Z * request) :=
  [(2000%Z, read_request "abc1234567" None);
   (3000%Z, read_request "abc1234567" (Some "59999"))].

(** A world whose Redis holds [data] under the key of ["abc1234567"]. *)
Definition corrupted (data : string) (fs : list bool) : world :=
  {| redisClient := true; redisConnected := true;
     redis := {[ redis_key "abc1234567" := data ]};
     memoryStore := ∅; faults := fs; wallClock := 5000;
     entropy := fun _ => "xyz7654321"; drawn := 1 |}.

Definition last_view : paste :=
  {| content := "secret"; created_at := 1000; expires_at := None;
     max_views := Some 1%Z; remaining_views := Some 1%Z; view_count := 0 |}.

Definition served_last_view : response :=
  {| status := 200;
     body := [("content", RString "secret");
              ("remaining_views", RNumber 0);
              ("expires_at", RNull)] |}.

(** Two requests for the same identifier, both in flight. *)
Definition racing `{JSON} : list (prog response) :=
  [get_api_pastes_id test_config (read_request "abc1234567" None);
   get_api_pastes_id test_config (read_request "abc1234567" None)].

(** ** The Redis connection: [initRedis] and the events of the client *)

Definition set_redisClient (b : bool) (w : world) : world :=
  {| redisClient := b; redisConnected := redisConnected w;
     redis := redis w; memoryStore := memoryStore w; faults := faults w;
     wallClock := wallClock w; entropy := entropy w; drawn := drawn w |}.

Definition set_redisConnected (b : bool) (w : world) : world :=
  {| redisClient := redisClient w; redisConnected := b;
     redis := redis w; memoryStore := memoryStore w; faults := faults w;
     wallClock := wallClock w; entropy := entropy w; drawn := drawn w |}.

(** The answer of [reconnectStrategy]: an [Error], which ends the
    reconnection, or the delay before the next attempt. *)
Inductive reconnect :=
| GiveUp (message : string)
| RetryAfter (ms : Z).

Definition reconnectStrategy (retries : Z) : reconnect :=
  if (10 <? retries)%Z then GiveUp "Max retries reached"
  else RetryAfter (Z.min (retries * 100) 3000).

(** The events [initRedis] listens to. *)
Inductive redis_event :=
| OnError
| OnConnect
| OnReady
| OnReconnecting.

(** The four listeners: what each does besides logging. *)
Definition on_event (e : redis_event) (w : world) : world :=
  match e with
  | OnError => set_redisConnected false w
  | OnConnect => w
  | OnReady => set_redisConnected true w
  | OnReconnecting => set_redisConnected false w
  end.

Definition on_events (es : list redis_event) (w : world) : world :=
  fold_left (fun w' e => on_event e w') es w.

(** [initRedis].  [createClient] and [connect] are the library's: what
    the server sees of them is the events emitted while it awaits, and
    whether the promise resolves ([resolves]) or the [try] block throws. *)
Definition initRedis (redisUrl : option string) (events : list redis_event)
    (resolves : bool) (w : world) : world :=
  if is_empty (default EmptyString redisUrl) then w
  else
    let w1 := on_events events (set_redisClient true w) in
    if resolves then w1 else set_redisClient false w1.

(** ** config.js *)

(** [process.env] *)
Definition environment := string -> option string.

(** [a || b] where [a] is a string or undefined. *)
Definition or_else (a b : option string) : option string :=
  match a with
  | Some s => if is_empty s then b else a
  | None => b
  end.

(** [config.redis.url] *)
Definition config_redis_url (env : environment) : option string :=
  or_else
    (or_else (or_else (env "REDIS_URL") (env "KV_URL")) (env "UPSTASH_REDIS_REST_URL"))
    (Some "https://expert-swan-61155.upstash.io").

(** The two settings the request handlers read. *)
Definition config_js (env : environment) : config :=
  {| testMode := bool_decide (env "TEST_MODE" = Some "1");
     baseUrl := or_else (env "BASE_URL") None |}.

(** ** GET /api/healthz *)

(** The object [{ ok, ...details }]; a field that was not assigned is
    [None]. *)
Record health := {
  health_ok : bool;
  health_storage : string;
  health_timestamp : Z;                (* new Date().toISOString() *)
  redis_status : option string;
  redis_error : option string
}.

(** [await redisClient.ping()]: a Redis command like the others, it
    takes the next entry of the fault schedule. *)
Definition ping (w : world) : reply unit * world :=
  let '(f, w') := next_fault w in
  if f then (Failed, w') else (Done tt, w').

(** The handler; [message] is the [error.message] of a ping that throws.
    It gives the status and the body. *)
Definition get_api_healthz (message : string) (w : world) : (Z * health) * world :=
  let storage := if redisClient w && redisConnected w then "redis" else "memory" in
  if redisClient w && redisConnected w then
    match ping w with
    | (Done _, w') =>
        ((200%Z, {| health_ok := true; health_storage := storage;
                    health_timestamp := wallClock w;
                    redis_status := Some "connected"; redis_error := None |}), w')
    | (Failed, w') =>
        ((200%Z, {| health_ok := false; health_storage := storage;
                    health_timestamp := wallClock w;
                    redis_status := Some "error"; redis_error := Some message |}), w')
    end
  else if redisClient w then
    ((200%Z, {| health_ok := false; health_storage := storage;
                health_timestamp := wallClock w;
                redis_status := Some "disconnected"; redis_error := None |}), w)
  else
    ((200%Z, {| health_ok := true; health_storage := storage;
                health_timestamp := wallClock w;
                redis_status := None; redis_error := None |}), w).

(** ** GET /p/:id: the page rendered by the server *)

(** [res.status(page_status).send(page_text)]; [page_type] is the
    Content-Type the handler sets itself. *)
Record page := {
  page_status : Z;
  page_type : option string;
  page_text : string
}.

Definition plain_page (code : Z) (message : string) : page :=
  {| page_status := code; page_type := None; page_text := message |}.

Definition newline : ascii := ascii_of_nat 10.

(** The template literal of the page around the escaped content. *)
Definition page_html (escaped : string) : string :=
  String newline "      <!DOCTYPE html>" +:+
  String newline "      <html>" +:+
  String newline "        <head>" +:+
  String newline "          <title>Paste</title>" +:+
  String newline "          <meta charset=" +:+
    String double_quote "utf-8" +:+ String double_quote " />" +:+
  String newline "        </head>" +:+
  String newline "        <body>" +:+
  String newline "          <pre>" +:+ escaped +:+ "</pre>" +:+
  String newline "        </body>" +:+
  String newline "      </html>" +:+
  String newline "    ".

(** [paste.expires_at && now >= paste.expires_at]: the guard of the page
    is the truthiness of the timestamp, so zero passes for "no expiry". *)
Definition page_expired (now : Z) (p : paste) : bool :=
  match expires_at p with
  | Some e => negb (e =? 0)%Z && (e <=? now)%Z
  | None => false
  end.

Section Pages.
Context `{JSON}.
Variable cfg : config.

Definition get_p_id (req : request) : prog page :=
  try_catch
    (let id := params_id req in
     if is_empty id || (100 <? js_length id)%nat
     then Ret (plain_page 404 "Paste not found")
     else
       loaded <- getPaste id ;;
       match loaded with
       | None => Ret (plain_page 404 "Paste not found")
       | Some p =>
           now <- getCurrentTime cfg req ;;
           if page_expired now p
           then (deletePaste id ;; Ret (plain_page 404 "Paste expired"))
           else
             if views_exhausted p
             then (deletePaste id ;; Ret (plain_page 404 "Paste expired"))
             else
               Ret {| page_status := 200;
                      page_type := Some "text/html";
                      page_text := page_html (escapeHtml (content p)) |}
       end)
    (fun _ => Ret (plain_page 500 "Internal server error")).

End Pages.

(** ** POST /api/pastes as the application mounts it

    [app.use(express.json({ limit: '10mb' }))] and the error handler
    that follows it run before the route.  [express.json] is not code of
    the repository; the model takes from it what the server relies on.
    A body of more than 10 MiB is refused with an error that is no
    SyntaxError; a body that is not JSON is refused with a SyntaxError of
    status 400; otherwise [req.body] holds the fields.  The error handler
    answers the SyntaxError, and calls [next()] on any other error: the
    route then runs on the body the parser left, [{}] (the parser of
    Express 4 sets [req.body] to [{}] before it reads the request). *)

Inductive body_text :=
| NotJSON
| Fields (content ttl_seconds max_views : jsvalue).

(** A POST as it reaches the application: [req.get("host")], which is
    undefined on a request without a Host header, the length of the body
    in bytes, and what [JSON.parse] makes of the body. *)
Record arrival := {
  arrival_host : option string;
  arrival_length : Z;
  arrival_text : body_text
}.

Inductive parser_result :=
| PayloadTooLarge                                  (* status 413 *)
| SyntaxError                                      (* status 400 *)
| Parsed (content ttl_seconds max_views : jsvalue).

(** [express.json({ limit: '10mb' })] *)
Definition express_json (a : arrival) : parser_result :=
  if (10 * 1024 * 1024 <? arrival_length a)%Z then PayloadTooLarge
  else
    match arrival_text a with
    | NotJSON => SyntaxError
    | Fields content ttl_seconds max_views => Parsed content ttl_seconds max_views
    end.

Section Mounted.
Context `{JSON}.
Variable cfg : config.

(** The base of the link returned to the creator; [None] where
    [host.includes] throws a TypeError, [host] being undefined. *)
Definition base_url (host : option string) : option string :=
  let of_host :=
    (fun h => if includes "localhost" h then "http://" +:+ h else "https://" +:+ h)
      <$> host in
  match baseUrl cfg with
  | Some b => if is_empty b then of_host else Some (strip_trailing_slashes (trim b))
  | None => of_host
  end.

(** The route handler of POST /api/pastes, on the Host header and on the
    three fields it takes from [req.body]. *)
Definition app_post_api_pastes (host : option string)
    (content ttl_seconds max_views : jsvalue) : prog response :=
  try_catch
    (match check_content content with
     | BadContent e => Ret (bad_request e)
     | GoodContent content =>
       match check_ttl_seconds ttl_seconds with
       | Some e => Ret (bad_request e)
       | None =>
         match check_max_views max_views with
         | Some e => Ret (bad_request e)
         | None =>
             allocated <- draw_id maxAttempts 0 ;;
             let id := fst allocated in
             let attempts := snd allocated in
             if (attempts =? maxAttempts)%nat then
               Ret {| status := 500;
                      body := [("error", RString "Failed to generate unique ID")] |}
             else
               createdAt <- call DateNow ;;
               savePaste id (pasteData content ttl_seconds max_views createdAt) ;;
               match base_url host with
               | None => Throw "TypeError: Cannot read properties of undefined"
               | Some base =>
                   Ret {| status := 201;
                          body := [("id", RString id);
                                   ("url", RString (base +:+ "/p/" +:+ id))] |}
               end
         end
       end
     end)
    (fun _ => Ret internal_server_error).

(** The parser, the error handler and the route, in the order of the
    [app.use] calls. *)
Definition serve_post (a : arrival) : prog response :=
  match express_json a with
  | SyntaxError => Ret (bad_request "Invalid JSON format")
  | PayloadTooLarge => app_post_api_pastes (arrival_host a) JUndefined JUndefined JUndefined
  | Parsed content ttl_seconds max_views =>
      app_post_api_pastes (arrival_host a) content ttl_seconds max_views
  end.

End Mounted.

(** The request record of a POST that carries the Host header [h]. *)
Definition with_fields (h : string) (content ttl_seconds max_views : jsvalue) : request :=
  {| params_id := EmptyString; x_test_now_ms := None; host := h;
     body_content := content;
     body_ttl_seconds := ttl_seconds; body_max_views := max_views |}.


(** ** The client: the form of [CreatePaste] *)

(** The three controlled inputs ([content], [ttlSeconds], [maxViews]). *)
Record form := {
  form_content : string;
  form_ttlSeconds : string;
  form_maxViews : string
}.

Definition maxChars : Z := 10 * 1024 * 1024.

(** [validateInputs]: [None] is [{ valid: true }], [Some error] is
    [{ valid: false, error }]. *)
Definition validateInputs (f : form) : option string :=
  if is_empty (form_content f) || is_empty (trim (form_content f))
  then Some "Content cannot be empty"
  else if (maxChars <? Z.of_nat (js_length (form_content f)))%Z
  then Some "Content exceeds maximum size of 10MB"
  else
    match
      (if is_empty (form_ttlSeconds f) then None
       else
         match parseInt (form_ttlSeconds f) with
         | None => Some "TTL must be a positive integer"
         | Some ttl =>
             if (ttl <? 1)%Z then Some "TTL must be a positive integer"
             else if (365 * 24 * 60 * 60 <? ttl)%Z then Some "TTL cannot exceed 1 year"
             else None
         end)
    with
    | Some e => Some e
    | None =>
        if is_empty (form_maxViews f) then None
        else
          match parseInt (form_maxViews f) with
          | None => Some "Max views must be a positive integer"
          | Some views =>
              if (views <? 1)%Z then Some "Max views must be a positive integer"
              else if (1000000 <? views)%Z then Some "Max views cannot exceed 1,000,000"
              else None
          end
    end.

(** A field of the payload of [handleSubmit]: left out when the input is
    empty, [parseInt] of it otherwise.  [JSON.stringify] prints NaN and
    the infinities as [null]. *)
Definition payload_number (input : string) : jsvalue :=
  if is_empty input then JUndefined
  else
    match parseInt input with
    | Some z => if (Z.abs z <? infinity)%Z then JNumber (Integer z) else JNull
    | None => JNull
    end.

(** [JSON.stringify] of a string, between the quotes: the quote and the
    backslash are escaped, the control characters are written [\b], [\t],
    [\n], [\f], [\r] or [\u00XX], a lone surrogate (the three bytes ED
    A0..BF XX) is written [\uDXXX], in lower-case digits, and every other
    character is left as it is. *)
Definition hex_digit (n : nat) : ascii :=
  ascii_of_nat (if (n <? 10)%nat then 48 + n else 87 + n).

Definition json_escape_char (c : ascii) : string :=
  if (code c =? 34)%nat then String "\" (String double_quote EmptyString)
  else if (code c =? 92)%nat then "\\"
  else if (code c =? 8)%nat then "\b"
  else if (code c =? 9)%nat then "\t"
  else if (code c =? 10)%nat then "\n"
  else if (code c =? 12)%nat then "\f"
  else if (code c =? 13)%nat then "\r"
  else if (code c <? 32)%nat
  then "\u00" +:+ String (hex_digit (code c / 16))
                    (String (hex_digit (code c mod 16)) EmptyString)
  else String c EmptyString.

Definition json_escape_surrogate (b d : ascii) : string :=
  "\ud" +:+ String (hex_digit ((code b - 128) / 4))
              (String (hex_digit (code b mod 4 * 4 + (code d - 128) / 16))
                 (String (hex_digit (code d mod 16)) EmptyString)).

Fixpoint json_escape (s : string) : string :=
  match s with
  | EmptyString => EmptyString
  | String c r =>
      match r with
      | String b (String d r') =>
          if (code c =? 237)%nat && (160 <=? code b)%nat
          then json_escape_surrogate b d +:+ json_escape r'
          else json_escape_char c +:+ json_escape r
      | _ => json_escape_char c +:+ json_escape r
      end
  end.

Definition json_string (s : string) : string :=
  String double_quote (json_escape s) +:+ String double_quote EmptyString.

(** A field of the payload in the text of the body: nothing when the
    field was left out; a number of the range the form lets through is
    printed in decimal digits. *)
Definition json_member (name : string) (v : jsvalue) : string :=
  match v with
  | JNumber (Integer z) => "," +:+ json_string name +:+ ":" +:+ pretty z
  | JUndefined => EmptyString
  | _ => "," +:+ json_string name +:+ ":null"
  end.

(** [JSON.stringify(payload)], the body of the request. *)
Definition payload_text (f : form) : string :=
  "{" +:+ json_string "content" +:+ ":" +:+ json_string (form_content f)
  +:+ json_member "ttl_seconds" (payload_number (form_ttlSeconds f))
  +:+ json_member "max_views" (payload_number (form_maxViews f))
  +:+ "}".

(** [handleSubmit]: nothing is sent when [validateInputs] refuses the
    form; otherwise the request is posted, and reaches the server with
    the Host header [host] the browser gave it.  [JSON.parse] gives the
    server the fields [JSON.stringify] wrote. *)
Definition handleSubmit (f : form) (host : option string) : option arrival :=
  match validateInputs f with
  | Some _ => None
  | None =>
      Some {| arrival_host := host;
              arrival_length := Z.of_nat (String.length (payload_text f));
              arrival_text :=
                Fields (JString (form_content f))
                  (payload_number (form_ttlSeconds f))
                  (payload_number (form_maxViews f)) |}
  end.

(** ** The client: [getTimeRemaining] of [ViewPaste] *)

(** [expiresAt] is the [expires_at] of the metadata answer: null, or the
    ISO date of a timestamp, which [new Date(...).getTime()] gives back.
    [now] is [Date.now()].  A template literal prints an integer in
    decimal. *)
Definition getTimeRemaining (expiresAt : option Z) (now : Z) : option string :=
  match expiresAt with
  | None => None
  | Some expiry =>
      let diff := (expiry - now)%Z in
      if (diff <=? 0)%Z then Some "Expired"
      else
        let seconds := (diff / 1000)%Z in
        let minutes := (seconds / 60)%Z in
        let hours := (minutes / 60)%Z in
        let days := (hours / 24)%Z in
        if (0 <? days)%Z
        then Some (pretty days +:+ " day" +:+ (if (days =? 1)%Z then "" else "s"))
        else if (0 <? hours)%Z
        then Some (pretty hours +:+ " hour" +:+ (if (hours =? 1)%Z then "" else "s"))
        else if (0 <? minutes)%Z
        then Some (pretty minutes +:+ " minute" +:+ (if (minutes =? 1)%Z then "" else "s"))
        else Some (pretty seconds +:+ " second" +:+ (if (seconds =? 1)%Z then "" else "s"))
  end.

(** ** Notions used to state the further properties *)

(** What [escapeHtml] makes of one character. *)
Definition escape_char (c : ascii) : string :=
  if Ascii.eqb c "&" then "&amp;"
  else if Ascii.eqb c "<" then "&lt;"
  else if Ascii.eqb c ">" then "&gt;"
  else if Ascii.eqb c double_quote then "&quot;"
  else if Ascii.eqb c "'" then "&#039;"
  else String c EmptyString.

Fixpoint escape_each (s : string) : string :=
  match s with
  | EmptyString => EmptyString
  | String c s' => escape_char c +:+ escape_each s'
  end.

(** [s] begins with [p]. *)
Fixpoint begins_with (p s : string) : bool :=
  match p, s with
  | EmptyString, _ => true
  | String a p', String b s' => Ascii.eqb a b && begins_with p' s'
  | String _ _, EmptyString => false
  end.

(** Every ampersand of [s] begins one of the five entities. *)
Fixpoint ampersands_begin_entities (s : string) : bool :=
  match s with
  | EmptyString => true
  | String c s' =>
      (if Ascii.eqb c "&"
       then begins_with "amp;" s' || begins_with "lt;" s' || begins_with "gt;" s' ||
            begins_with "quot;" s' || begins_with "#039;" s'
       else true) && ampersands_begin_entities s'
  end.

Definition with_header (h : option string) (req : request) : request :=
  {| params_id := params_id req; x_test_now_ms := h; host := host req;
     body_content := body_content req;
     body_ttl_seconds := body_ttl_seconds req; body_max_views := body_max_views req |}.

(** [s] is made of slashes only. *)
Fixpoint all_slashes (s : string) : bool :=
  match s with
  | EmptyString => true
  | String c s' => Ascii.eqb c "/" && all_slashes s'
  end.

(** The last character of [s]. *)
Fixpoint last_char (s : string) : option ascii :=
  match s with
  | EmptyString => None
  | String c EmptyString => Some c
  | String _ s' => last_char s'
  end.

(** A program run to its end provided it reaches no command at which a
    handler gives up control; [None] when it reaches one. *)
Fixpoint run_unpaused {A : Type} (m : prog A) (w : world) : option (outcome A * world) :=
  match m with
  | Ret a => Some (Returned a, w)
  | Throw e => Some (Thrown e, w)
  | Vis c k =>
      if suspends c then None
      else let '(x, w') := exec c w in run_unpaused (k x) w'
  end.

(** Where a handler stands once it has ended. *)
Definition ended {A : Type} (o : outcome A) : prog A :=
  match o with
  | Returned a => Ret a
  | Thrown e => Throw e
  end.

(** The time a program run to its end spends in its backoff timers, in
    milliseconds. *)
Fixpoint slept {A : Type} (m : prog A) (w : world) : Z :=
  match m with
  | Vis c k =>
      let '(x, w') := exec c w in
      (match c with Sleep ms => ms | _ => 0 end + slept (k x) w')%Z
  | _ => 0%Z
  end.

(** A timestamp that [new Date(t).toISOString()] prints: a date is at
    most 8.64e15 milliseconds away from the epoch, and [toISOString]
    throws a RangeError on any other number. *)
Definition printable_date (t : Z) : Prop := (Z.abs t <= 8640000000000000)%Z.

(** ** More worlds and records to evaluate the handlers on *)


(** A world whose Redis holds [p] under ["abc1234567"], the identifier
    its random source yields first. *)
Definition crowded `{JSON} (fs : list bool) (p : paste) : world :=
  {| redisClient := true; redisConnected := true;
     redis := {[ redis_key "abc1234567" := JSON_stringify p ]};
     memoryStore := ∅; faults := fs; wallClock := 5000;
     entropy := fun n => if (n =? 0)%nat then "abc1234567" else "xyz7654321";
     drawn := 0 |}.

(** A world whose random source yields ["abc1234567"] every time, and
    whose Redis holds [p] under it. *)
Definition stuck `{JSON} (p : paste) : world :=
  {| redisClient := true; redisConnected := true;
     redis := {[ redis_key "abc1234567" := JSON_stringify p ]};
     memoryStore := ∅; faults := []; wallClock := 5000;
     entropy := fun _ => "abc1234567"; drawn := 0 |}.

(** A record whose expiry timestamp is zero. *)
Definition epoch_paste : paste :=
  {| content := "secret"; created_at := 1000; expires_at := Some 0%Z;
     max_views := None; remaining_views := None; view_count := 0 |}.

(** [n] times the character [c]. *)
Definition letters (n : nat) (c : string) : string :=
  Nat.iter n (fun s => c +:+ s) EmptyString.

(** The letter e with an acute accent, U+00E9: one character, two
    bytes. *)
Definition e_acute : string :=
  String (ascii_of_nat 195) (String (ascii_of_nat 169) EmptyString).

(** * Properties *)

(** ** Strings *)

(** No string has more UTF-16 code units than bytes. *)
Lemma js_length_le s : (js_length s <= String.length s)%nat.
Proof.
  enough (Hboth : (js_length s <= String.length s)%nat
                  /\ forall c, (js_length (String c s) <= S (String.length s))%nat)
    by apply Hboth.
  induction s as [| d r [IHr IHc]].
  - split; [cbn; lia |]. intros c. cbn [js_length String.length].
    destruct (continuation c); [lia |]. destruct (240 <=? code c)%nat; lia.
  - split; [apply IHc |]. intros c.
    change (js_length (String c (String d r)))
      with (if continuation c then js_length (String d r)
            else if (240 <=? code c)%nat
                 then (if continuation d then S (S (js_length r))
                       else S (js_length (String d r)))
                 else S (js_length (String d r))).
    specialize (IHc d). cbn [String.length].
    destruct (continuation c); [lia |].
    destruct (240 <=? code c)%nat; [| lia].
    destruct (continuation d); lia.
Qed.

(** On characters of one byte the two lengths agree. *)
Lemma js_length_ascii s :
  (forall c, In c (list_ascii_of_string s) -> (code c < 128)%nat) ->
  js_length s = String.length s.
Proof.
  induction s as [| c r IH]; intros Hs; [reflexivity |].
  assert (Hc : (code c < 128)%nat) by (apply Hs; left; reflexivity).
  cbn [js_length String.length]. unfold continuation.
  replace (128 <=? code c)%nat with false by (symmetry; apply Nat.leb_gt; exact Hc).
  replace (240 <=? code c)%nat with false by (symmetry; apply Nat.leb_gt; lia).
  cbn [andb]. rewrite IH; [reflexivity |].
  intros d Hd. apply Hs. right. exact Hd.
Qed.

Lemma round_double_exact n : (n < 2 ^ 53)%Z -> round_double n = n.
Proof.
  intros Hn. unfold round_double.
  destruct (Z.ltb_spec n (2 ^ 53)); [reflexivity | lia].
Qed.

Lemma round_double_nonneg n : (0 <= n)%Z -> (0 <= round_double n)%Z.
Proof.
  intros Hn. unfold round_double.
  destruct (Z.ltb_spec n (2 ^ 53)) as [| Hbig]; [exact Hn |].
  cbv zeta. apply Z.min_glb; [| unfold infinity; apply Z.pow_nonneg; lia].
  apply Z.shiftl_nonneg.
  assert (Hq : (0 <= Z.shiftr n (Z.log2 n - 52))%Z) by (apply Z.shiftr_nonneg; exact Hn).
  destruct (_ || _); lia.
Qed.

(** ** The codec of the examples is a JSON codec *)

Lemma read_print_positive p r :
  Codec.read_positive (Codec.print_positive p +:+ r) = Some (p, r).
Proof.
  induction p as [q IH | q IH |]; simpl; [rewrite IH | rewrite IH |]; reflexivity.
Qed.

Lemma read_print_Z z r : Codec.read_Z (Codec.print_Z z +:+ r) = Some (z, r).
Proof.
  destruct z; simpl; [reflexivity | |]; rewrite read_print_positive; reflexivity.
Qed.

Lemma read_print_nullable v r :
  Codec.read_nullable (Codec.print_nullable v +:+ r) = Some (v, r).
Proof.
  destruct v as [z |]; simpl; [| reflexivity].
  rewrite read_print_Z. reflexivity.
Qed.

Lemma print_nonempty p : is_empty (Codec.print p) = false.
Proof. destruct p as [c t e m r v]. unfold Codec.print. destruct t; reflexivity. Qed.

Lemma read_print p : Codec.read (Codec.print p) = Some p.
Proof.
  destruct p as [c t e m r v]. unfold Codec.read, Codec.print. simpl.
  rewrite read_print_Z, read_print_nullable, read_print_nullable,
    read_print_nullable, read_print_Z.
  reflexivity.
Qed.

#[export] Instance demo_JSON : JSON :=
  {| JSON_stringify := Codec.print;
     JSON_parse := Codec.read;
     JSON_parse_stringify := read_print;
     JSON_stringify_nonempty := print_nonempty |}.



(** ** Running programs *)

Lemma run_bind {A B} (m : prog A) (f : A -> prog B) w :
  run (bind m f) w =
  match run m w with
  | (Returned a, w') => run (f a) w'
  | (Thrown e, w') => (Thrown e, w')
  end.
Proof.
  revert w. induction m as [a | e | X c k IH]; intros w; simpl; try reflexivity.
  destruct (exec c w) as [x w']. apply IH.
Qed.

Lemma run_try_catch {A} (m : prog A) (h : string -> prog A) w :
  run (try_catch m h) w =
  match run m w with
  | (Returned a, w') => (Returned a, w')
  | (Thrown e, w') => run (h e) w'
  end.
Proof.
  revert w. induction m as [a | e | X c k IH]; intros w; simpl; try reflexivity.
  destruct (exec c w) as [x w']. apply IH.
Qed.

(** Resuming a handler does not change where it ends. *)
Lemma run_resume {A} (m : prog A) w :
  run (fst (resume m w)) (snd (resume m w)) = run m w.
Proof.
  revert w. induction m as [a | e | X c k IH]; intros w; simpl; try reflexivity.
  destruct (exec c w) as [x w']. destruct (suspends c); [reflexivity | apply IH].
Qed.

Lemma redis_key_inj i j : redis_key i = redis_key j -> i = j.
Proof. unfold redis_key. simpl. intros E. injection E. auto. Qed.

Lemma calm_tail f fs : calm (f :: fs) = true -> calm fs = true.
Proof. simpl. intros E. apply andb_true_iff in E. tauto. Qed.

Lemma steady_refl w : calm (faults w) = true -> steady w w.
Proof. unfold steady. tauto. Qed.

Lemma steady_trans w1 w2 w3 : steady w1 w2 -> steady w2 w3 -> steady w1 w3.
Proof. unfold steady. intuition congruence. Qed.

Lemma steady_calm w w' : steady w w' -> calm (faults w') = true.
Proof. unfold steady. tauto. Qed.

Lemma getCurrentTime_run cfg req w :
  run (getCurrentTime cfg req) w = (Returned (current_time cfg req (wallClock w)), w).
Proof.
  unfold getCurrentTime, current_time.
  destruct (testMode cfg); simpl; [| reflexivity].
  destruct (x_test_now_ms req) as [h |]; simpl; [| reflexivity].
  destruct h as [| c h]; simpl; [reflexivity |].
  destruct (parseInt (String c h)) as [t |]; [| reflexivity].
  destruct (t <? 0)%Z; reflexivity.
Qed.

Ltac split_ands :=
  repeat match goal with
  | H : _ && _ = true |- _ => apply andb_true_iff in H; destruct H
  end.

Section StorageFacts.
Context `{JSON}.

(** *** The helpers when no command fails three times in a row *)

Lemma deletePaste_calm id w :
  calm (faults w) = true ->
  exists w', run (deletePaste id) w = (Returned true, w') /\ steady w w' /\
    forall i, stored w' i = if decide (i = id) then None else stored w i.
Proof.
  intros Hc. destruct w as [rc rn rd mem fs clk ent dr]. simpl in Hc.
  unfold deletePaste, stored, steady, redis_ready.
  destruct rc, rn; simpl.
  2-4: (eexists; split; [reflexivity |]; simpl; split; [repeat split; auto |];
    intros i; case_decide as Ei; [subst; apply lookup_delete_eq | apply lookup_delete_ne; congruence]).
  destruct fs as [| [] [| [] [| [] fs]]]; simpl in *; try discriminate;
    (eexists; split; [reflexivity |]; simpl; split;
       [ repeat split; auto; split_ands; auto
       | intros i; case_decide as Ei;
         [ subst; rewrite lookup_delete_eq; reflexivity
         | rewrite lookup_delete_ne; [reflexivity | intros E; apply Ei; symmetry; apply redis_key_inj, E ] ] ]).
Qed.

Lemma savePaste_calm id p w :
  calm (faults w) = true ->
  exists w', run (savePaste id p) w = (Returned true, w') /\ steady w w' /\
    forall i, stored w' i = if decide (i = id) then Some p else stored w i.
Proof.
  intros Hc. destruct w as [rc rn rd mem fs clk ent dr]. simpl in Hc.
  unfold savePaste, stored, steady, redis_ready.
  destruct rc, rn; simpl; rewrite ?JSON_parse_stringify; simpl.
  2-4: (eexists; split; [reflexivity |]; simpl; split; [repeat split; auto |];
    intros i; case_decide as Ei; [subst; apply lookup_insert_eq | apply lookup_insert_ne; congruence]).
  destruct fs as [| [] [| [] [| [] fs]]]; simpl in *; try discriminate;
    (eexists; split; [reflexivity |]; simpl; split;
       [ repeat split; auto; split_ands; auto
       | intros i; case_decide as Ei;
         [ subst; rewrite lookup_insert_eq, JSON_parse_stringify, JSON_stringify_nonempty;
           reflexivity
         | rewrite lookup_insert_ne; [reflexivity | intros E; apply Ei; symmetry; apply redis_key_inj, E ] ] ]).
Qed.

Lemma after_get_calm id w :
  redis_ready w = true ->
  calm (faults w) = true ->
  exists w', run (after_get id (redis w !! redis_key id)) w = (Returned (stored w id), w') /\
    steady w w' /\ forall i, stored w' i = stored w i.
Proof.
  intros Hr Hc.
  assert (Hs : stored w id =
               match redis w !! redis_key id with
               | Some data => if is_empty data then None else JSON_parse data
               | None => None
               end) by (unfold stored; rewrite Hr; reflexivity).
  rewrite Hs. unfold after_get.
  destruct (redis w !! redis_key id) as [data |] eqn:Ed.
  2: { exists w. split; [reflexivity |]. split; [apply steady_refl; exact Hc | reflexivity]. }
  destruct (is_empty data) eqn:Ee.
  { exists w. split; [reflexivity |]. split; [apply steady_refl; exact Hc | reflexivity]. }
  destruct (JSON_parse data) as [p |] eqn:Ep.
  { exists w. split; [reflexivity |]. split; [apply steady_refl; exact Hc | reflexivity]. }
  rewrite run_bind.
  destruct (deletePaste_calm id w Hc) as (w' & Hrun & Hst & Hsto).
  rewrite Hrun. exists w'. split; [reflexivity |]. split; [exact Hst |].
  intros i. rewrite Hsto. case_decide as Ei; [| reflexivity].
  subst i. symmetry. exact Hs.
Qed.

Lemma getPaste_from_answered id i n w :
  redis_ready w = true ->
  hd false (faults w) = false ->
  run (getPaste_from id 3 i (S n)) w =
  run (after_get id (redis w !! redis_key id)) (set_faults (tl (faults w)) w).
Proof.
  destruct w as [rc rn rd mem fs clk ent dr]. unfold redis_ready. simpl.
  intros Hr Hf. apply andb_true_iff in Hr as [-> ->].
  destruct fs as [| f fs]; simpl in *; [| subst f]; reflexivity.
Qed.

Lemma getPaste_from_failed id i n w fs :
  redis_ready w = true ->
  faults w = true :: fs ->
  (i =? 2)%nat = false ->
  run (getPaste_from id 3 i (S n)) w = run (getPaste_from id 3 (S i) n) (set_faults fs w).
Proof.
  destruct w as [rc rn rd mem fs' clk ent dr]. unfold redis_ready. simpl.
  intros Hr -> Hi. apply andb_true_iff in Hr as [-> ->].
  simpl. rewrite Hi. reflexivity.
Qed.

Lemma steady_set_faults w fs w' :
  steady (set_faults fs w) w' -> steady w w'.
Proof. unfold steady. simpl. tauto. Qed.

(** Under a calm schedule the retry loop of [getPaste] gets its answer
    from Redis. *)
Lemma getPaste_reaches_redis id w :
  redis_ready w = true ->
  calm (faults w) = true ->
  exists fs', calm fs' = true /\
    run (getPaste id) w
    = run (after_get id (redis w !! redis_key id)) (set_faults fs' w).
Proof.
  intros Hr Hc. unfold getPaste.
  destruct (faults w) as [| f1 fs1] eqn:Ef.
  { exists []. split; [reflexivity |].
    rewrite getPaste_from_answered by (first [exact Hr | rewrite Ef; reflexivity]).
    rewrite Ef. reflexivity. }
  destruct f1.
  2: { exists fs1. split; [eapply calm_tail, Hc |].
       rewrite getPaste_from_answered by (first [exact Hr | rewrite Ef; reflexivity]).
       rewrite Ef. reflexivity. }
  rewrite (getPaste_from_failed _ _ _ _ _ Hr Ef) by reflexivity.
  apply calm_tail in Hc as Hc1.
  destruct fs1 as [| f2 fs2].
  { exists []. split; [reflexivity |].
    rewrite getPaste_from_answered by (first [exact Hr | reflexivity]). reflexivity. }
  destruct f2.
  2: { exists fs2. split; [eapply calm_tail, Hc1 |].
       rewrite getPaste_from_answered by (first [exact Hr | reflexivity]). reflexivity. }
  rewrite (getPaste_from_failed _ _ _ (set_faults (true :: fs2) w) fs2 Hr)
    by reflexivity.
  apply calm_tail in Hc1 as Hc2.
  destruct fs2 as [| f3 fs3].
  { exists []. split; [reflexivity |].
    rewrite getPaste_from_answered by (first [exact Hr | reflexivity]). reflexivity. }
  destruct f3; [simpl in Hc; discriminate |].
  exists fs3. split; [eapply calm_tail, Hc2 |].
  rewrite getPaste_from_answered by (first [exact Hr | reflexivity]). reflexivity.
Qed.

Lemma deletePaste_calm_redis id w :
  redis_ready w = true ->
  calm (faults w) = true ->
  exists w', run (deletePaste id) w = (Returned true, w') /\
    redis w' = delete (redis_key id) (redis w).
Proof.
  intros Hr Hc. destruct w as [rc rn rd mem fs clk ent dr].
  unfold redis_ready in Hr. cbn in Hr, Hc. apply andb_true_iff in Hr as [-> ->].
  unfold deletePaste.
  destruct fs as [| [] [| [] [| [] fs]]]; cbn in *; try discriminate;
    (eexists; split; reflexivity).
Qed.

Lemma getPaste_calm id w :
  calm (faults w) = true ->
  exists w', run (getPaste id) w = (Returned (stored w id), w') /\ steady w w' /\
    forall i, stored w' i = stored w i.
Proof.
  intros Hc. destruct (redis_ready w) eqn:Hr.
  - destruct (getPaste_reaches_redis id w Hr Hc) as (fs' & Hc' & ->).
    destruct (after_get_calm id (set_faults fs' w) Hr Hc') as (w' & Hrun & Hst & Hsto).
    exists w'. split; [exact Hrun |]. split; [eapply steady_set_faults, Hst | exact Hsto].
  - destruct w as [rc rn rd mem fs clk ent dr]. unfold redis_ready in Hr. simpl in Hr.
    destruct rc, rn; try discriminate Hr;
      unfold getPaste, stored, redis_ready; simpl;
      (destruct (mem !! id) as [d |]; simpl; rewrite ?JSON_parse_stringify;
       eexists; (split; [reflexivity |]);
       (split; [apply steady_refl; exact Hc | reflexivity])).
Qed.

(** *** The helpers under any fault schedule *)

Lemma deletePaste_any id w :
  exists b w', run (deletePaste id) w = (Returned b, w') /\
    (redis_ready w' = redis_ready w /\ wallClock w' = wallClock w) /\
    (forall i, i <> id -> stored w' i = stored w i) /\
    (stored w' id = None \/ (b = false /\ redis w' = redis w /\ memoryStore w' = memoryStore w)).
Proof.
  destruct w as [rc rn rd mem fs clk ent dr].
  unfold deletePaste, stored, redis_ready. cbn.
  destruct rc, rn; cbn.
  2-4: (do 2 eexists; split; [reflexivity |]; cbn; split; [split; reflexivity |]; split;
        [ intros i Hi; apply lookup_delete_ne; congruence
        | left; apply lookup_delete_eq ]).
  destruct fs as [| [] [| [] [| [] fs]]]; cbn;
    (do 2 eexists; split; [reflexivity |]; cbn; split; [split; reflexivity |]; split;
     [ intros i Hi;
       try (rewrite lookup_delete_ne; [| intros E; apply Hi; symmetry; apply redis_key_inj, E ]);
       reflexivity
     | first [ left; rewrite lookup_delete_eq; reflexivity | right; auto ] ]).
Qed.

Lemma stored_ext w w' i :
  redis_ready w' = redis_ready w -> redis w' = redis w ->
  memoryStore w' = memoryStore w -> stored w' i = stored w i.
Proof. unfold stored. intros -> -> ->. reflexivity. Qed.

Lemma after_get_any id w :
  exists r w', run (after_get id (redis w !! redis_key id)) w = (Returned r, w') /\
    (redis_ready w' = redis_ready w /\ wallClock w' = wallClock w) /\
    (redis_ready w = true -> forall i, stored w' i = stored w i) /\
    (r = None \/
     ((redis_ready w = true -> r = stored w id) /\
      redis w' = redis w /\ memoryStore w' = memoryStore w)).
Proof.
  unfold after_get.
  destruct (redis w !! redis_key id) as [data |] eqn:Ed.
  2: { exists None, w. repeat split; auto. }
  destruct (is_empty data) eqn:Ee.
  { exists None, w. repeat split; auto. }
  destruct (JSON_parse data) as [p |] eqn:Ep.
  { exists (Some p), w. split; [reflexivity |]. split; [split; reflexivity |].
    split; [reflexivity |]. right. split; [| auto].
    intros Hr. unfold stored. rewrite Hr, Ed, Ee, Ep. reflexivity. }
  rewrite run_bind.
  destruct (deletePaste_any id w) as (b & w' & Hrun & Hrdy & Hoth & Hid).
  rewrite Hrun. exists None, w'. split; [reflexivity |]. split; [exact Hrdy |].
  split; [| left; reflexivity].
  intros Hr i. destruct (decide (i = id)) as [-> | Ei]; [| apply Hoth, Ei].
  assert (Hs : stored w id = None) by (unfold stored; rewrite Hr, Ed, Ee, Ep; reflexivity).
  destruct Hid as [Hid | (_ & Hre & Hme)]; [congruence |].
  apply stored_ext; [apply Hrdy | assumption | assumption].
Qed.

Lemma getPaste_from_exhausted id n w fs :
  redis_ready w = true ->
  faults w = true :: fs ->
  run (getPaste_from id 3 2 (S n)) w = (Returned None, set_faults fs w).
Proof.
  destruct w as [rc rn rd mem fs' clk ent dr]. unfold redis_ready. simpl.
  intros Hr ->. apply andb_true_iff in Hr as [-> ->]. reflexivity.
Qed.

Lemma getPaste_any id w :
  exists r w', run (getPaste id) w = (Returned r, w') /\
    (redis_ready w' = redis_ready w /\ wallClock w' = wallClock w) /\
    (forall i, stored w' i = stored w i) /\
    (r = None \/
     (r = stored w id /\ redis w' = redis w /\ memoryStore w' = memoryStore w)).
Proof.
  destruct (redis_ready w) eqn:Hr.
  - assert (Hget : forall fs',
      exists r w', run (after_get id (redis w !! redis_key id)) (set_faults fs' w)
                   = (Returned r, w') /\
        (redis_ready w' = true /\ wallClock w' = wallClock w) /\
        (forall i, stored w' i = stored w i) /\
        (r = None \/
         (r = stored w id /\ redis w' = redis w /\ memoryStore w' = memoryStore w))).
    { intros fs'.
      destruct (after_get_any id (set_faults fs' w)) as (r & w' & Hrun & Hrdy & Hsto & Hres).
      exists r, w'. split; [exact Hrun |].
      split; [split; [rewrite (proj1 Hrdy); exact Hr | apply Hrdy] |].
      split; [intros i; apply (Hsto Hr) |].
      destruct Hres as [-> | (Hres & Hre & Hme)]; [left; reflexivity | right].
      split; [apply (Hres Hr) | split; assumption]. }
    unfold getPaste.
    destruct (faults w) as [| f1 fs1] eqn:Ef.
    { rewrite getPaste_from_answered by (first [exact Hr | rewrite Ef; reflexivity]).
      rewrite Ef. apply Hget. }
    destruct f1.
    2: { rewrite getPaste_from_answered by (first [exact Hr | rewrite Ef; reflexivity]).
         rewrite Ef. apply Hget. }
    rewrite (getPaste_from_failed _ _ _ _ _ Hr Ef) by reflexivity.
    destruct fs1 as [| f2 fs2].
    { rewrite getPaste_from_answered by (first [exact Hr | reflexivity]). apply Hget. }
    destruct f2.
    2: { rewrite getPaste_from_answered by (first [exact Hr | reflexivity]). apply Hget. }
    rewrite (getPaste_from_failed _ _ _ (set_faults (true :: fs2) w) fs2 Hr)
      by reflexivity.
    destruct fs2 as [| f3 fs3].
    { rewrite getPaste_from_answered by (first [exact Hr | reflexivity]). apply Hget. }
    destruct f3.
    2: { rewrite getPaste_from_answered by (first [exact Hr | reflexivity]). apply Hget. }
    rewrite (getPaste_from_exhausted _ _ (set_faults (true :: fs3) w) fs3 Hr)
      by reflexivity.
    exists None, (set_faults fs3 (set_faults (true :: fs3) w)).
    split; [reflexivity |]. split; [split; [exact Hr | reflexivity] |].
    split; [reflexivity | left; reflexivity].
  - destruct w as [rc rn rd mem fs clk ent dr]. unfold redis_ready in Hr. simpl in Hr.
    destruct rc, rn; try discriminate Hr;
      unfold getPaste, stored, redis_ready; simpl;
      (destruct (mem !! id) as [d |]; simpl; rewrite ?JSON_parse_stringify;
       do 2 eexists; (split; [reflexivity |]); (split; [split; reflexivity |]);
       (split; [reflexivity |]); auto).
Qed.

Lemma savePaste_any id q w :
  (exists w', run (savePaste id q) w = (Returned true, w') /\
     (redis_ready w' = redis_ready w /\ wallClock w' = wallClock w) /\
     forall i, stored w' i = if decide (i = id) then Some q else stored w i) \/
  (exists e w', run (savePaste id q) w = (Thrown e, w') /\
     (redis_ready w' = redis_ready w /\ wallClock w' = wallClock w) /\
     forall i, stored w' i = stored w i).
Proof.
  destruct w as [rc rn rd mem fs clk ent dr].
  unfold savePaste, stored, redis_ready. cbn.
  destruct rc, rn; cbn; rewrite ?JSON_parse_stringify; cbn.
  2-4: (left; eexists; split; [reflexivity |]; cbn; split; [split; reflexivity |];
        intros i; case_decide as Ei;
        [subst; apply lookup_insert_eq | apply lookup_insert_ne; congruence]).
  destruct fs as [| [] [| [] [| [] fs]]]; cbn;
    first
      [ right; do 2 eexists; split; [reflexivity |]; cbn;
        split; [split; reflexivity | reflexivity]
      | left; eexists; split; [reflexivity |]; cbn; split; [split; reflexivity |];
        intros i; case_decide as Ei;
        [ subst; rewrite lookup_insert_eq, JSON_parse_stringify, JSON_stringify_nonempty;
          reflexivity
        | rewrite lookup_insert_ne;
          [reflexivity | intros E; apply Ei; symmetry; apply redis_key_inj, E ] ] ].
Qed.

End StorageFacts.

Section HandlerFacts.
Context `{JSON}.
Variable cfg : config.

Local Arguments bind : simpl never.
Local Arguments savePaste : simpl never.
Local Arguments deletePaste : simpl never.
Local Arguments getPaste : simpl never.
Local Arguments getCurrentTime : simpl never.

Ltac save_step Hc w2 Hrun2 Hst2 Hsto2 :=
  lazymatch goal with
  | |- context [run (savePaste ?i ?q) ?W] =>
      destruct (savePaste_calm i q W Hc) as (w2 & Hrun2 & Hst2 & Hsto2);
      rewrite Hrun2
  end.

Ltac delete_step Hc w2 Hrun2 Hst2 Hsto2 :=
  lazymatch goal with
  | |- context [run (deletePaste ?i) ?W] =>
      destruct (deletePaste_calm i W Hc) as (w2 & Hrun2 & Hst2 & Hsto2);
      rewrite Hrun2
  end.

Lemma or_zero z : ((if (z =? 0)%Z then 0 else z) = z)%Z.
Proof. destruct (Z.eqb_spec z 0); congruence. Qed.

(** Under a calm schedule GET /api/pastes/:id is [FetchCounted] on the
    record its identifier stands for. *)
Lemma get_api_pastes_id_calm req w :
  calm (faults w) = true ->
  is_empty (params_id req) = false ->
  (js_length (params_id req) <= 100)%nat ->
  let id := params_id req in
  let now := current_time cfg req (wallClock w) in
  exists w',
    run (get_api_pastes_id cfg req) w = (Returned (fst (FetchCounted now (stored w id))), w') /\
    steady w w' /\
    forall i, stored w' i =
              if decide (i = id) then snd (FetchCounted now (stored w id)) else stored w i.
Proof.
  intros Hc Hne Hlen id now. unfold get_api_pastes_id. cbv zeta.
  rewrite run_try_catch. rewrite Hne.
  replace (100 <? js_length (params_id req))%nat with false
    by (symmetry; apply Nat.ltb_ge; exact Hlen).
  fold id.
  rewrite run_bind.
  destruct (getPaste_calm id w Hc) as (w1 & Hrun1 & Hst1 & Hsto1). rewrite Hrun1.
  assert (Hclk : wallClock w1 = wallClock w) by (unfold steady in Hst1; tauto).
  destruct (stored w id) as [p |] eqn:Ep; cbn -[Z.eqb Z.add Z.sub Z.leb].
  2: { exists w1. split; [reflexivity |]. split; [exact Hst1 |].
       intros i. rewrite Hsto1. case_decide; [subst; exact Ep | reflexivity]. }
  rewrite run_bind, getCurrentTime_run, Hclk. fold now.
  destruct (expired now p) eqn:Eexp.
  { rewrite run_bind. delete_step (steady_calm _ _ Hst1) w2 Hrun2 Hst2 Hsto2.
    cbn -[Z.eqb Z.add Z.sub Z.leb]. exists w2. split; [reflexivity |].
    split; [eapply steady_trans; eassumption |].
    intros i. rewrite Hsto2. case_decide; [reflexivity | apply Hsto1]. }
  rewrite run_bind. unfold decrementViewsAtomic.
  destruct (remaining_views p) as [r |] eqn:Er.
  2: { cbn -[Z.eqb Z.add Z.sub Z.leb]. rewrite run_bind. save_step (steady_calm _ _ Hst1) w2 Hrun2 Hst2 Hsto2.
       cbn -[Z.eqb Z.add Z.sub Z.leb]. unfold counted, counted_body. rewrite Er. cbn -[Z.eqb Z.add Z.sub Z.leb].
       rewrite ?Er. rewrite ?or_zero in *.
       exists w2. split; [reflexivity |].
       split; [eapply steady_trans; eassumption |].
       intros i. rewrite Hsto2. case_decide; [reflexivity | apply Hsto1]. }
  destruct (r <=? 0)%Z eqn:Er0.
  { rewrite run_bind. delete_step (steady_calm _ _ Hst1) w2 Hrun2 Hst2 Hsto2.
    cbn -[Z.eqb Z.add Z.sub Z.leb]. exists w2. split; [reflexivity |].
    split; [eapply steady_trans; eassumption |].
    intros i. rewrite Hsto2. case_decide; [reflexivity | apply Hsto1]. }
  cbv zeta. destruct (r - 1 <=? 0)%Z eqn:Er1.
  { rewrite run_bind. delete_step (steady_calm _ _ Hst1) w2 Hrun2 Hst2 Hsto2.
    cbn -[Z.eqb Z.add Z.sub Z.leb]. unfold counted, counted_body. rewrite Er. cbn -[Z.eqb Z.add Z.sub Z.leb].
       rewrite ?Er. rewrite ?or_zero in *.
    exists w2. split; [reflexivity |].
    split; [eapply steady_trans; eassumption |].
    intros i. rewrite Hsto2. case_decide; [reflexivity | apply Hsto1]. }
  rewrite run_bind. save_step (steady_calm _ _ Hst1) w2 Hrun2 Hst2 Hsto2.
  cbn -[Z.eqb Z.add Z.sub Z.leb]. rewrite run_bind. save_step (steady_calm _ _ Hst2) w3 Hrun3 Hst3 Hsto3.
  cbn -[Z.eqb Z.add Z.sub Z.leb]. unfold counted, counted_body. rewrite Er. cbn -[Z.eqb Z.add Z.sub Z.leb].
       rewrite ?Er. rewrite ?or_zero in *.
  exists w3. split; [reflexivity |].
  split; [eapply steady_trans; [| exact Hst3]; eapply steady_trans; eassumption |].
  intros i. rewrite Hsto3. case_decide; [reflexivity |].
  rewrite Hsto2. case_decide; [contradiction | apply Hsto1].
Qed.

(** Under a calm schedule GET /api/pastes/:id/metadata is
    [FetchMetadata]. *)
Lemma get_api_pastes_id_metadata_calm req w :
  calm (faults w) = true ->
  is_empty (params_id req) = false ->
  (js_length (params_id req) <= 100)%nat ->
  let id := params_id req in
  let now := current_time cfg req (wallClock w) in
  exists w',
    run (get_api_pastes_id_metadata cfg req) w
      = (Returned (fst (FetchMetadata now (stored w id))), w') /\
    steady w w' /\
    forall i, stored w' i =
              if decide (i = id) then snd (FetchMetadata now (stored w id)) else stored w i.
Proof.
  intros Hc Hne Hlen id now. unfold get_api_pastes_id_metadata. cbv zeta.
  rewrite run_try_catch. rewrite Hne.
  replace (100 <? js_length (params_id req))%nat with false
    by (symmetry; apply Nat.ltb_ge; exact Hlen).
  fold id. cbn [orb]. rewrite run_bind.
  destruct (getPaste_calm id w Hc) as (w1 & Hrun1 & Hst1 & Hsto1). rewrite Hrun1.
  assert (Hclk : wallClock w1 = wallClock w) by (unfold steady in Hst1; tauto).
  destruct (stored w id) as [p |] eqn:Ep; cbn.
  2: { exists w1. split; [reflexivity |]. split; [exact Hst1 |].
       intros i. rewrite Hsto1. case_decide; [subst; exact Ep | reflexivity]. }
  rewrite run_bind, getCurrentTime_run, Hclk. fold now.
  destruct (expired now p) eqn:Eexp.
  { rewrite run_bind. delete_step (steady_calm _ _ Hst1) w2 Hrun2 Hst2 Hsto2.
    cbn. exists w2. split; [reflexivity |].
    split; [eapply steady_trans; eassumption |].
    intros i. rewrite Hsto2. case_decide; [reflexivity | apply Hsto1]. }
  cbn [orb]. destruct (views_exhausted p) eqn:Eex.
  { rewrite run_bind. delete_step (steady_calm _ _ Hst1) w2 Hrun2 Hst2 Hsto2.
    cbn. exists w2. split; [reflexivity |].
    split; [eapply steady_trans; eassumption |].
    intros i. rewrite Hsto2. case_decide; [reflexivity | apply Hsto1]. }
  exists w1. split; [reflexivity |]. split; [exact Hst1 |].
  intros i. rewrite Hsto1. case_decide; [subst; exact Ep | reflexivity].
Qed.

(** Whatever the schedule, the metadata read answers "not found" or the
    record its identifier stands for, and in the second case it has
    written nothing. *)
Lemma get_api_pastes_id_metadata_any req w :
  let id := params_id req in
  let now := current_time cfg req (wallClock w) in
  exists resp w',
    run (get_api_pastes_id_metadata cfg req) w = (Returned resp, w') /\
    (resp = not_found \/
     exists p, stored w id = Some p /\ resp = metadata_body p /\
               expired now p = false /\ views_exhausted p = false /\
               redis_ready w' = redis_ready w /\
               redis w' = redis w /\ memoryStore w' = memoryStore w).
Proof.
  intros id now. unfold get_api_pastes_id_metadata. cbv zeta.
  rewrite run_try_catch. fold id.
  destruct (is_empty id || (100 <? js_length id)%nat).
  { exists not_found, w. split; [reflexivity | left; reflexivity]. }
  rewrite run_bind.
  destruct (getPaste_any id w) as (r & w1 & Hrun1 & (Hrdy1 & Hclk) & Hsto1 & Hres).
  rewrite Hrun1.
  destruct r as [p |]; cbn.
  2: { exists not_found, w1. split; [reflexivity | left; reflexivity]. }
  destruct Hres as [Hres | (Hres & Hre & Hme)]; [discriminate |].
  rewrite run_bind, getCurrentTime_run, Hclk. fold now.
  destruct (expired now p) eqn:Eexp.
  { rewrite run_bind.
    destruct (deletePaste_any id w1) as (b & w2 & Hrun2 & _). rewrite Hrun2.
    exists not_found, w2. split; [reflexivity | left; reflexivity]. }
  destruct (views_exhausted p) eqn:Eex.
  { rewrite run_bind.
    destruct (deletePaste_any id w1) as (b & w2 & Hrun2 & _). rewrite Hrun2.
    exists not_found, w2. split; [reflexivity | left; reflexivity]. }
  exists (metadata_body p), w1. split; [reflexivity |]. right.
  exists p. repeat split; auto.
Qed.

(** Whatever the schedule, the counted read of an identifier that stands
    for an expired or exhausted record answers "not found". *)
Lemma get_api_pastes_id_any_refused req w p :
  stored w (params_id req) = Some p ->
  expired (current_time cfg req (wallClock w)) p || views_exhausted p = true ->
  exists w', run (get_api_pastes_id cfg req) w = (Returned not_found, w').
Proof.
  intros Hp Hdead. unfold get_api_pastes_id. cbv zeta.
  rewrite run_try_catch.
  destruct (is_empty (params_id req)); [exists w; reflexivity |].
  destruct (100 <? js_length (params_id req))%nat; [exists w; reflexivity |].
  rewrite run_bind.
  destruct (getPaste_any (params_id req) w)
    as (r & w1 & Hrun1 & (Hrdy1 & Hclk) & Hsto1 & Hres).
  rewrite Hrun1.
  destruct r as [q |]; cbn; [| exists w1; reflexivity].
  destruct Hres as [Hres | (Hres & Hre & Hme)]; [discriminate |].
  assert (q = p) by congruence. subst q.
  rewrite run_bind, getCurrentTime_run, Hclk.
  destruct (expired (current_time cfg req (wallClock w)) p) eqn:Eexp.
  { rewrite run_bind.
    destruct (deletePaste_any (params_id req) w1) as (b & w2 & Hrun2 & _). rewrite Hrun2.
    exists w2. reflexivity. }
  cbn in Hdead. unfold views_exhausted in Hdead.
  rewrite run_bind. unfold decrementViewsAtomic.
  destruct (remaining_views p) as [r |]; [| discriminate].
  rewrite Hdead. rewrite run_bind.
  destruct (deletePaste_any (params_id req) w1) as (b & w2 & Hrun2 & _). rewrite Hrun2.
  exists w2. reflexivity.
Qed.

(** Whatever the schedule, GET /api/pastes/:id answers 404, 500 or the
    record with one view spent.  When it serves the record, no other
    identifier is touched; the record is stored with the view spent when
    views remain, and when the view was the last one it is gone, or it is
    stored as it was. *)
Lemma get_api_pastes_id_any req w :
  let id := params_id req in
  let now := current_time cfg req (wallClock w) in
  exists resp w',
    run (get_api_pastes_id cfg req) w = (Returned resp, w') /\
    (resp = not_found \/ resp = internal_server_error \/
     exists p, stored w id = Some p /\ resp = counted_body (counted p) /\
               expired now p = false /\
               (forall i, i <> id -> stored w' i = stored w i) /\
               match remaining_views p with
               | None => stored w' id = Some (counted p)
               | Some r =>
                   (0 < r)%Z /\
                   if (r - 1 <=? 0)%Z
                   then stored w' id = None \/ stored w' id = Some p
                   else stored w' id = Some (counted p)
               end).
Proof.
  intros id now. unfold get_api_pastes_id. cbv zeta. rewrite run_try_catch. fold id.
  destruct (is_empty id); [exists not_found, w; split; [reflexivity | auto] |].
  destruct (100 <? js_length id)%nat; [exists not_found, w; split; [reflexivity | auto] |].
  rewrite run_bind.
  destruct (getPaste_any id w) as (r & w1 & Hrun1 & (Hrdy1 & Hclk) & Hsto1 & Hres).
  rewrite Hrun1.
  destruct r as [p |]; cbn -[Z.eqb Z.add Z.sub Z.leb];
    [| exists not_found, w1; split; [reflexivity | auto]].
  destruct Hres as [Hres | (Hres & Hre & Hme)]; [discriminate |].
  symmetry in Hres.
  rewrite run_bind, getCurrentTime_run, Hclk. fold now.
  destruct (expired now p) eqn:Eexp.
  { rewrite run_bind.
    destruct (deletePaste_any id w1) as (b & w2 & Hrun2 & _). rewrite Hrun2.
    exists not_found, w2. split; [reflexivity | auto]. }
  rewrite run_bind. unfold decrementViewsAtomic.
  destruct (remaining_views p) as [r |] eqn:Er.
  2: { cbn -[Z.eqb Z.add Z.sub Z.leb]. rewrite run_bind.
       destruct (savePaste_any id (set_view_count p
                   ((if (view_count p =? 0)%Z then 0 else view_count p) + 1)%Z) w1)
         as [(w2 & Hrun2 & _ & Hsto2) | (e & w2 & Hrun2 & _)]; rewrite Hrun2.
       - cbn -[Z.eqb Z.add Z.sub Z.leb]. rewrite or_zero in *.
         exists (counted_body (counted p)), w2.
         split; [unfold counted, counted_body; rewrite Er; cbn -[Z.eqb Z.add Z.sub Z.leb];
           rewrite ?Er; reflexivity |].
         right. right. exists p. split; [exact Hres |]. split; [reflexivity |].
         split; [exact Eexp |]. rewrite Er. split.
         + intros i Hi. rewrite Hsto2. case_decide; [contradiction | apply Hsto1].
         + rewrite Hsto2. case_decide; [| contradiction].
           unfold counted. rewrite Er. reflexivity.
       - exists internal_server_error, w2. split; [reflexivity | auto]. }
  destruct (Z.leb_spec r 0) as [Hr0 | Hr0].
  { rewrite run_bind.
    destruct (deletePaste_any id w1) as (b & w2 & Hrun2 & _). rewrite Hrun2.
    exists not_found, w2. split; [reflexivity | auto]. }
  cbv zeta. destruct (r - 1 <=? 0)%Z eqn:Er1.
  { rewrite run_bind.
    destruct (deletePaste_any id w1) as (b & w2 & Hrun2 & _ & Hoth & Hid). rewrite Hrun2.
    cbn -[Z.eqb Z.add Z.sub Z.leb]. rewrite ?or_zero.
    exists (counted_body (counted p)), w2.
    split; [unfold counted, counted_body; rewrite Er; cbn -[Z.eqb Z.add Z.sub Z.leb];
           rewrite ?Er; reflexivity |].
    right. right. exists p. split; [exact Hres |]. split; [reflexivity |].
    split; [exact Eexp |]. rewrite Er, Er1. split.
    - intros i Hi. rewrite Hoth by exact Hi. apply Hsto1.
    - split; [exact Hr0 |].
      destruct Hid as [Hid | (_ & Hre2 & Hme2)]; [left; exact Hid | right].
      rewrite <- Hres, <- Hsto1. apply stored_ext; [| assumption | assumption].
      destruct (deletePaste_any id w1) as (b' & w2' & Hrun2' & (Hrdy2 & _) & _).
      rewrite Hrun2 in Hrun2'. injection Hrun2' as _ <-. exact Hrdy2. }
  rewrite run_bind.
  destruct (savePaste_any id (set_remaining_views p (Some (r - 1)%Z)) w1)
    as [(w2 & Hrun2 & _ & Hsto2) | (e & w2 & Hrun2 & _)]; rewrite Hrun2.
  2: { exists internal_server_error, w2. split; [reflexivity | auto]. }
  cbn -[Z.eqb Z.add Z.sub Z.leb]. rewrite run_bind.
  match goal with
  | |- context [run (savePaste id ?q) w2] =>
      destruct (savePaste_any id q w2)
        as [(w3 & Hrun3 & _ & Hsto3) | (e & w3 & Hrun3 & _)]; rewrite Hrun3
  end.
  2: { exists internal_server_error, w3. split; [reflexivity | auto]. }
  cbn -[Z.eqb Z.add Z.sub Z.leb]. rewrite or_zero in *.
  exists (counted_body (counted p)), w3.
  split; [unfold counted, counted_body; rewrite Er; cbn -[Z.eqb Z.add Z.sub Z.leb];
           rewrite ?Er; reflexivity |].
  right. right. exists p. split; [exact Hres |]. split; [reflexivity |].
  split; [exact Eexp |]. rewrite Er, Er1. split.
  - intros i Hi. rewrite Hsto3. case_decide; [contradiction |].
    rewrite Hsto2. case_decide; [contradiction | apply Hsto1].
  - split; [exact Hr0 |]. rewrite Hsto3. case_decide; [| contradiction].
    unfold counted. rewrite Er. reflexivity.
Qed.

(** The read of the last view while Redis answers the load and fails
    the three attempts of the delete: the record is served. *)
Lemma last_view_delete_fails req w p fs :
  redis_ready w = true ->
  faults w = false :: true :: true :: true :: fs ->
  is_empty (params_id req) = false ->
  (js_length (params_id req) <= 100)%nat ->
  stored w (params_id req) = Some p ->
  remaining_views p = Some 1%Z ->
  expired (current_time cfg req (wallClock w)) p = false ->
  run (get_api_pastes_id cfg req) w
  = (Returned (counted_body (counted p)), set_faults fs w).
Proof.
  intros Hr Hf Hne Hlen Hp Hone Hexp.
  assert (Hlt : (100 <? js_length (params_id req))%nat = false)
    by (apply Nat.ltb_ge; exact Hlen).
  assert (Hget : run (getPaste (params_id req)) w
                 = (Returned (Some p), set_faults (true :: true :: true :: fs) w)).
  { unfold getPaste.
    rewrite getPaste_from_answered by (first [exact Hr | rewrite Hf; reflexivity]).
    rewrite Hf. cbn [tl]. unfold stored in Hp. rewrite Hr in Hp. unfold after_get.
    destruct (redis w !! redis_key (params_id req)) as [data |]; [| discriminate].
    destruct (is_empty data); [discriminate |]. rewrite Hp. reflexivity. }
  assert (Hdel : run (deletePaste (params_id req))
                   (set_faults (true :: true :: true :: fs) w)
                 = (Returned false, set_faults fs w)).
  { destruct w as [rc rn rd mem fs' clk ent dr]. unfold redis_ready in Hr. cbn in Hr.
    apply andb_true_iff in Hr as [-> ->]. reflexivity. }
  unfold get_api_pastes_id. cbv zeta.
  rewrite run_try_catch, Hne, Hlt, run_bind, Hget. cbn [fst snd].
  rewrite run_bind, getCurrentTime_run.
  change (wallClock (set_faults (true :: true :: true :: fs) w)) with (wallClock w).
  rewrite Hexp, run_bind. unfold decrementViewsAtomic. rewrite Hone.
  cbv zeta. change (1 <=? 0)%Z with false. change (1 - 1 <=? 0)%Z with true.
  cbv iota. rewrite run_bind, Hdel.
  cbn -[Z.eqb Z.add Z.sub Z.leb]. rewrite ?or_zero.
  unfold counted, counted_body. rewrite Hone. cbn -[Z.eqb Z.add Z.sub Z.leb].
  rewrite ?Hone. reflexivity.
Qed.

(** The creation of a paste whose first drawn identifier is free. *)
Lemma post_api_pastes_calm req w c :
  calm (faults w) = true ->
  check_content (body_content req) = GoodContent c ->
  check_ttl_seconds (body_ttl_seconds req) = None ->
  check_max_views (body_max_views req) = None ->
  stored w (entropy w (drawn w)) = None ->
  let id := entropy w (drawn w) in
  exists w',
    run (post_api_pastes cfg req) w
      = (Returned {| status := 201;
                     body := [("id", RString id);
                              ("url", RString (paste_url cfg req id))] |}, w') /\
    calm (faults w') = true /\
    forall i, stored w' i =
              if decide (i = id)
              then Some (pasteData c (body_ttl_seconds req) (body_max_views req)
                           (wallClock w))
              else stored w i.
Proof.
  intros Hc Hcon Httl Hmax Hfree id. unfold post_api_pastes.
  rewrite run_try_catch, Hcon, Httl, Hmax. rewrite run_bind.
  change (run (draw_id maxAttempts 0) w)
    with (run (existing <- getPaste id ;;
               match existing with
               | None => Ret (id, 0%nat)
               | Some _ => draw_id 9 1
               end) (set_drawn (S (drawn w)) w)).
  rewrite run_bind.
  destruct (getPaste_calm id (set_drawn (S (drawn w)) w) Hc) as (w1 & Hrun1 & Hst1 & Hsto1).
  rewrite Hrun1.
  change (stored (set_drawn (S (drawn w)) w) id) with (stored w id).
  unfold id at 1. rewrite Hfree. cbn -[Z.eqb Z.add Z.sub Z.leb Z.mul].
  rewrite run_bind. cbn -[Z.eqb Z.add Z.sub Z.leb Z.mul].
  rewrite run_bind. save_step (steady_calm _ _ Hst1) w2 Hrun2 Hst2 Hsto2.
  cbn -[Z.eqb Z.add Z.sub Z.leb Z.mul].
  exists w2. split; [| split; [eapply steady_calm, Hst2 |]].
  - reflexivity.
  - intros i. rewrite Hsto2. unfold steady in Hst1. cbn in Hst1.
    destruct Hst1 as (_ & _ & _ & Hclk & _).
    case_decide; [rewrite Hclk; reflexivity | apply Hsto1].
Qed.

End HandlerFacts.

(** ** The clock *)

Example parseInt_digits : parseInt "61000" = Some 61000%Z.
Proof. reflexivity. Qed.

Example parseInt_skips_space_and_reads_a_prefix : parseInt "  12abc" = Some 12%Z.
Proof. reflexivity. Qed.

Example parseInt_negative : parseInt "-5" = Some (-5)%Z.
Proof. reflexivity. Qed.

Example parseInt_no_digit : parseInt "soon" = None.
Proof. reflexivity. Qed.

(** A no-break space (U+00A0, the bytes C2 A0) before the digits is
    skipped, as is a byte order mark (U+FEFF, the bytes EF BB BF). *)
Example parseInt_skips_a_no_break_space :
  parseInt (String (ascii_of_nat 194) (String (ascii_of_nat 160) "12")) = Some 12%Z /\
  parseInt (String (ascii_of_nat 239) (String (ascii_of_nat 187)
              (String (ascii_of_nat 191) "12"))) = Some 12%Z.
Proof. split; reflexivity. Qed.

(** The byte A0 on the wire reaches [getCurrentTime] as the character
    U+00A0, which [parseInt] skips. *)
Example parseInt_of_a_header_from_the_wire :
  latin1 (String (ascii_of_nat 160) "12")
  = String (ascii_of_nat 194) (String (ascii_of_nat 160) "12") /\
  run (getCurrentTime test_config
         (read_request "abc1234567" (Some (latin1 (String (ascii_of_nat 160) "12")))))
      (example_world true [])
  = (Returned 12%Z, example_world true []).
Proof. split; reflexivity. Qed.

(** Past [2 ^ 53] the digits are read to the nearest double: to the even
    neighbour in a tie, and to [Infinity] past the largest double. *)
Example parseInt_rounds_to_a_double :
  parseInt "9007199254740993" = Some 9007199254740992%Z /\
  parseInt "9007199254740995" = Some 9007199254740996%Z /\
  parseInt "9007199254740992" = Some 9007199254740992%Z /\
  round_double (2 ^ 1024 - 2 ^ 970 - 1) = (2 ^ 1024 - 2 ^ 971)%Z /\
  round_double (2 ^ 1024 - 2 ^ 970) = infinity.
Proof. repeat split; vm_compute; reflexivity. Qed.

(** A character of one byte that is no white space is where
    [skip_spaces] stops. *)
Lemma skip_spaces_head a r :
  (code a < 128)%nat -> is_space a = false -> skip_spaces (String a r) = String a r.
Proof.
  intros Ha Hs. cbn [skip_spaces]. rewrite Hs.
  destruct r as [| b r2]; [reflexivity |].
  replace (is_space2 a b) with false
    by (unfold is_space2; destruct (Nat.eqb_spec (code a) 194); [lia | reflexivity]).
  destruct r2 as [| c r3]; [reflexivity |].
  replace (is_space3 a b c) with false; [reflexivity |].
  unfold is_space3.
  destruct (Nat.eqb_spec (code a) 225); [lia |].
  destruct (Nat.eqb_spec (code a) 226); [lia |].
  destruct (Nat.eqb_spec (code a) 227); [lia |].
  destruct (Nat.eqb_spec (code a) 239); [lia |]. reflexivity.
Qed.

(** White space before a string is skipped with the white space the
    string begins with. *)
Lemma skip_spaces_app sp s :
  skip_spaces sp = EmptyString -> skip_spaces (sp +:+ s) = skip_spaces s.
Proof.
  remember (String.length sp) as n eqn:Hn. revert sp Hn.
  induction n as [n IH] using lt_wf_ind. intros sp Hn Hsp.
  destruct sp as [| a r]; [reflexivity |].
  change (String a r +:+ s) with (String a (r +:+ s)).
  cbn [skip_spaces] in Hsp |- *. cbn [String.length] in Hn.
  destruct (is_space a).
  { apply (IH (String.length r)); [lia | reflexivity | exact Hsp]. }
  destruct r as [| b r2]; [discriminate Hsp |].
  change (String b r2 +:+ s) with (String b (r2 +:+ s)). cbv beta iota.
  cbn [String.length] in Hn.
  destruct (is_space2 a b).
  { apply (IH (String.length r2)); [lia | reflexivity | exact Hsp]. }
  destruct r2 as [| c r3]; [discriminate Hsp |].
  change (String c r3 +:+ s) with (String c (r3 +:+ s)). cbv beta iota.
  cbn [String.length] in Hn.
  destruct (is_space3 a b c); [| discriminate Hsp].
  apply (IH (String.length r3)); [lia | reflexivity | exact Hsp].
Qed.

Lemma digit_is_no_sign_nor_space c s :
  is_Some (digit_of c) ->
  parseInt (String c s) = round_double <$> leading_digits (String c s) None.
Proof.
  intros [d Hd]. unfold parseInt.
  assert (Hrange : (48 <= code c <= 57)%nat).
  { unfold digit_of in Hd. fold (code c) in Hd.
    destruct (Nat.leb_spec 48 (code c)); [| discriminate Hd].
    destruct (Nat.leb_spec (code c) 57); [lia | discriminate Hd]. }
  rewrite skip_spaces_head; [| lia |].
  - destruct c as [[] [] [] [] [] [] [] []]; cbn in Hd; try discriminate Hd; reflexivity.
  - unfold is_space.
    destruct (Nat.leb_spec (code c) 13); [lia |].
    destruct (Nat.eqb_spec (code c) 32); [lia |].
    rewrite andb_false_r. reflexivity.
Qed.

Lemma leading_digits_stop ds rest : forall acc,
  all_digits ds = true ->
  starts_with_digit rest = false ->
  leading_digits (ds +:+ rest) acc = leading_digits ds acc.
Proof.
  induction ds as [| c ds IH]; intros acc Hds Hrest.
  - change (EmptyString +:+ rest) with rest.
    destruct rest as [| c rest]; [reflexivity |].
    cbn in Hrest |- *. apply bool_decide_eq_false in Hrest.
    destruct (digit_of c); [exfalso; apply Hrest; eauto | reflexivity].
  - cbn in Hds. apply andb_true_iff in Hds as [Hc Hds].
    apply bool_decide_eq_true in Hc. destruct Hc as [d Hd].
    change (String c ds +:+ rest) with (String c (ds +:+ rest)).
    cbn. rewrite Hd. apply IH; assumption.
Qed.

Lemma leading_digits_nonneg ds : forall acc t,
  (forall a, acc = Some a -> (0 <= a)%Z) ->
  leading_digits ds acc = Some t -> (0 <= t)%Z.
Proof.
  induction ds as [| c ds IH]; intros acc t Hacc Ht; cbn in Ht.
  - apply Hacc, Ht.
  - unfold digit_of in Ht.
    destruct ((48 <=? nat_of_ascii c)%nat && (nat_of_ascii c <=? 57)%nat); [| apply Hacc, Ht].
    eapply IH; [| exact Ht]. intros a [= <-].
    destruct acc as [a0 |]; cbn; [specialize (Hacc a0 eq_refl) |]; lia.
Qed.

Lemma leading_digits_some ds : forall acc,
  all_digits ds = true -> is_empty ds = false \/ is_Some acc ->
  is_Some (leading_digits ds acc).
Proof.
  induction ds as [| c ds IH]; intros acc Hds Hne.
  - destruct Hne as [Hne | Hacc]; [discriminate | exact Hacc].
  - cbn in Hds |- *. apply andb_true_iff in Hds as [Hc Hds].
    apply bool_decide_eq_true in Hc. destruct Hc as [d ->].
    apply IH; [exact Hds | right; eauto].
Qed.

(** [parseInt] skips the white space a header begins with, reads the
    digits that follow and ignores what follows them; the number read
    is the nearest double to the number the digits denote. *)
Lemma parseInt_reads_the_leading_digits sp ds rest :
  skip_spaces sp = EmptyString ->
  all_digits ds = true ->
  is_empty ds = false ->
  starts_with_digit rest = false ->
  parseInt (sp +:+ ds +:+ rest) = Some (round_double (decimal ds)) /\
  (0 <= decimal ds)%Z.
Proof.
  intros Hsp Hds Hne Hrest.
  destruct ds as [| c ds]; [discriminate |].
  assert (Hc : is_Some (digit_of c)).
  { cbn in Hds. apply andb_true_iff in Hds as [Hc _].
    apply bool_decide_eq_true in Hc. exact Hc. }
  destruct (leading_digits_some (String c ds) None Hds (or_introl eq_refl)) as [t Ht].
  assert (Hdec : decimal (String c ds) = t) by (unfold decimal; rewrite Ht; reflexivity).
  rewrite Hdec. split.
  - unfold parseInt at 1. rewrite skip_spaces_app by exact Hsp.
    fold (parseInt (String c ds +:+ rest)).
    change (String c ds +:+ rest) with (String c (ds +:+ rest)).
    rewrite digit_is_no_sign_nor_space by exact Hc.
    change (String c (ds +:+ rest)) with (String c ds +:+ rest).
    rewrite leading_digits_stop by assumption.
    rewrite Ht. reflexivity.
  - eapply leading_digits_nonneg; [| exact Ht]. intros a [=].
Qed.

(** C7, as the code has it.  In test mode [getCurrentTime] returns the
    override when [parseInt] reads a non-negative number from the
    header.  [parseInt] skips the white space the header begins with,
    reads the decimal digits that follow and ignores whatever follows
    them; the number read is the double nearest to the number the digits
    denote, hence that number itself below [2 ^ 53].  When the header is
    missing, when [parseInt] gives NaN (the header is empty or begins
    with no digit) and when the number read is negative, it returns
    [Date.now()].  In every case, and in every mode, it returns a
    timestamp, throws nothing and leaves the world as it was. *)
Theorem getCurrentTime_override cfg req w :
  testMode cfg = true ->
  (forall h t, x_test_now_ms req = Some h -> parseInt h = Some t -> (0 <= t)%Z ->
     run (getCurrentTime cfg req) w = (Returned t, w)) /\
  (forall sp ds rest,
     x_test_now_ms req = Some (sp +:+ ds +:+ rest) ->
     skip_spaces sp = EmptyString ->
     all_digits ds = true -> is_empty ds = false -> starts_with_digit rest = false ->
     run (getCurrentTime cfg req) w = (Returned (round_double (decimal ds)), w) /\
     ((decimal ds < 2 ^ 53)%Z -> round_double (decimal ds) = decimal ds)) /\
  (x_test_now_ms req = None ->
     run (getCurrentTime cfg req) w = (Returned (wallClock w), w)) /\
  (forall h, x_test_now_ms req = Some h -> parseInt h = None ->
     run (getCurrentTime cfg req) w = (Returned (wallClock w), w)) /\
  (forall h t, x_test_now_ms req = Some h -> parseInt h = Some t -> (t < 0)%Z ->
     run (getCurrentTime cfg req) w = (Returned (wallClock w), w)) /\
  (forall cfg', exists t, run (getCurrentTime cfg' req) w = (Returned t, w)).
Proof.
  intros Hmode. rewrite getCurrentTime_run. unfold current_time. rewrite Hmode.
  split; [| split; [| repeat split]].
  - intros h t -> -> Ht. destruct (Z.ltb_spec t 0); [lia | reflexivity].
  - intros sp ds rest -> Hsp Hds Hne Hrest.
    destruct (parseInt_reads_the_leading_digits sp ds rest Hsp Hds Hne Hrest)
      as [Hread Hpos].
    rewrite Hread. split; [| apply round_double_exact].
    pose proof (round_double_nonneg _ Hpos).
    destruct (Z.ltb_spec (round_double (decimal ds)) 0); [lia | reflexivity].
  - intros ->. reflexivity.
  - intros h -> ->. reflexivity.
  - intros h t -> -> Ht. destruct (Z.ltb_spec t 0); [reflexivity | lia].
  - intros cfg'. eexists. apply getCurrentTime_run.
Qed.

(** C7, as the claim has it, fails on an override that is no integer but
    begins like one: for the header ["12abc"] the clock is 12 and not the
    wall clock, which shows 1000. *)
Lemma override_with_a_tail_is_used :
  run (getCurrentTime test_config (read_request "abc1234567" (Some "12abc")))
      (example_world true [])
  = (Returned 12%Z, example_world true []) /\
  wallClock (example_world true []) = 1000%Z.
Proof. split; reflexivity. Qed.

Lemma getCurrentTime_override_witness :
  run (getCurrentTime test_config (read_request "abc1234567" (Some "61000")))
      (example_world true [])
  = (Returned 61000%Z, example_world true []).
Proof.
  apply (proj1 (getCurrentTime_override test_config
                  (read_request "abc1234567" (Some "61000"))
                  (example_world true []) eq_refl) "61000" 61000%Z);
    [reflexivity | reflexivity | lia].
Defined.

(** ** Records that must not be served *)

Lemma FetchCounted_refused now p :
  expired now p || views_exhausted p = true ->
  FetchCounted now (Some p) = (not_found, None).
Proof.
  unfold FetchCounted, views_exhausted. destruct (expired now p); [reflexivity |].
  cbn. destruct (remaining_views p) as [r |]; [| discriminate].
  intros ->. reflexivity.
Qed.

Lemma FetchMetadata_refused now p :
  expired now p || views_exhausted p = true ->
  FetchMetadata now (Some p) = (not_found, None).
Proof. unfold FetchMetadata. intros ->. reflexivity. Qed.

Section Refusals.
Context `{JSON}.
Variable cfg : config.

Lemma get_api_pastes_id_metadata_any_refused req w p :
  stored w (params_id req) = Some p ->
  expired (current_time cfg req (wallClock w)) p || views_exhausted p = true ->
  exists w', run (get_api_pastes_id_metadata cfg req) w = (Returned not_found, w').
Proof.
  intros Hp Hdead.
  destruct (get_api_pastes_id_metadata_any cfg req w)
    as (resp & w' & Hrun & [-> | (q & Hq & _ & Hexp & Hex & _)]).
  - exists w'. exact Hrun.
  - assert (q = p) by congruence. subst q. rewrite Hexp, Hex in Hdead. discriminate.
Qed.

Lemma refused_then_deleted req w p :
  stored w (params_id req) = Some p ->
  expired (current_time cfg req (wallClock w)) p || views_exhausted p = true ->
  calm (faults w) = true ->
  is_empty (params_id req) = false ->
  (js_length (params_id req) <= 100)%nat ->
  stored (snd (run (get_api_pastes_id cfg req) w)) (params_id req) = None /\
  stored (snd (run (get_api_pastes_id_metadata cfg req) w)) (params_id req) = None.
Proof.
  intros Hp Hdead Hc Hne Hlen. split.
  - destruct (get_api_pastes_id_calm cfg req w Hc Hne Hlen) as (w' & Hrun & _ & Hsto).
    rewrite Hrun. cbn [snd]. rewrite Hsto, Hp, FetchCounted_refused by exact Hdead.
    case_decide; [reflexivity | contradiction].
  - destruct (get_api_pastes_id_metadata_calm cfg req w Hc Hne Hlen) as (w' & Hrun & _ & Hsto).
    rewrite Hrun. cbn [snd]. rewrite Hsto, Hp, FetchMetadata_refused by exact Hdead.
    case_decide; [reflexivity | contradiction].
Qed.

(** C5. A record whose remaining views are not null and at most zero is
    served by neither read, whatever the fault schedule: both answer
    "not found"; and when no delete exhausts its attempts the record is
    gone from the store once the read has answered. *)
Theorem exhausted_record_is_never_served req w p :
  stored w (params_id req) = Some p ->
  views_exhausted p = true ->
  (exists w', run (get_api_pastes_id cfg req) w = (Returned not_found, w')) /\
  (exists w', run (get_api_pastes_id_metadata cfg req) w = (Returned not_found, w')) /\
  (calm (faults w) = true ->
   is_empty (params_id req) = false ->
   (js_length (params_id req) <= 100)%nat ->
   stored (snd (run (get_api_pastes_id cfg req) w)) (params_id req) = None /\
   stored (snd (run (get_api_pastes_id_metadata cfg req) w)) (params_id req) = None).
Proof.
  intros Hp Hex.
  assert (Hdead : expired (current_time cfg req (wallClock w)) p || views_exhausted p = true)
    by (rewrite Hex; apply orb_true_r).
  split; [eapply get_api_pastes_id_any_refused; eassumption |].
  split; [eapply get_api_pastes_id_metadata_any_refused; eassumption |].
  intros Hc Hne Hlen. eapply refused_then_deleted; eassumption.
Qed.

Lemma deletePaste_exhausted id w fs :
  redis_ready w = true ->
  faults w = true :: true :: true :: fs ->
  run (deletePaste id) w = (Returned false, set_faults fs w).
Proof.
  destruct w as [rc rn rd mem fs' clk ent dr]. unfold redis_ready. cbn.
  intros Hr ->. apply andb_true_iff in Hr as [-> ->]. reflexivity.
Qed.

Lemma getPaste_first_try id w fs p :
  redis_ready w = true ->
  faults w = false :: fs ->
  stored w id = Some p ->
  run (getPaste id) w = (Returned (Some p), set_faults fs w).
Proof.
  intros Hr Hf Hp. unfold getPaste.
  rewrite getPaste_from_answered by (first [exact Hr | rewrite Hf; reflexivity]).
  rewrite Hf. cbn [tl]. unfold stored in Hp. rewrite Hr in Hp. unfold after_get.
  destruct (redis w !! redis_key id) as [data |]; [| discriminate].
  destruct (is_empty data); [discriminate |]. rewrite Hp. reflexivity.
Qed.

(** C10. When the expiry check or the exhaustion check of a read calls
    [deletePaste] and the three attempts of the delete fail, the delete
    returns [false] and throws nothing, the read does not look at what it
    returned, and the caller still gets "not found": whatever the fault
    schedule, a read of an expired or exhausted record answers 404 and
    never 500.  On the schedule where the load is answered and the three
    delete attempts fail, the store is left as it was. *)
Theorem failed_delete_is_swallowed req w p :
  stored w (params_id req) = Some p ->
  expired (current_time cfg req (wallClock w)) p || views_exhausted p = true ->
  (forall id w0 fs,
     redis_ready w0 = true -> faults w0 = true :: true :: true :: fs ->
     run (deletePaste id) w0 = (Returned false, set_faults fs w0)) /\
  (exists w', run (get_api_pastes_id cfg req) w = (Returned not_found, w')) /\
  (exists w', run (get_api_pastes_id_metadata cfg req) w = (Returned not_found, w')) /\
  (forall fs,
     redis_ready w = true -> faults w = false :: true :: true :: true :: fs ->
     is_empty (params_id req) = false ->
     (js_length (params_id req) <= 100)%nat ->
     run (get_api_pastes_id cfg req) w = (Returned not_found, set_faults fs w) /\
     run (get_api_pastes_id_metadata cfg req) w = (Returned not_found, set_faults fs w)).
Proof.
  intros Hp Hdead.
  split; [intros id w0 fs; apply deletePaste_exhausted |].
  split; [eapply get_api_pastes_id_any_refused; eassumption |].
  split; [eapply get_api_pastes_id_metadata_any_refused; eassumption |].
  intros fs Hr Hf Hne Hlen.
  assert (Hlt : (100 <? js_length (params_id req))%nat = false)
    by (apply Nat.ltb_ge; exact Hlen).
  pose proof (getPaste_first_try _ _ _ _ Hr Hf Hp) as Hget.
  pose proof (deletePaste_exhausted (params_id req)
                (set_faults (true :: true :: true :: fs) w) fs Hr eq_refl) as Hdel.
  change (set_faults fs (set_faults (true :: true :: true :: fs) w))
    with (set_faults fs w) in Hdel.
  split.
  - unfold get_api_pastes_id. cbv zeta.
    rewrite run_try_catch, Hne, Hlt, run_bind, Hget. cbn [fst snd].
    rewrite run_bind, getCurrentTime_run.
    change (wallClock (set_faults (true :: true :: true :: fs) w)) with (wallClock w).
    destruct (expired (current_time cfg req (wallClock w)) p) eqn:Eexp.
    + rewrite run_bind, Hdel. reflexivity.
    + cbn in Hdead. unfold views_exhausted in Hdead.
      rewrite run_bind. unfold decrementViewsAtomic.
      destruct (remaining_views p) as [r |]; [| discriminate].
      rewrite Hdead, run_bind, Hdel. reflexivity.
  - unfold get_api_pastes_id_metadata. cbv zeta.
    rewrite run_try_catch, Hne, Hlt. cbn [orb]. rewrite run_bind, Hget. cbn [fst snd].
    rewrite run_bind, getCurrentTime_run.
    change (wallClock (set_faults (true :: true :: true :: fs) w)) with (wallClock w).
    destruct (expired (current_time cfg req (wallClock w)) p) eqn:Eexp.
    + rewrite run_bind, Hdel. reflexivity.
    + cbn in Hdead. rewrite Hdead, run_bind, Hdel. reflexivity.
Qed.

End Refusals.

(** ** What the reads write *)

Section Frame.
Context `{JSON}.
Variable cfg : config.

Lemma get_api_pastes_id_bad_id req w :
  is_empty (params_id req) = true \/ (100 < js_length (params_id req))%nat ->
  run (get_api_pastes_id cfg req) w = (Returned not_found, w).
Proof.
  intros Hbad. unfold get_api_pastes_id. cbv zeta. rewrite run_try_catch.
  destruct (is_empty (params_id req)); [reflexivity |].
  destruct Hbad as [Hbad | Hbad]; [discriminate |].
  apply Nat.ltb_lt in Hbad. rewrite Hbad. reflexivity.
Qed.

(** C6, on the code.  A metadata read that succeeds has written
    nothing: both stores are as they were and the answer shows the stored
    remaining views.  A counted read that succeeds on a record with [r]
    remaining views answers [r - 1], whatever the fault schedule, and
    touches no other identifier; when views remain ([r > 1]) the record
    stored afterwards has [r - 1] remaining views, a view count one
    higher and every other field as before; on a calm schedule the read
    of an unexpired record with a view left does succeed.  Where the view
    is the last one the claim and the code part: the read answers 200
    with [remaining_views: 0] without looking at what [deletePaste]
    returned, so that when Redis answers the load and fails the three
    attempts of the delete, the record stays stored with its one view
    remaining. *)
Theorem reads_and_the_view_counter req w :
  (forall resp w',
     run (get_api_pastes_id_metadata cfg req) w = (Returned resp, w') ->
     status resp = 200%Z ->
     redis w' = redis w /\ memoryStore w' = memoryStore w /\
     exists p, stored w (params_id req) = Some p /\
               stored w' (params_id req) = Some p /\
               field "remaining_views" (body resp)
                 = Some (number_or_null (remaining_views p))) /\
  (forall p r resp w',
     stored w (params_id req) = Some p ->
     remaining_views p = Some r ->
     run (get_api_pastes_id cfg req) w = (Returned resp, w') ->
     status resp = 200%Z ->
     resp = counted_body (counted p) /\
     field "remaining_views" (body resp) = Some (RNumber (r - 1)) /\
     (forall i, i <> params_id req -> stored w' i = stored w i) /\
     ((1 < r)%Z ->
      exists p', stored w' (params_id req) = Some p' /\
                 remaining_views p' = Some (r - 1)%Z /\
                 view_count p' = (view_count p + 1)%Z /\
                 content p' = content p /\ created_at p' = created_at p /\
                 expires_at p' = expires_at p /\ max_views p' = max_views p) /\
     (r = 1%Z ->
      stored w' (params_id req) = None \/ stored w' (params_id req) = Some p)) /\
  (forall p r,
     calm (faults w) = true ->
     is_empty (params_id req) = false ->
     (js_length (params_id req) <= 100)%nat ->
     stored w (params_id req) = Some p ->
     remaining_views p = Some r ->
     (0 < r)%Z ->
     expired (current_time cfg req (wallClock w)) p = false ->
     exists w',
       run (get_api_pastes_id cfg req) w = (Returned (counted_body (counted p)), w') /\
       status (counted_body (counted p)) = 200%Z) /\
  (forall p fs,
     redis_ready w = true ->
     faults w = false :: true :: true :: true :: fs ->
     is_empty (params_id req) = false ->
     (js_length (params_id req) <= 100)%nat ->
     stored w (params_id req) = Some p ->
     remaining_views p = Some 1%Z ->
     expired (current_time cfg req (wallClock w)) p = false ->
     run (get_api_pastes_id cfg req) w
     = (Returned (counted_body (counted p)), set_faults fs w) /\
     field "remaining_views" (body (counted_body (counted p))) = Some (RNumber 0) /\
     stored (set_faults fs w) (params_id req) = Some p).
Proof.
  split; [| split; [| split]].
  - intros resp w' Hrun Hok.
    destruct (get_api_pastes_id_metadata_any cfg req w)
      as (resp0 & w0 & Hrun0 & Hres).
    rewrite Hrun in Hrun0. injection Hrun0 as <- <-.
    destruct Hres as [-> | (p & Hp & -> & _ & _ & Hrdy & Hre & Hme)]; [discriminate |].
    split; [exact Hre |]. split; [exact Hme |].
    exists p. split; [exact Hp |]. split; [| reflexivity].
    rewrite <- Hp. apply stored_ext; assumption.
  - intros p r resp w' Hp Hr Hrun Hok.
    destruct (get_api_pastes_id_any cfg req w) as (resp0 & w0 & Hrun0 & Hres).
    rewrite Hrun in Hrun0. injection Hrun0 as <- <-.
    destruct Hres as [-> | [-> | (q & Hq & -> & _ & Hoth & Hsto)]];
      [discriminate | discriminate |].
    assert (q = p) by congruence. subst q. rewrite Hr in Hsto.
    destruct Hsto as [Hpos Hsto].
    split; [reflexivity |].
    split; [unfold counted; rewrite Hr; reflexivity |].
    split; [exact Hoth |]. split.
    + intros Hr1. destruct (Z.leb_spec (r - 1) 0); [lia |].
      exists (counted p). split; [exact Hsto |].
      unfold counted. rewrite Hr. cbn. repeat split; reflexivity.
    + intros ->. exact Hsto.
  - intros p r Hc Hne Hlen Hp Hr Hpos Hexp.
    destruct (get_api_pastes_id_calm cfg req w Hc Hne Hlen) as (w' & Hrun & _).
    exists w'. split; [| reflexivity].
    rewrite Hrun, Hp. unfold FetchCounted. rewrite Hexp, Hr.
    destruct (Z.leb_spec r 0); [lia | reflexivity].
  - intros p fs Hr Hf Hne Hlen Hp Hone Hexp.
    split; [apply last_view_delete_fails; assumption |].
    split; [unfold counted; rewrite Hone; reflexivity |].
    rewrite <- Hp. apply stored_ext; reflexivity.
Qed.

End Frame.

Lemma exhausted_record_is_never_served_witness :
  exists w',
    run (get_api_pastes_id test_config (read_request "abc1234567" None))
        (holding false [] spent_paste)
    = (Returned not_found, w').
Proof.
  apply (proj1 (@exhausted_record_is_never_served demo_JSON test_config
                  (read_request "abc1234567" None)
                  (@holding demo_JSON false [] spent_paste) spent_paste
                  ltac:(vm_compute; reflexivity) eq_refl)).
Defined.

Lemma failed_delete_is_swallowed_witness :
  run (get_api_pastes_id_metadata test_config (read_request "abc1234567" None))
      (holding true [false; true; true; true] spent_paste)
  = (Returned not_found, holding true [] spent_paste).
Proof.
  apply (proj2 (proj2 (proj2 (proj2
           (@failed_delete_is_swallowed demo_JSON test_config
              (read_request "abc1234567" None)
              (@holding demo_JSON true [false; true; true; true] spent_paste) spent_paste
              ltac:(vm_compute; reflexivity) eq_refl))) [] eq_refl eq_refl eq_refl
           ltac:(vm_compute; lia))).
Defined.

Lemma reads_and_the_view_counter_witness :
  run (get_api_pastes_id test_config (read_request "abc1234567" None))
      (holding true [false; true; true; true] last_view)
  = (Returned served_last_view, holding true [] last_view) /\
  field "remaining_views" (body served_last_view) = Some (RNumber 0) /\
  stored (holding true [] last_view) "abc1234567" = Some last_view /\
  remaining_views last_view = Some 1%Z.
Proof.
  destruct (@reads_and_the_view_counter demo_JSON test_config
              (read_request "abc1234567" None)
              (@holding demo_JSON true [false; true; true; true] last_view))
    as (_ & _ & _ & Hfails).
  destruct (Hfails last_view [] eq_refl eq_refl eq_refl ltac:(vm_compute; lia)
              ltac:(vm_compute; reflexivity) eq_refl eq_refl)
    as (Hrun & Hzero & Hkept).
  split; [exact Hrun |]. split; [exact Hzero |]. split; [exact Hkept | reflexivity].
Defined.

(** ** The view budget *)

Lemma counted_spends_one p r :
  remaining_views p = Some r ->
  remaining_views (counted p) = Some (r - 1)%Z.
Proof. unfold counted. intros ->. reflexivity. Qed.

Lemma counted_keeps_expiry p : expires_at (counted p) = expires_at p.
Proof. unfold counted. destruct (remaining_views p); reflexivity. Qed.

Lemma expired_counted now p : expired now (counted p) = expired now p.
Proof. unfold expired. rewrite counted_keeps_expiry. reflexivity. Qed.

(** The record after [k] counted reads. *)
Lemma iter_counted p r k :
  remaining_views p = Some r ->
  Nat.iter k counted p =
  {| content := content p; created_at := created_at p;
     expires_at := expires_at p; max_views := max_views p;
     remaining_views := Some (r - Z.of_nat k)%Z;
     view_count := (view_count p + Z.of_nat k)%Z |}.
Proof.
  intros Hr. induction k as [| k IH].
  - cbn. rewrite Z.sub_0_r, Z.add_0_r, <- Hr. destruct p; reflexivity.
  - rewrite Nat.iter_succ, IH. unfold counted, set_view_count, set_remaining_views.
    cbn -[Z.of_nat Z.add Z.sub].
    replace (r - Z.of_nat k - 1)%Z with (r - Z.of_nat (S k))%Z by lia.
    replace (view_count p + Z.of_nat k + 1)%Z with (view_count p + Z.of_nat (S k))%Z by lia.
    reflexivity.
Qed.

Section ViewBudget.
Context `{JSON}.
Variable cfg : config.

Lemma absent_then_not_found id w t req :
  calm (faults w) = true ->
  stored w id = None ->
  params_id req = id ->
  fst (serve (get_api_pastes_id cfg) t req w) = Returned not_found /\
  fst (serve (get_api_pastes_id_metadata cfg) t req w) = Returned not_found /\
  fst (serve (fun _ => getPaste id) t req w) = Returned None.
Proof.
  intros Hc Hs <-. unfold serve.
  assert (Hs' : stored (set_wallClock t w) (params_id req) = None) by exact Hs.
  assert (Hc' : calm (faults (set_wallClock t w)) = true) by exact Hc.
  split; [| split].
  - destruct (is_empty (params_id req)) eqn:Hne.
    { rewrite get_api_pastes_id_bad_id by (left; exact Hne). reflexivity. }
    destruct (Nat.le_gt_cases (js_length (params_id req)) 100) as [Hlen | Hlen].
    2: { rewrite get_api_pastes_id_bad_id by (right; exact Hlen). reflexivity. }
    destruct (get_api_pastes_id_calm cfg req _ Hc' Hne Hlen) as (w' & Hrun & _).
    rewrite Hrun, Hs'. reflexivity.
  - destruct (get_api_pastes_id_metadata_any cfg req (set_wallClock t w))
      as (resp & w' & Hrun & [-> | (p & Hp & _)]).
    + rewrite Hrun. reflexivity.
    + rewrite Hs' in Hp. discriminate.
  - destruct (getPaste_calm (params_id req) _ Hc') as (w' & Hrun & _).
    rewrite Hrun, Hs'. reflexivity.
Qed.

(** A record with [m + 1] views left is served [m + 1] times. *)
Lemma drain_views id m :
  is_empty id = false ->
  (js_length id <= 100)%nat ->
  forall arrivals w p,
    length arrivals = S m ->
    calm (faults w) = true ->
    stored w id = Some p ->
    remaining_views p = Some (Z.of_nat (S m)) ->
    (forall t r, In (t, r) arrivals ->
       params_id r = id /\ expired (current_time cfg r t) p = false) ->
    exists w',
      serve_all (get_api_pastes_id cfg) arrivals w
        = (List.map (fun k => Returned (counted_body (Nat.iter k counted p)))
             (seq 1 (S m)), w') /\
      calm (faults w') = true /\
      stored w' id = None.
Proof.
  intros Hne Hlen. induction m as [| m IH]; intros arrivals w p Hn Hc Hp Hr Hall.
  - destruct arrivals as [| [t r] [| ? ?]]; try discriminate Hn.
    destruct (Hall t r (or_introl eq_refl)) as [Hid Hexp]. subst id.
    destruct (get_api_pastes_id_calm cfg r (set_wallClock t w) Hc Hne Hlen)
      as (w' & Hrun & Hst & Hsto).
    change (stored (set_wallClock t w) (params_id r)) with (stored w (params_id r)) in *.
    change (wallClock (set_wallClock t w)) with t in *.
    rewrite Hp in Hrun, Hsto. unfold FetchCounted in Hrun, Hsto.
    rewrite Hexp, Hr in Hrun, Hsto. cbn in Hrun, Hsto.
    exists w'. cbn. unfold serve. rewrite Hrun. split; [reflexivity |].
    split; [eapply steady_calm, Hst |].
    rewrite Hsto. case_decide; [reflexivity | contradiction].
  - destruct arrivals as [| [t r] rest]; [discriminate Hn |].
    injection Hn as Hn.
    destruct (Hall t r (or_introl eq_refl)) as [Hid Hexp]. subst id.
    destruct (get_api_pastes_id_calm cfg r (set_wallClock t w) Hc Hne Hlen)
      as (w1 & Hrun & Hst & Hsto).
    change (stored (set_wallClock t w) (params_id r)) with (stored w (params_id r)) in *.
    change (wallClock (set_wallClock t w)) with t in *.
    rewrite Hp in Hrun, Hsto. unfold FetchCounted in Hrun, Hsto.
    rewrite Hexp, Hr in Hrun, Hsto.
    destruct (Z.leb_spec (Z.of_nat (S (S m))) 0) as [Hle | _]; [lia |].
    destruct (Z.leb_spec (Z.of_nat (S (S m)) - 1) 0) as [Hle | _]; [lia |].
    cbn [fst snd] in Hrun, Hsto.
    destruct (IH rest w1 (counted p) Hn (steady_calm _ _ Hst)) as (w2 & Hall2 & Hc2 & Hs2).
    + rewrite Hsto. case_decide; [reflexivity | contradiction].
    + rewrite (counted_spends_one _ _ Hr). f_equal. lia.
    + intros t' r' Hin. rewrite expired_counted. apply Hall. right. exact Hin.
    + exists w2. split; [| split; assumption].
      cbn [serve_all]. unfold serve at 1. rewrite Hrun, Hall2.
      change (seq 1 (S (S m))) with (1%nat :: seq 2 (S m)).
      rewrite List.map_cons. f_equal. f_equal.
      rewrite <- (seq_shift (S m) 1), List.map_map. apply List.map_ext.
      intros k. rewrite Nat.iter_succ_r. reflexivity.
Qed.

Lemma pasteData_remaining c ttl N t :
  (1 <= N)%Z ->
  remaining_views (pasteData c ttl (JNumber (Integer N)) t) = Some N.
Proof. intros HN. cbn. destruct (Z.eqb_spec N 0); [lia | reflexivity]. Qed.

(** The view budget while no helper exhausts its three attempts.  A
    record created with [max_views = N] and served [N] times in a row,
    none of the reads finding it expired, is served at each of them: the
    [k]-th read returns the content with [N - k] views remaining.  After
    the [N]-th the identifier stands for nothing: a further counted
    read, a metadata read and a plain load all find it absent. *)
Theorem view_budget_is_exact creq w c N arrivals :
  calm (faults w) = true ->
  check_content (body_content creq) = GoodContent c ->
  check_ttl_seconds (body_ttl_seconds creq) = None ->
  body_max_views creq = JNumber (Integer N) ->
  (1 <= N <= 1000000)%Z ->
  stored w (entropy w (drawn w)) = None ->
  String.length (entropy w (drawn w)) = 10%nat ->
  length arrivals = Z.to_nat N ->
  (forall t r, In (t, r) arrivals ->
     params_id r = entropy w (drawn w) /\
     expired (current_time cfg r t)
       (pasteData c (body_ttl_seconds creq) (body_max_views creq) (wallClock w)) = false) ->
  exists w1 w2,
    run (post_api_pastes cfg creq) w
      = (Returned {| status := 201;
                     body := [("id", RString (entropy w (drawn w)));
                              ("url", RString (paste_url cfg creq (entropy w (drawn w))))] |},
         w1) /\
    serve_all (get_api_pastes_id cfg) arrivals w1
      = (List.map
           (fun k =>
              Returned
                {| status := 200;
                   body := [("content", RString c);
                            ("remaining_views", RNumber (N - Z.of_nat k));
                            ("expires_at",
                             iso_or_null
                               (expires_at
                                  (pasteData c (body_ttl_seconds creq)
                                     (body_max_views creq) (wallClock w))))] |})
           (seq 1 (Z.to_nat N)), w2) /\
    stored w2 (entropy w (drawn w)) = None /\
    forall t r,
      params_id r = entropy w (drawn w) ->
      fst (serve (get_api_pastes_id cfg) t r w2) = Returned not_found /\
      fst (serve (get_api_pastes_id_metadata cfg) t r w2) = Returned not_found /\
      fst (serve (fun _ => getPaste (entropy w (drawn w))) t r w2) = Returned None.
Proof.
  intros Hc Hcon Httl Hmax HN Hfree Hlen Hn Hall.
  set (id := entropy w (drawn w)) in *.
  set (p0 := pasteData c (body_ttl_seconds creq) (body_max_views creq) (wallClock w)) in *.
  assert (Hchk : check_max_views (body_max_views creq) = None).
  { rewrite Hmax. cbn. destruct (Z.ltb_spec N 1); [lia |].
    destruct (Z.ltb_spec 1000000 N); [lia | reflexivity]. }
  destruct (post_api_pastes_calm cfg creq w c Hc Hcon Httl Hchk Hfree)
    as (w1 & Hrun1 & Hc1 & Hsto1).
  fold id in Hrun1, Hsto1. fold p0 in Hsto1.
  assert (Hr0 : remaining_views p0 = Some N).
  { unfold p0. rewrite Hmax. apply pasteData_remaining. lia. }
  assert (Hne : is_empty id = false) by (destruct id; [discriminate Hlen | reflexivity]).
  assert (Hle : (js_length id <= 100)%nat) by (pose proof (js_length_le id); lia).
  destruct (drain_views id (Z.to_nat N - 1) Hne Hle arrivals w1 p0)
    as (w2 & Hall2 & Hc2 & Hs2).
  - lia.
  - exact Hc1.
  - rewrite Hsto1. case_decide; [reflexivity | contradiction].
  - rewrite Hr0. f_equal. lia.
  - exact Hall.
  - exists w1, w2. split; [exact Hrun1 |]. split; [| split; [exact Hs2 |]].
    + rewrite Hall2. replace (S (Z.to_nat N - 1)) with (Z.to_nat N) by lia.
      f_equal. apply List.map_ext. intros k.
      rewrite (iter_counted p0 N k Hr0). reflexivity.
    + intros t r Hid. apply absent_then_not_found; assumption.
Qed.

(** C1, on the code.  The budget is exceeded when the delete of the
    last view fails.  A record has one view left; Redis answers the load
    of a counted read and fails the three attempts of the delete that
    follows.  [decrementViewsAtomic] does not look at what [deletePaste]
    returned and reports the record deleted: the read answers 200 with
    [remaining_views: 0], and the record stays in the store as it was,
    loadable and with its one view.  The next counted read (no helper
    exhausting its attempts) is served the content again, and only then
    is the identifier absent: a budget of one view has paid for two. *)
Theorem last_view_is_served_again req w p fs :
  redis_ready w = true ->
  faults w = false :: true :: true :: true :: fs ->
  is_empty (params_id req) = false ->
  (js_length (params_id req) <= 100)%nat ->
  stored w (params_id req) = Some p ->
  remaining_views p = Some 1%Z ->
  expired (current_time cfg req (wallClock w)) p = false ->
  run (get_api_pastes_id cfg req) w
  = (Returned (counted_body (counted p)), set_faults fs w) /\
  status (counted_body (counted p)) = 200%Z /\
  stored (set_faults fs w) (params_id req) = Some p /\
  (calm fs = true ->
   (exists w1, run (getPaste (params_id req)) (set_faults fs w) = (Returned (Some p), w1)) /\
   exists w2,
     run (get_api_pastes_id cfg req) (set_faults fs w)
     = (Returned (counted_body (counted p)), w2) /\
     stored w2 (params_id req) = None).
Proof.
  intros Hr Hf Hne Hlen Hp Hone Hexp.
  assert (Hp' : stored (set_faults fs w) (params_id req) = Some p)
    by (rewrite <- Hp; apply stored_ext; reflexivity).
  split; [apply last_view_delete_fails; assumption |].
  split; [reflexivity |]. split; [exact Hp' |].
  intros Hc. split.
  - destruct (getPaste_calm (params_id req) (set_faults fs w) Hc) as (w1 & Hrun & _).
    exists w1. rewrite Hrun, Hp'. reflexivity.
  - destruct (get_api_pastes_id_calm cfg req (set_faults fs w) Hc Hne Hlen)
      as (w2 & Hrun & _ & Hsto).
    change (wallClock (set_faults fs w)) with (wallClock w) in Hrun, Hsto.
    rewrite Hp' in Hrun, Hsto. unfold FetchCounted in Hrun, Hsto.
    rewrite Hexp, Hone in Hrun, Hsto. cbn [fst snd] in Hrun, Hsto.
    exists w2. split; [exact Hrun |].
    rewrite Hsto. case_decide; [reflexivity | contradiction].
Qed.

End ViewBudget.

(** ** Creation, then a read *)

Lemma fresh_paste_has_views c ttl v t :
  check_max_views v = None ->
  views_exhausted (pasteData c ttl v t) = false.
Proof.
  unfold views_exhausted, pasteData, check_max_views, truthy_integer. cbn.
  destruct v as [| | b | [n |] | s |]; try discriminate; try reflexivity.
  destruct (Z.ltb_spec n 1); [discriminate |].
  intros _. destruct (Z.eqb_spec n 0); [reflexivity |].
  destruct (Z.leb_spec n 0); [lia | reflexivity].
Qed.

Lemma pasteData_expiry c T v t :
  (1 <= T)%Z ->
  expires_at (pasteData c (JNumber (Integer T)) v t) = Some (t + T * 1000)%Z.
Proof. intros HT. cbn. destruct (Z.eqb_spec T 0); [lia | reflexivity]. Qed.

Lemma check_ttl_seconds_in_range T :
  (1 <= T <= 31536000)%Z -> check_ttl_seconds (JNumber (Integer T)) = None.
Proof.
  intros HT. unfold check_ttl_seconds.
  change (365 * 24 * 60 * 60)%Z with 31536000%Z.
  destruct (Z.ltb_spec T 1); [lia |].
  destruct (Z.ltb_spec 31536000 T); [lia | reflexivity].
Qed.

Lemma check_max_views_in_range N :
  (1 <= N <= 1000000)%Z -> check_max_views (JNumber (Integer N)) = None.
Proof.
  intros HN. unfold check_max_views.
  destruct (Z.ltb_spec N 1); [lia |].
  destruct (Z.ltb_spec 1000000 N); [lia | reflexivity].
Qed.

(** An identifier of ten characters, as [nanoid(10)] draws them, passes
    the checks of the reads. *)
Lemma drawn_id_is_accepted id :
  String.length id = 10%nat ->
  is_empty id = false /\ (js_length id <= 100)%nat.
Proof.
  intros Hlen. split; [destruct id; [discriminate Hlen | reflexivity] |].
  pose proof (js_length_le id). lia.
Qed.

Section CreateThenRead.
Context `{JSON}.
Variable cfg : config.

(** What the two reads answer right after a creation, at a time when the
    record has not expired. *)
Lemma read_after_create creq freq w c t :
  calm (faults w) = true ->
  check_content (body_content creq) = GoodContent c ->
  check_ttl_seconds (body_ttl_seconds creq) = None ->
  check_max_views (body_max_views creq) = None ->
  stored w (entropy w (drawn w)) = None ->
  String.length (entropy w (drawn w)) = 10%nat ->
  params_id freq = entropy w (drawn w) ->
  let id := entropy w (drawn w) in
  let p0 := pasteData c (body_ttl_seconds creq) (body_max_views creq) (wallClock w) in
  let now := current_time cfg freq t in
  exists w1,
    run (post_api_pastes cfg creq) w
      = (Returned {| status := 201;
                     body := [("id", RString id);
                              ("url", RString (paste_url cfg creq id))] |}, w1) /\
    stored w1 id = Some p0 /\
    (expired now p0 = false ->
       fst (serve (get_api_pastes_id cfg) t freq w1)
         = Returned (counted_body (counted p0)) /\
       serve (get_api_pastes_id_metadata cfg) t freq w1
         = (Returned (metadata_body p0),
            snd (serve (get_api_pastes_id_metadata cfg) t freq w1)) /\
       stored (snd (serve (get_api_pastes_id_metadata cfg) t freq w1)) id = Some p0) /\
    (expired now p0 = true ->
       fst (serve (get_api_pastes_id cfg) t freq w1) = Returned not_found /\
       stored (snd (serve (get_api_pastes_id cfg) t freq w1)) id = None /\
       fst (serve (get_api_pastes_id_metadata cfg) t freq w1) = Returned not_found /\
       stored (snd (serve (get_api_pastes_id_metadata cfg) t freq w1)) id = None).
Proof.
  intros Hc Hcon Httl Hmax Hfree Hlen Hid id p0 now.
  destruct (post_api_pastes_calm cfg creq w c Hc Hcon Httl Hmax Hfree)
    as (w1 & Hrun1 & Hc1 & Hsto1).
  fold id in Hrun1, Hsto1, Hid. fold p0 in Hsto1.
  assert (Hp0 : stored w1 id = Some p0)
    by (rewrite Hsto1; case_decide; [reflexivity | contradiction]).
  destruct (drawn_id_is_accepted _ Hlen) as [Hne Hle]. fold id in Hne, Hle.
  rewrite <- Hid in Hne, Hle.
  assert (Hviews : views_exhausted p0 = false) by (apply fresh_paste_has_views, Hmax).
  exists w1. split; [exact Hrun1 |]. split; [exact Hp0 |].
  unfold serve.
  destruct (get_api_pastes_id_calm cfg freq (set_wallClock t w1) Hc1 Hne Hle)
    as (wc & Hrunc & _ & Hstoc).
  destruct (get_api_pastes_id_metadata_calm cfg freq (set_wallClock t w1) Hc1 Hne Hle)
    as (wm & Hrunm & _ & Hstom).
  change (wallClock (set_wallClock t w1)) with t in *. fold now in Hrunc, Hstoc, Hrunm, Hstom.
  change (stored (set_wallClock t w1) (params_id freq))
    with (stored w1 (params_id freq)) in *.
  rewrite Hid, Hp0 in Hrunc, Hstoc, Hrunm, Hstom.
  rewrite Hrunc, Hrunm. cbn [fst snd]. rewrite Hstoc, Hstom.
  destruct (decide (id = id)) as [_ | ?]; [| contradiction].
  unfold FetchCounted, FetchMetadata. split; intros ->.
  - rewrite Hviews. cbn [orb fst snd]. unfold views_exhausted in Hviews.
    destruct (remaining_views p0) as [r |]; [rewrite Hviews |]; auto.
  - cbn [orb fst snd]. auto.
Qed.

(** C3. A record created at [t0] with [ttl_seconds = T] expires at
    [t0 + T * 1000]: a counted read and a metadata read at any time
    before it, [t0 + T * 1000 - 1] included, return the record; at
    [t0 + T * 1000] and at any later time both answer "not found" and
    the record is gone from the store when they have answered. *)
Theorem ttl_boundary_is_inclusive creq freq w c T t :
  calm (faults w) = true ->
  check_content (body_content creq) = GoodContent c ->
  body_ttl_seconds creq = JNumber (Integer T) ->
  (1 <= T <= 31536000)%Z ->
  check_max_views (body_max_views creq) = None ->
  stored w (entropy w (drawn w)) = None ->
  String.length (entropy w (drawn w)) = 10%nat ->
  params_id freq = entropy w (drawn w) ->
  let id := entropy w (drawn w) in
  let p0 := pasteData c (body_ttl_seconds creq) (body_max_views creq) (wallClock w) in
  let now := current_time cfg freq t in
  exists w1,
    run (post_api_pastes cfg creq) w
      = (Returned {| status := 201;
                     body := [("id", RString id);
                              ("url", RString (paste_url cfg creq id))] |}, w1) /\
    expires_at p0 = Some (wallClock w + T * 1000)%Z /\
    ((now <= wallClock w + T * 1000 - 1)%Z ->
       fst (serve (get_api_pastes_id cfg) t freq w1)
         = Returned (counted_body (counted p0)) /\
       fst (serve (get_api_pastes_id_metadata cfg) t freq w1)
         = Returned (metadata_body p0)) /\
    ((wallClock w + T * 1000 <= now)%Z ->
       fst (serve (get_api_pastes_id cfg) t freq w1) = Returned not_found /\
       stored (snd (serve (get_api_pastes_id cfg) t freq w1)) id = None /\
       fst (serve (get_api_pastes_id_metadata cfg) t freq w1) = Returned not_found /\
       stored (snd (serve (get_api_pastes_id_metadata cfg) t freq w1)) id = None).
Proof.
  intros Hc Hcon Httl HT Hmax Hfree Hlen Hid id p0 now.
  assert (Hchk : check_ttl_seconds (body_ttl_seconds creq) = None)
    by (rewrite Httl; apply check_ttl_seconds_in_range, HT).
  destruct (read_after_create creq freq w c t Hc Hcon Hchk Hmax Hfree Hlen Hid)
    as (w1 & Hrun1 & _ & Hlive & Hdead).
  assert (He : expires_at p0 = Some (wallClock w + T * 1000)%Z)
    by (unfold p0; rewrite Httl; apply pasteData_expiry; lia).
  exists w1. split; [exact Hrun1 |]. split; [exact He |].
  fold id p0 now in Hlive, Hdead. split.
  - intros Hnow. destruct Hlive as (Hcounted & Hmeta & _).
    + unfold expired. rewrite He. apply Z.leb_gt. lia.
    + split; [exact Hcounted | rewrite Hmeta; reflexivity].
  - intros Hnow. apply Hdead. unfold expired. rewrite He. apply Z.leb_le. exact Hnow.
Qed.

End CreateThenRead.

(** ** The content read back *)

Lemma length_append (a b : string) :
  String.length (a +:+ b) = (String.length a + String.length b)%nat.
Proof.
  induction a as [| x a IH]; [reflexivity |].
  change (S (String.length (a +:+ b)) = S (String.length a + String.length b)).
  rewrite IH. reflexivity.
Qed.

Lemma replace_all_grows c rep s :
  (String.length s <= String.length (replace_all c rep s))%nat \/ String.length rep = 0%nat.
Proof.
  destruct (String.length rep) eqn:Hrep; [right; reflexivity | left].
  induction s as [| d s IH]; cbn; [lia |].
  destruct (Ascii.eqb d c); [rewrite length_append |]; cbn; lia.
Qed.

Lemma replace_all_same_length c rep s :
  (2 <= String.length rep)%nat ->
  String.length (replace_all c rep s) = String.length s ->
  occurs c s = false /\ replace_all c rep s = s.
Proof.
  intros Hrep. induction s as [| d s IH]; cbn; [auto |].
  destruct (replace_all_grows c rep s) as [Hle | Hz]; [| lia].
  destruct (Ascii.eqb d c).
  - rewrite length_append. lia.
  - cbn. intros Hlen. injection Hlen as Hlen.
    destruct (IH Hlen) as [-> ->]. auto.
Qed.

Lemma plain_text_of_no_occurrence s :
  occurs "&" s = false -> occurs "<" s = false -> occurs ">" s = false ->
  occurs double_quote s = false -> occurs "'" s = false ->
  plain_text s = true.
Proof.
  induction s as [| d s IH]; cbn; [reflexivity |].
  unfold html_special. intros H1 H2 H3 H4 H5.
  apply orb_false_iff in H1 as [-> H1]. apply orb_false_iff in H2 as [-> H2].
  apply orb_false_iff in H3 as [-> H3]. apply orb_false_iff in H4 as [-> H4].
  apply orb_false_iff in H5 as [-> H5]. cbn. auto.
Qed.

Lemma escapeHtml_plain s : plain_text s = true -> escapeHtml s = s.
Proof.
  unfold escapeHtml. induction s as [| d s IH]; cbn; [reflexivity |].
  unfold html_special. intros Hd. apply andb_true_iff in Hd as [Hd Hs].
  apply negb_true_iff in Hd.
  repeat (apply orb_false_iff in Hd as [Hd ?]).
  rewrite Hd. cbn.
  repeat match goal with E : Ascii.eqb d _ = false |- _ => rewrite E; clear E; cbn end.
  rewrite IH by exact Hs. reflexivity.
Qed.

(** [escapeHtml] gives the text back exactly when the text holds none of
    the five characters. *)
Lemma escapeHtml_fixed_iff_plain s : escapeHtml s = s <-> plain_text s = true.
Proof.
  split; [| apply escapeHtml_plain].
  unfold escapeHtml. intros Hfix.
  remember (replace_all "&" "&amp;" s) as s1 eqn:E1.
  remember (replace_all "<" "&lt;" s1) as s2 eqn:E2.
  remember (replace_all ">" "&gt;" s2) as s3 eqn:E3.
  remember (replace_all double_quote "&quot;" s3) as s4 eqn:E4.
  pose proof (f_equal String.length Hfix) as Hlen.
  destruct (replace_all_grows "&" "&amp;" s) as [L1 | ?]; [| discriminate].
  destruct (replace_all_grows "<" "&lt;" s1) as [L2 | ?]; [| discriminate].
  destruct (replace_all_grows ">" "&gt;" s2) as [L3 | ?]; [| discriminate].
  destruct (replace_all_grows double_quote "&quot;" s3) as [L4 | ?]; [| discriminate].
  destruct (replace_all_grows "'" "&#039;" s4) as [L5 | ?]; [| discriminate].
  rewrite <- E1 in L1. rewrite <- E2 in L2. rewrite <- E3 in L3. rewrite <- E4 in L4.
  destruct (replace_all_same_length "&" "&amp;" s) as [O1 F1];
    [cbn; lia | rewrite <- E1; lia |].
  rewrite <- E1 in F1. rewrite F1 in *. clear E1.
  destruct (replace_all_same_length "<" "&lt;" s) as [O2 F2];
    [cbn; lia | rewrite <- E2; lia |].
  rewrite <- E2 in F2. rewrite F2 in *. clear E2.
  destruct (replace_all_same_length ">" "&gt;" s) as [O3 F3];
    [cbn; lia | rewrite <- E3; lia |].
  rewrite <- E3 in F3. rewrite F3 in *. clear E3.
  destruct (replace_all_same_length double_quote "&quot;" s) as [O4 F4];
    [cbn; lia | rewrite <- E4; lia |].
  rewrite <- E4 in F4. rewrite F4 in *. clear E4.
  destruct (replace_all_same_length "'" "&#039;" s) as [O5 F5]; [cbn; lia | lia |].
  apply plain_text_of_no_occurrence; assumption.
Qed.

Section ContentRoundTrip.
Context `{JSON}.
Variable cfg : config.

(** C4, as the code has it.  A creation followed by a metadata read,
    before the record expires, answers the content passed through
    [escapeHtml]: the ampersand, the two angle brackets, the double
    quote and the apostrophe are each replaced by their HTML entity.
    The answer is the created content, character for character, exactly
    when the content holds none of the five; the record in the store
    holds the content as it was created. *)
Theorem created_content_is_read_back_escaped creq freq w c t :
  calm (faults w) = true ->
  check_content (body_content creq) = GoodContent c ->
  check_ttl_seconds (body_ttl_seconds creq) = None ->
  check_max_views (body_max_views creq) = None ->
  stored w (entropy w (drawn w)) = None ->
  String.length (entropy w (drawn w)) = 10%nat ->
  params_id freq = entropy w (drawn w) ->
  expired (current_time cfg freq t)
    (pasteData c (body_ttl_seconds creq) (body_max_views creq) (wallClock w)) = false ->
  exists w1 w2 resp,
    run (post_api_pastes cfg creq) w
      = (Returned {| status := 201;
                     body := [("id", RString (entropy w (drawn w)));
                              ("url", RString (paste_url cfg creq (entropy w (drawn w))))] |},
         w1) /\
    serve (get_api_pastes_id_metadata cfg) t freq w1 = (Returned resp, w2) /\
    status resp = 200%Z /\
    field "content" (body resp) = Some (RString (escapeHtml c)) /\
    (escapeHtml c = c <-> plain_text c = true) /\
    exists p, stored w2 (entropy w (drawn w)) = Some p /\ content p = c.
Proof.
  intros Hc Hcon Httl Hmax Hfree Hlen Hid Hlive.
  destruct (read_after_create cfg creq freq w c t Hc Hcon Httl Hmax Hfree Hlen Hid)
    as (w1 & Hrun1 & _ & Halive & _).
  destruct (Halive Hlive) as (_ & Hmeta & Hkept).
  eexists w1, _, _. split; [exact Hrun1 |]. split; [exact Hmeta |].
  split; [reflexivity |]. split; [reflexivity |].
  split; [apply escapeHtml_fixed_iff_plain |].
  eexists. split; [exact Hkept | reflexivity].
Qed.

End ContentRoundTrip.

(** C4, as the claim has it, fails on a content with a [<]: the metadata
    read answers ["a&lt;b"] for the content ["a<b"]. *)
Lemma created_content_comes_back_changed :
  check_content (JString "a<b") = GoodContent "a<b" /\
  fst (serve (get_api_pastes_id_metadata test_config) 1000
         (read_request "abc1234567" None)
         (snd (run (post_api_pastes test_config
                      (create_request "a<b" JUndefined JUndefined))
                   (example_world false []))))
  = Returned {| status := 200;
                body := [("content", RString "a&lt;b");
                         ("remaining_views", RNull);
                         ("expires_at", RNull);
                         ("created_at", RIsoDate 1000)] |} /\
  "a&lt;b" <> "a<b".
Proof.
  split; [reflexivity |]. split; [vm_compute; reflexivity | discriminate].
Qed.

Lemma created_content_is_read_back_escaped_witness :
  exists w1 w2 resp,
    run (post_api_pastes test_config (create_request "a<b" JUndefined JUndefined))
        (example_world true [true; true; false; true])
      = (Returned {| status := 201;
                     body := [("id", RString "abc1234567");
                              ("url", RString "http://localhost:3001/p/abc1234567")] |},
         w1) /\
    serve (get_api_pastes_id_metadata test_config) 2000
      (read_request "abc1234567" None) w1 = (Returned resp, w2) /\
    status resp = 200%Z /\
    field "content" (body resp) = Some (RString "a&lt;b").
Proof.
  destruct (@created_content_is_read_back_escaped demo_JSON test_config
              (create_request "a<b" JUndefined JUndefined)
              (read_request "abc1234567" None)
              (example_world true [true; true; false; true]) "a<b" 2000%Z
              eq_refl eq_refl eq_refl eq_refl
              ltac:(vm_compute; reflexivity) eq_refl eq_refl eq_refl)
    as (w1 & w2 & resp & H1 & H2 & H3 & H4 & _).
  exists w1, w2, resp. repeat split; assumption.
Defined.

(** ** What a creation answers *)

Lemma valid_creation_passes_the_checks req :
  valid_creation req = true ->
  exists c,
    body_content req = JString c /\
    check_content (body_content req) = GoodContent c /\
    check_ttl_seconds (body_ttl_seconds req) = None /\
    check_max_views (body_max_views req) = None.
Proof.
  unfold valid_creation. intros Hv.
  apply andb_true_iff in Hv as [Hv Hmax]. apply andb_true_iff in Hv as [Hcon Httl].
  destruct (body_content req) as [| | b | n | c |]; try discriminate Hcon.
  cbn in Hcon. apply andb_true_iff in Hcon as [Hblank Hsize].
  apply negb_true_iff in Hblank. apply Z.leb_le in Hsize.
  exists c. split; [reflexivity |]. split; [| split].
  - cbn. rewrite Hblank. change (10 * 1024 * 1024)%Z with 10485760%Z.
    destruct (Z.ltb_spec 10485760 (Z.of_nat (js_length c))); [lia | reflexivity].
  - destruct (body_ttl_seconds req) as [| | b | [T |] | s |]; try discriminate Httl;
      try reflexivity.
    cbn in Httl. apply andb_true_iff in Httl as [H1 H2].
    apply Z.leb_le in H1. apply Z.leb_le in H2.
    apply check_ttl_seconds_in_range. lia.
  - destruct (body_max_views req) as [| | b | [N |] | s |]; try discriminate Hmax;
      try reflexivity.
    cbn in Hmax. apply andb_true_iff in Hmax as [H1 H2].
    apply Z.leb_le in H1. apply Z.leb_le in H2.
    apply check_max_views_in_range. lia.
Qed.



Section Creation.
Context `{JSON}.
Variable cfg : config.

Lemma rejected_creation req w e :
  check_content (body_content req) = BadContent e \/
  (exists c, check_content (body_content req) = GoodContent c /\
             (check_ttl_seconds (body_ttl_seconds req) = Some e \/
              (check_ttl_seconds (body_ttl_seconds req) = None /\
               check_max_views (body_max_views req) = Some e))) ->
  run (post_api_pastes cfg req) w = (Returned (bad_request e), w).
Proof.
  unfold post_api_pastes. rewrite run_try_catch.
  intros [-> | (c & -> & [-> | [-> ->]])]; reflexivity.
Qed.

(** With a Host header the link is never missing, and it is the link of
    [paste_url]. *)
Lemma base_url_with_host h vc vt vm id :
  exists base,
    base_url cfg (Some h) = Some base /\
    paste_url cfg (with_fields h vc vt vm) id
    = base +:+ "/p/" +:+ id.
Proof.
  unfold base_url, paste_url. cbn [fmap option_fmap option_map host with_fields].
  destruct (baseUrl cfg) as [b |]; [destruct (is_empty b) |]; eexists; split; reflexivity.
Qed.

(** A link that can be built without the Host header is the link of any
    request with one. *)
Lemma base_url_without_host base :
  base_url cfg None = Some base -> forall h, base_url cfg (Some h) = Some base.
Proof.
  unfold base_url. cbn [fmap option_fmap option_map].
  destruct (baseUrl cfg) as [b |]; [destruct (is_empty b) |]; intros Hb h;
    first [discriminate Hb | exact Hb].
Qed.

(** The route on a request with a Host header is [post_api_pastes]. *)
Lemma app_post_api_pastes_with_host h vc vt vm w :
  run (app_post_api_pastes cfg (Some h) vc vt vm) w
  = run (post_api_pastes cfg (with_fields h vc vt vm)) w.
Proof.
  unfold app_post_api_pastes, post_api_pastes.
  cbn [body_content body_ttl_seconds body_max_views with_fields].
  rewrite !run_try_catch.
  destruct (check_content vc) as [e | c]; [reflexivity |].
  destruct (check_ttl_seconds vt) as [e |]; [reflexivity |].
  destruct (check_max_views vm) as [e |]; [reflexivity |].
  rewrite !run_bind.
  destruct (run (draw_id maxAttempts 0) w) as [[[id attempts] | e] w1]; [| reflexivity].
  cbn [fst snd]. destruct (attempts =? maxAttempts)%nat; [reflexivity |].
  rewrite !run_bind. cbn [run call exec].
  rewrite !run_bind.
  destruct (run (savePaste id (pasteData c vt vm (wallClock w1))) w1)
    as [[saved | e] w2]; [| reflexivity].
  destruct (base_url_with_host h vc vt vm id) as (base & -> & Hurl).
  cbn [run]. rewrite Hurl. reflexivity.
Qed.

(** Without a link to build, the route answers 500 where it would have
    answered 201, after the same commands. *)
Lemma app_post_api_pastes_without_link host vc vt vm w :
  base_url cfg host = None ->
  run (app_post_api_pastes cfg host vc vt vm) w
  = match run (post_api_pastes cfg (with_fields EmptyString vc vt vm)) w
    with
    | (Returned resp, w') =>
        (Returned (if (status resp =? 201)%Z then internal_server_error else resp), w')
    | thrown => thrown
    end.
Proof.
  intros Hbase. unfold app_post_api_pastes, post_api_pastes.
  cbn [body_content body_ttl_seconds body_max_views with_fields].
  rewrite !run_try_catch, Hbase.
  destruct (check_content vc) as [e | c]; [reflexivity |].
  destruct (check_ttl_seconds vt) as [e |]; [reflexivity |].
  destruct (check_max_views vm) as [e |]; [reflexivity |].
  rewrite !run_bind.
  destruct (run (draw_id maxAttempts 0) w) as [[[id attempts] | e] w1]; [| reflexivity].
  cbn [fst snd]. destruct (attempts =? maxAttempts)%nat; [reflexivity |].
  rewrite !run_bind. cbn [run call exec].
  rewrite !run_bind.
  destruct (run (savePaste id (pasteData c vt vm (wallClock w1))) w1)
    as [[saved | e] w2]; reflexivity.
Qed.

(** The creation of a paste whose first drawn identifier is free, with
    a link to build. *)
Lemma app_post_api_pastes_calm host vc vt vm c base w :
  base_url cfg host = Some base ->
  calm (faults w) = true ->
  check_content vc = GoodContent c ->
  check_ttl_seconds vt = None ->
  check_max_views vm = None ->
  stored w (entropy w (drawn w)) = None ->
  exists w',
    run (app_post_api_pastes cfg host vc vt vm) w
    = (Returned {| status := 201;
                   body := [("id", RString (entropy w (drawn w)));
                            ("url", RString (base +:+ "/p/" +:+ entropy w (drawn w)))] |},
       w') /\
    calm (faults w') = true /\
    forall i, stored w' i =
              if decide (i = entropy w (drawn w))
              then Some (pasteData c vt vm (wallClock w))
              else stored w i.
Proof.
  intros Hbase Hc Hcon Httl Hmax Hfree.
  set (h := default EmptyString host).
  assert (Hh : base_url cfg (Some h) = Some base).
  { unfold h. destruct host as [h0 |]; [exact Hbase |].
    apply base_url_without_host. exact Hbase. }
  replace (app_post_api_pastes cfg host vc vt vm)
    with (app_post_api_pastes cfg (Some h) vc vt vm)
    by (unfold app_post_api_pastes; rewrite Hbase, Hh; reflexivity).
  rewrite app_post_api_pastes_with_host.
  destruct (post_api_pastes_calm cfg (with_fields h vc vt vm) w c Hc Hcon Httl Hmax Hfree)
    as (w' & Hrun & Hc' & Hsto).
  destruct (base_url_with_host h vc vt vm (entropy w (drawn w)))
    as (base' & Hbase' & Hurl).
  assert (base' = base) by congruence. subst base'.
  rewrite Hurl in Hrun. exists w'. split; [exact Hrun |]. split; [exact Hc' | exact Hsto].
Qed.

(** A request that passes the three checks is answered 201 or 500. *)
Lemma app_post_api_pastes_checked host vc vt vm c w :
  check_content vc = GoodContent c ->
  check_ttl_seconds vt = None ->
  check_max_views vm = None ->
  exists resp w',
    run (app_post_api_pastes cfg host vc vt vm) w = (Returned resp, w') /\
    (status resp = 201%Z \/ status resp = 500%Z).
Proof.
  intros Hcon Httl Hmax. unfold app_post_api_pastes.
  rewrite run_try_catch, Hcon, Httl, Hmax, run_bind.
  destruct (run (draw_id maxAttempts 0) w) as [[[id attempts] | e] w1];
    [| do 2 eexists; split; [reflexivity | right; reflexivity]].
  cbn [fst snd]. destruct (attempts =? maxAttempts)%nat;
    [do 2 eexists; split; [reflexivity | right; reflexivity] |].
  rewrite run_bind. cbn [run call exec]. rewrite run_bind.
  destruct (run (savePaste id (pasteData c vt vm (wallClock w1))) w1)
    as [[saved | e] w2]; [| do 2 eexists; split; [reflexivity | right; reflexivity]].
  destruct (base_url cfg host) as [base |];
    do 2 eexists; (split; [reflexivity |]); [left | right]; reflexivity.
Qed.



End Creation.



(** ** The theorems of the view budget and of the expiry, at work *)

Lemma last_view_is_served_again_witness :
  run (get_api_pastes_id test_config (read_request "abc1234567" None))
      (holding true [false; true; true; true] last_view)
  = (Returned served_last_view, holding true [] last_view) /\
  status served_last_view = 200%Z /\
  stored (holding true [] last_view) "abc1234567" = Some last_view /\
  exists w2,
    run (get_api_pastes_id test_config (read_request "abc1234567" None))
        (holding true [] last_view)
    = (Returned served_last_view, w2) /\
    stored w2 "abc1234567" = None.
Proof.
  destruct (@last_view_is_served_again demo_JSON test_config
              (read_request "abc1234567" None)
              (@holding demo_JSON true [false; true; true; true] last_view) last_view []
              eq_refl eq_refl eq_refl ltac:(vm_compute; lia)
              ltac:(vm_compute; reflexivity) eq_refl eq_refl)
    as (Hrun & Hok & Hkept & Hnext).
  split; [exact Hrun |]. split; [exact Hok |]. split; [exact Hkept |].
  exact (proj2 (Hnext eq_refl)).
Defined.

(** From the creation on: a paste is created with [max_views = 1];
    Redis answers the collision check, the save and the load of the
    first read, then fails its three deletes.  The first two reads are
    served, the third is not. *)
Example budget_of_one_view_pays_for_two_reads :
  exists w1 w2,
    run (post_api_pastes test_config
           (create_request "hello" JUndefined (JNumber (Integer 1))))
        (example_world true [false; false; false; true; true; true])
    = (Returned {| status := 201;
                   body := [("id", RString "abc1234567");
                            ("url", RString "http://localhost:3001/p/abc1234567")] |},
       w1) /\
    serve_all (get_api_pastes_id test_config)
      [(2000%Z, read_request "abc1234567" None);
       (3000%Z, read_request "abc1234567" None);
       (4000%Z, read_request "abc1234567" None)] w1
    = ([Returned {| status := 200;
                    body := [("content", RString "hello");
                             ("remaining_views", RNumber 0);
                             ("expires_at", RNull)] |};
        Returned {| status := 200;
                    body := [("content", RString "hello");
                             ("remaining_views", RNumber 0);
                             ("expires_at", RNull)] |};
        Returned not_found], w2).
Proof. do 2 eexists. split; vm_compute; reflexivity. Qed.

Lemma view_budget_is_exact_witness :
  exists w1 w2,
    serve_all (get_api_pastes_id test_config) two_reads w1
      = ([Returned {| status := 200;
                      body := [("content", RString "hello");
                               ("remaining_views", RNumber 1);
                               ("expires_at", RIsoDate 61000)] |};
          Returned {| status := 200;
                      body := [("content", RString "hello");
                               ("remaining_views", RNumber 0);
                               ("expires_at", RIsoDate 61000)] |}], w2) /\
    stored w2 "abc1234567" = None /\
    fst (serve (get_api_pastes_id test_config) 4000
           (read_request "abc1234567" None) w2) = Returned not_found.
Proof.
  destruct (@view_budget_is_exact demo_JSON test_config
              (create_request "hello" (JNumber (Integer 60)) (JNumber (Integer 2)))
              (example_world true [true; false; true; true; false])
              "hello" 2%Z two_reads
              eq_refl eq_refl eq_refl eq_refl ltac:(lia)
              ltac:(vm_compute; reflexivity) eq_refl eq_refl)
    as (w1 & w2 & _ & Hall & Hgone & Hnext).
  - intros t r [E | [E | []]]; injection E as <- <-; split; reflexivity.
  - exists w1, w2. split; [exact Hall |]. split; [exact Hgone |].
    apply (Hnext 4000%Z (read_request "abc1234567" None) eq_refl).
Defined.

Lemma ttl_boundary_is_inclusive_witness :
  exists w1,
    fst (serve (get_api_pastes_id_metadata test_config) 0
           (read_request "abc1234567" (Some "60999")) w1)
    = Returned {| status := 200;
                  body := [("content", RString "hello");
                           ("remaining_views", RNull);
                           ("expires_at", RIsoDate 61000);
                           ("created_at", RIsoDate 1000)] |} /\
    fst (serve (get_api_pastes_id test_config) 0
           (read_request "abc1234567" (Some "61000")) w1)
    = Returned not_found.
Proof.
  destruct (@ttl_boundary_is_inclusive demo_JSON test_config
              (create_request "hello" (JNumber (Integer 60)) JUndefined)
              (read_request "abc1234567" (Some "60999"))
              (example_world false []) "hello" 60%Z 0%Z
              eq_refl eq_refl eq_refl ltac:(lia) eq_refl
              ltac:(vm_compute; reflexivity) eq_refl eq_refl)
    as (w1 & Hrun1 & _ & Hbefore & _).
  destruct (@ttl_boundary_is_inclusive demo_JSON test_config
              (create_request "hello" (JNumber (Integer 60)) JUndefined)
              (read_request "abc1234567" (Some "61000"))
              (example_world false []) "hello" 60%Z 0%Z
              eq_refl eq_refl eq_refl ltac:(lia) eq_refl
              ltac:(vm_compute; reflexivity) eq_refl eq_refl)
    as (w1' & Hrun1' & _ & _ & Hafter).
  rewrite Hrun1 in Hrun1'. injection Hrun1' as <-.
  exists w1. split.
  - apply (Hbefore ltac:(vm_compute; discriminate)).
  - apply (Hafter ltac:(vm_compute; discriminate)).
Defined.

(** ** Payloads that do not parse *)

Section Corruption.
Context `{JSON}.
Variable cfg : config.

Lemma getPaste_absent id w :
  stored w id = None ->
  exists w', run (getPaste id) w = (Returned None, w') /\ stored w' id = None.
Proof.
  intros Hs.
  destruct (getPaste_any id w) as (r & w' & Hrun & _ & Hsto & Hres).
  exists w'. rewrite Hsto. split; [| exact Hs].
  destruct Hres as [-> | (-> & _)]; [exact Hrun | rewrite Hs in Hrun; exact Hrun].
Qed.

Lemma absent_reads_as_not_found req w :
  stored w (params_id req) = None ->
  (exists w', run (get_api_pastes_id cfg req) w = (Returned not_found, w')) /\
  (exists w', run (get_api_pastes_id_metadata cfg req) w = (Returned not_found, w')).
Proof.
  intros Hs. split.
  - unfold get_api_pastes_id. cbv zeta. rewrite run_try_catch.
    destruct (is_empty (params_id req)); [exists w; reflexivity |].
    destruct (100 <? js_length (params_id req))%nat; [exists w; reflexivity |].
    rewrite run_bind.
    destruct (getPaste_absent _ _ Hs) as (w' & Hrun & _). rewrite Hrun.
    exists w'. reflexivity.
  - destruct (get_api_pastes_id_metadata_any cfg req w)
      as (resp & w' & Hrun & [-> | (p & Hp & _)]).
    + exists w'. exact Hrun.
    + rewrite Hs in Hp. discriminate.
Qed.

Lemma absent_stays_absent id arrivals : forall w,
  stored w id = None ->
  fst (serve_all (fun _ => getPaste id) arrivals w)
  = repeat (Returned None) (length arrivals).
Proof.
  induction arrivals as [| [t r] rest IH]; intros w Hs; [reflexivity |].
  cbn [serve_all length repeat]. unfold serve.
  destruct (getPaste_absent id (set_wallClock t w) Hs) as (w' & Hrun & Hs').
  rewrite Hrun. specialize (IH w' Hs').
  destruct (serve_all (fun _ => getPaste id) rest w') as [rs w''].
  cbn [fst] in IH |- *. rewrite IH. reflexivity.
Qed.

(** A payload that is not the empty string and that [JSON.parse] rejects
    (it throws a SyntaxError) is deleted.  The load returns [null],
    whatever the fault schedule, and so does every later load; both reads
    answer the 404 of an unknown identifier; and when the delete does not
    exhaust its attempts the key is gone from Redis once the load has
    returned. *)
Lemma rejected_payload_reads_as_absent id w data :
  redis_ready w = true ->
  redis w !! redis_key id = Some data ->
  is_empty data = false ->
  JSON_parse data = None ->
  exists w',
    run (getPaste id) w = (Returned None, w') /\
    (calm (faults w) = true -> redis w' !! redis_key id = None) /\
    (forall arrivals,
       fst (serve_all (fun _ => getPaste id) arrivals w')
       = repeat (Returned None) (length arrivals)) /\
    (forall t req, params_id req = id ->
       (exists w1, serve (get_api_pastes_id cfg) t req w = (Returned not_found, w1)) /\
       (exists w1, serve (get_api_pastes_id_metadata cfg) t req w
                   = (Returned not_found, w1))).
Proof.
  intros Hr Hdata Hne Hbad.
  assert (Hs : stored w id = None)
    by (unfold stored; rewrite Hr, Hdata, Hne; exact Hbad).
  destruct (getPaste_absent id w Hs) as (w' & Hrun & Hs').
  exists w'. split; [exact Hrun |]. split; [| split].
  - intros Hc.
    destruct (getPaste_reaches_redis id w Hr Hc) as (fs' & Hc' & Hreach).
    rewrite Hreach, Hdata in Hrun. unfold after_get in Hrun.
    rewrite Hne, Hbad, run_bind in Hrun.
    destruct (deletePaste_calm_redis id (set_faults fs' w) Hr Hc') as (w1 & Hdel & Hred).
    rewrite Hdel in Hrun. injection Hrun as <-.
    rewrite Hred. apply lookup_delete_eq.
  - intros arrivals. apply absent_stays_absent, Hs'.
  - intros t req <-. unfold serve. apply absent_reads_as_not_found. exact Hs.
Qed.

(** A load gets the answer of Redis at one of its three attempts, or
    gives up; either way only the fault schedule has moved. *)
Lemma getPaste_attempts id w :
  redis_ready w = true ->
  exists fs',
    run (getPaste id) w
    = run (after_get id (redis w !! redis_key id)) (set_faults fs' w) \/
    run (getPaste id) w = (Returned None, set_faults fs' w).
Proof.
  intros Hr. unfold getPaste.
  destruct (faults w) as [| f1 fs1] eqn:Ef.
  { exists []. left.
    rewrite getPaste_from_answered by (first [exact Hr | rewrite Ef; reflexivity]).
    rewrite Ef. reflexivity. }
  destruct f1.
  2: { exists fs1. left.
       rewrite getPaste_from_answered by (first [exact Hr | rewrite Ef; reflexivity]).
       rewrite Ef. reflexivity. }
  rewrite (getPaste_from_failed _ _ _ _ _ Hr Ef) by reflexivity.
  destruct fs1 as [| f2 fs2].
  { exists []. left.
    rewrite getPaste_from_answered by (first [exact Hr | reflexivity]). reflexivity. }
  destruct f2.
  2: { exists fs2. left.
       rewrite getPaste_from_answered by (first [exact Hr | reflexivity]). reflexivity. }
  rewrite (getPaste_from_failed _ _ _ (set_faults (true :: fs2) w) fs2 Hr)
    by reflexivity.
  destruct fs2 as [| f3 fs3].
  { exists []. left.
    rewrite getPaste_from_answered by (first [exact Hr | reflexivity]). reflexivity. }
  destruct f3.
  2: { exists fs3. left.
       rewrite getPaste_from_answered by (first [exact Hr | reflexivity]). reflexivity. }
  exists fs3. right.
  rewrite (getPaste_from_exhausted _ _ (set_faults (true :: fs3) w) fs3 Hr)
    by reflexivity.
  reflexivity.
Qed.

Lemma getPaste_empty_payload id w :
  redis_ready w = true ->
  redis w !! redis_key id = Some EmptyString ->
  exists fs', run (getPaste id) w = (Returned None, set_faults fs' w).
Proof.
  intros Hr Hdata.
  destruct (getPaste_attempts id w Hr) as (fs' & [Hrun | Hrun]); exists fs';
    rewrite Hrun; [rewrite Hdata |]; reflexivity.
Qed.

Lemma empty_payload_stays id arrivals : forall w,
  redis_ready w = true ->
  redis w !! redis_key id = Some EmptyString ->
  exists w',
    serve_all (fun _ => getPaste id) arrivals w
    = (repeat (Returned None) (length arrivals), w') /\
    redis w' = redis w.
Proof.
  induction arrivals as [| [t r] rest IH]; intros w Hr Hdata.
  { exists w. split; reflexivity. }
  cbn [serve_all length repeat]. unfold serve.
  destruct (getPaste_empty_payload id (set_wallClock t w) Hr Hdata) as (fs' & Hrun).
  rewrite Hrun.
  destruct (IH (set_faults fs' (set_wallClock t w)) Hr Hdata) as (w' & Hall & Hred).
  rewrite Hall. exists w'. split; [reflexivity | exact Hred].
Qed.

(** C8, on the code.  The empty string is a payload that exists and
    that does not deserialize ([JSON.parse] throws on it), and it is not
    deleted.  [getPaste] tests [!data] before it parses, and the empty
    string is falsy like the [null] of a missing key: the load returns
    [null] without calling [deletePaste].  Whatever the fault schedule,
    the load leaves Redis as it was, and so does any number of further
    loads: the key still holds the payload.  The reads answer 404. *)
Theorem empty_payload_is_never_deleted id w :
  redis_ready w = true ->
  redis w !! redis_key id = Some EmptyString ->
  (exists fs', run (getPaste id) w = (Returned None, set_faults fs' w)) /\
  (forall arrivals,
     exists w',
       serve_all (fun _ => getPaste id) arrivals w
       = (repeat (Returned None) (length arrivals), w') /\
       redis w' !! redis_key id = Some EmptyString) /\
  (forall t req, params_id req = id ->
     (exists w1, serve (get_api_pastes_id cfg) t req w = (Returned not_found, w1)) /\
     (exists w1, serve (get_api_pastes_id_metadata cfg) t req w
                 = (Returned not_found, w1))).
Proof.
  intros Hr Hdata. split; [apply getPaste_empty_payload; assumption |]. split.
  - intros arrivals.
    destruct (empty_payload_stays id arrivals w Hr Hdata) as (w' & Hall & Hred).
    exists w'. split; [exact Hall | rewrite Hred; exact Hdata].
  - intros t req <-. unfold serve. apply absent_reads_as_not_found.
    unfold stored. change (redis_ready (set_wallClock t w)) with (redis_ready w).
    rewrite Hr. change (redis (set_wallClock t w)) with (redis w).
    rewrite Hdata. reflexivity.
Qed.

End Corruption.

Lemma empty_payload_is_never_deleted_witness :
  (exists fs',
     run (getPaste "abc1234567") (corrupted EmptyString [true; false])
     = (Returned None, set_faults fs' (corrupted EmptyString [true; false]))) /\
  exists w',
    serve_all (fun _ => getPaste "abc1234567") two_reads (corrupted EmptyString [true; false])
    = ([Returned None; Returned None], w') /\
    redis w' !! redis_key "abc1234567" = Some EmptyString.
Proof.
  destruct (@empty_payload_is_never_deleted demo_JSON test_config "abc1234567"
              (corrupted EmptyString [true; false]) eq_refl
              ltac:(vm_compute; reflexivity))
    as (Hload & Hloads & _).
  split; [exact Hload | exact (Hloads two_reads)].
Defined.

(** The load of the empty payload, run: Redis fails once, then answers
    the empty string, which the codec does not read; the world is left as
    it was. *)
Example empty_payload_is_left_in_place :
  redis (corrupted EmptyString [true; false]) !! redis_key "abc1234567"
  = Some EmptyString /\
  JSON_parse EmptyString = None /\
  run (getPaste "abc1234567") (corrupted EmptyString [true; false])
  = (Returned None, corrupted EmptyString []).
Proof. repeat split; vm_compute; reflexivity. Qed.

(** A payload that [JSON.parse] rejects and that is not empty is deleted
    by the load. *)
Example rejected_payload_is_deleted :
  exists w',
    run (getPaste "abc1234567") (corrupted "{oops" [true; false; true; false])
    = (Returned None, w') /\
    redis w' !! redis_key "abc1234567" = None.
Proof.
  destruct (@rejected_payload_reads_as_absent demo_JSON test_config "abc1234567"
              (corrupted "{oops" [true; false; true; false]) "{oops"
              eq_refl ltac:(vm_compute; reflexivity) eq_refl eq_refl)
    as (w' & Hrun & Hgone & _).
  exists w'. split; [exact Hrun | apply Hgone; reflexivity].
Qed.

(** ** Two counted reads of the last view, overlapping *)

(** A request served alone under the scheduler ends as [run] says. *)
Lemma interleave_alone {A} (m : prog A) : forall w,
  exists n,
    interleave (repeat 0%nat n) [m] w
    = ([match fst (run m w) with Returned a => Ret a | Thrown e => Throw e end],
       snd (run m w)).
Proof.
  induction m as [a | e | X c k IH]; intros w.
  - exists 0%nat. reflexivity.
  - exists 0%nat. reflexivity.
  - cbn [run]. destruct (exec c w) as [x w'] eqn:Ex.
    destruct (IH x w') as [n Hn].
    destruct (suspends c) eqn:Hs.
    + exists (S n). cbn [repeat interleave]. cbn. rewrite Ex, Hs. exact Hn.
    + destruct n as [| n].
      * exists 1%nat. cbn [repeat interleave]. cbn. rewrite Ex, Hs.
        cbn in Hn.
        destruct (k x) as [a | e | X' c' k']; cbn in Hn |- *;
          [reflexivity | reflexivity |].
        destruct (exec c' w') as [x' w'']. injection Hn as Hk _.
        destruct (fst (run (k' x') w'')); discriminate Hk.
      * exists (S n). cbn [repeat interleave] in Hn |- *. cbn in Hn |- *.
        rewrite Ex, Hs. exact Hn.
Qed.

(** C2.  The code does not keep what the claim asks.  Redis holds a
    record with one view left and no command fails.  Served one after the
    other, two counted reads give the content, then "not found".  When
    the second request is started while the first waits for the answer of
    its [GET], both read one remaining view, both delete the record and
    both return the content with zero views remaining: the last view is
    spent twice.  With the in-memory store the same schedule serves one
    request only, since a handler reaches no pause there. *)
Theorem racing_reads_spend_the_last_view_twice :
  stored (holding true [] last_view) "abc1234567" = Some last_view /\
  fst (serve_all (get_api_pastes_id test_config)
         [(5000%Z, read_request "abc1234567" None);
          (5000%Z, read_request "abc1234567" None)]
         (holding true [] last_view))
  = [Returned served_last_view; Returned not_found] /\
  fst (interleave [0; 1; 0; 1]%nat racing (holding true [] last_view))
  = [Ret served_last_view; Ret served_last_view] /\
  fst (interleave [0; 1; 0; 1]%nat racing (holding false [] last_view))
  = [Ret served_last_view; Ret not_found].
Proof. repeat split; vm_compute; reflexivity. Qed.
Section Race.
Context `{JSON}.
Variable cfg : config.

Lemma getCurrentTime_shape req :
  (exists t, getCurrentTime cfg req = Ret t /\ forall clk, current_time cfg req clk = t) \/
  (getCurrentTime cfg req = call DateNow /\ forall clk, current_time cfg req clk = clk).
Proof.
  unfold getCurrentTime, current_time.
  destruct (testMode cfg); cbn; [| right; auto].
  destruct (x_test_now_ms req) as [h |]; cbn; [| right; auto].
  destruct h as [| c h]; cbn; [right; auto |].
  destruct (parseInt (String c h)) as [t |]; [| right; auto].
  destruct (t <? 0)%Z; [right; auto | left; eauto].
Qed.

Lemma last_view_is_spent_twice req w p :
  redis_ready w = true ->
  faults w = [] ->
  is_empty (params_id req) = false ->
  (js_length (params_id req) <= 100)%nat ->
  stored w (params_id req) = Some p ->
  remaining_views p = Some 1%Z ->
  expired (current_time cfg req (wallClock w)) p = false ->
  exists w',
    interleave [0; 1; 0; 1]%nat
      [get_api_pastes_id cfg req; get_api_pastes_id cfg req] w
    = ([Ret (counted_body (counted p)); Ret (counted_body (counted p))], w') /\
    stored w' (params_id req) = None.
Proof.
  intros Hr Hf Hne Hlen Hp Hone Hlive.
  assert (Hlt : (100 <? js_length (params_id req))%nat = false)
    by (apply Nat.ltb_ge; exact Hlen).
  destruct w as [rc rn rd mem fs clk ent dr].
  unfold redis_ready in Hr. cbn in Hr, Hf, Hlive. apply andb_true_iff in Hr as [-> ->].
  subst fs. unfold stored, redis_ready in Hp. cbn in Hp.
  destruct (rd !! redis_key (params_id req)) as [data |] eqn:Hdata; [| discriminate].
  destruct (is_empty data) eqn:Hdne; [discriminate |].
  unfold get_api_pastes_id. cbv zeta. rewrite Hne, Hlt.
  cbn -[Z.eqb Z.add Z.sub Z.leb getCurrentTime].
  rewrite Hdata, Hdne, Hp.
  cbn -[Z.eqb Z.add Z.sub Z.leb getCurrentTime].
  unfold decrementViewsAtomic. rewrite Hone.
  destruct (getCurrentTime_shape req) as [(t & -> & Ht) | (-> & Ht)];
    rewrite Ht in Hlive;
    cbn -[Z.eqb Z.add Z.sub getCurrentTime]; rewrite Hlive;
    cbn -[Z.eqb Z.add Z.sub getCurrentTime].
  all: change (1 - 1 <=? 0)%Z with true; cbn -[Z.eqb Z.add Z.sub getCurrentTime].
  all: rewrite ?Hlive; cbn -[Z.eqb Z.add Z.sub getCurrentTime].
  all: change (1 - 1 <=? 0)%Z with true; cbn -[Z.eqb Z.add Z.sub getCurrentTime].
  all: eexists; split;
       [ unfold counted, counted_body; rewrite Hone; reflexivity
       | unfold stored, redis_ready; cbn; rewrite lookup_delete_eq; reflexivity ].
Qed.
End Race.

(** * Further properties *)

(** ** [escapeHtml] *)

Lemma append_cons c (a b : string) : String c a +:+ b = String c (a +:+ b).
Proof. reflexivity. Qed.

Lemma append_assoc (a b c : string) : (a +:+ b) +:+ c = a +:+ (b +:+ c).
Proof.
  induction a as [| x a IH]; [reflexivity |].
  rewrite !append_cons, IH. reflexivity.
Qed.

Lemma replace_all_append c rep (a b : string) :
  replace_all c rep (a +:+ b) = replace_all c rep a +:+ replace_all c rep b.
Proof.
  induction a as [| x a IH]; [reflexivity |].
  rewrite append_cons. cbn [replace_all]. rewrite IH.
  destruct (Ascii.eqb x c); [rewrite append_assoc |]; reflexivity.
Qed.

Lemma escapeHtml_append (a b : string) :
  escapeHtml (a +:+ b) = escapeHtml a +:+ escapeHtml b.
Proof. unfold escapeHtml. rewrite !replace_all_append. reflexivity. Qed.

Ltac ascii_cases c :=
  unfold escape_char;
  destruct (Ascii.eqb_spec c "&") as [-> | ?];
    [| destruct (Ascii.eqb_spec c "<") as [-> | ?];
       [| destruct (Ascii.eqb_spec c ">") as [-> | ?];
          [| destruct (Ascii.eqb_spec c double_quote) as [-> | ?];
             [| destruct (Ascii.eqb_spec c "'") as [-> | ?] ] ] ] ].

Lemma escapeHtml_char c : escapeHtml (String c EmptyString) = escape_char c.
Proof.
  ascii_cases c; try reflexivity.
  unfold escapeHtml. cbn.
  repeat match goal with
  | N : c <> _ |- _ => apply Ascii.eqb_neq in N; rewrite N; clear N; cbn
  end.
  reflexivity.
Qed.

(** The five passes of [escapeHtml] come to one pass that rewrites each
    character on its own. *)
Lemma escapeHtml_each s : escapeHtml s = escape_each s.
Proof.
  induction s as [| c s IH]; [reflexivity |].
  change (String c s) with (String c EmptyString +:+ s).
  rewrite escapeHtml_append, escapeHtml_char, IH. reflexivity.
Qed.

Lemma occurs_append c (a b : string) : occurs c (a +:+ b) = occurs c a || occurs c b.
Proof.
  induction a as [| x a IH]; [reflexivity |].
  rewrite append_cons. cbn. rewrite IH. apply orb_assoc.
Qed.

Lemma occurs_escape_char c d :
  d <> "&"%char -> html_special d = true -> occurs d (escape_char c) = false.
Proof.
  unfold html_special. intros Hamp Hd.
  assert (Hcases : d = "<"%char \/ d = ">"%char \/ d = double_quote \/ d = "'"%char).
  { repeat (apply orb_true_iff in Hd as [Hd | Hd]);
      apply Ascii.eqb_eq in Hd; auto. contradiction. }
  ascii_cases c;
    try (destruct Hcases as [-> | [-> | [-> | ->]]]; reflexivity).
  cbn. rewrite orb_false_r. apply Ascii.eqb_neq.
  destruct Hcases as [-> | [-> | [-> | ->]]]; assumption.
Qed.

Lemma occurs_escape_each d s :
  d <> "&"%char -> html_special d = true -> occurs d (escape_each s) = false.
Proof.
  intros Hamp Hd. induction s as [| c s IH]; [reflexivity |].
  cbn [escape_each]. rewrite occurs_append, IH, (occurs_escape_char c d Hamp Hd).
  reflexivity.
Qed.

Lemma ampersands_escape_each s : ampersands_begin_entities (escape_each s) = true.
Proof.
  induction s as [| c s IH]; [reflexivity |].
  cbn [escape_each].
  ascii_cases c; rewrite ?append_cons;
    try (cbn [ampersands_begin_entities];
         cbv -[ampersands_begin_entities escape_each]; exact IH).
  change (EmptyString +:+ escape_each s) with (escape_each s).
  cbn [ampersands_begin_entities].
  match goal with
  | N : _ <> "&"%char |- _ => apply Ascii.eqb_neq in N; rewrite N
  end.
  exact IH.
Qed.

(** X1. What [escapeHtml] returns holds no [<], no [>], no double quote
    and no apostrophe, and each of its ampersands begins one of the five
    entities [&amp;], [&lt;], [&gt;], [&quot;], [&#039;]. *)
Theorem escapeHtml_leaves_no_markup s :
  occurs "<" (escapeHtml s) = false /\
  occurs ">" (escapeHtml s) = false /\
  occurs double_quote (escapeHtml s) = false /\
  occurs "'" (escapeHtml s) = false /\
  ampersands_begin_entities (escapeHtml s) = true.
Proof.
  rewrite escapeHtml_each.
  repeat split; try (apply occurs_escape_each; [discriminate | reflexivity]).
  apply ampersands_escape_each.
Qed.

Lemma escape_each_cons_inj c d (x y : string) :
  escape_char c +:+ x = escape_char d +:+ y -> c = d /\ x = y.
Proof.
  ascii_cases c; ascii_cases d; rewrite ?append_cons;
    change (EmptyString +:+ x) with x; change (EmptyString +:+ y) with y;
    intros E; try discriminate E; try (injection E; auto; fail);
    injection E; intros; subst; try contradiction; auto.
Qed.

Lemma escape_char_nonempty c x : escape_char c +:+ x <> EmptyString.
Proof. ascii_cases c; discriminate. Qed.

(** X2. [escapeHtml] loses nothing: two texts that are escaped to the
    same text are the same text. *)
Theorem escapeHtml_is_injective s t : escapeHtml s = escapeHtml t -> s = t.
Proof.
  rewrite !escapeHtml_each. revert t.
  induction s as [| c s IH]; intros [| d t]; cbn [escape_each]; intros E.
  - reflexivity.
  - symmetry in E. apply escape_char_nonempty in E. contradiction.
  - apply escape_char_nonempty in E. contradiction.
  - apply escape_each_cons_inj in E as [-> E]. f_equal. apply IH, E.
Qed.

Lemma escapeHtml_is_injective_witness :
  escapeHtml "a<b" = escapeHtml "a<b" /\ "a<b" = "a<b".
Proof.
  split; [reflexivity |].
  apply (escapeHtml_is_injective "a<b" "a<b"). reflexivity.
Defined.

Lemma escape_char_length c :
  (1 <= String.length (escape_char c) <= 6)%nat.
Proof. ascii_cases c; cbn; lia. Qed.

(** X3. [escapeHtml] rewrites each character on its own: the text it
    returns is the texts of the characters one after the other, so that
    escaping a concatenation is concatenating the escaped parts, and the
    result is at least as long as the text and at most six times as
    long. *)
Theorem escapeHtml_is_one_pass s t :
  escapeHtml s = escape_each s /\
  escapeHtml (s +:+ t) = escapeHtml s +:+ escapeHtml t /\
  (String.length s <= String.length (escapeHtml s) <= 6 * String.length s)%nat.
Proof.
  split; [apply escapeHtml_each |]. split; [apply escapeHtml_append |].
  rewrite escapeHtml_each.
  induction s as [| c s IH]; [cbn; lia |].
  cbn [escape_each String.length]. rewrite length_append.
  pose proof (escape_char_length c). lia.
Qed.

(** ** The page GET /p/:id *)

Section PageFacts.
Context `{JSON}.
Variable cfg : config.

Local Arguments bind : simpl never.
Local Arguments savePaste : simpl never.
Local Arguments deletePaste : simpl never.
Local Arguments getPaste : simpl never.
Local Arguments getCurrentTime : simpl never.

(** Whatever the schedule, the page answers a 404 or the record its
    identifier stands for, and in the second case it has written
    nothing. *)
Lemma get_p_id_any req w :
  let id := params_id req in
  let now := current_time cfg req (wallClock w) in
  exists pg w',
    run (get_p_id cfg req) w = (Returned pg, w') /\
    (pg = plain_page 404 "Paste not found" \/
     (pg = plain_page 404 "Paste expired" /\
      exists p, stored w id = Some p /\ page_expired now p || views_exhausted p = true) \/
     exists p, stored w id = Some p /\
               pg = {| page_status := 200; page_type := Some "text/html";
                       page_text := page_html (escapeHtml (content p)) |} /\
               page_expired now p = false /\ views_exhausted p = false /\
               redis_ready w' = redis_ready w /\
               redis w' = redis w /\ memoryStore w' = memoryStore w).
Proof.
  intros id now. unfold get_p_id. cbv zeta.
  rewrite run_try_catch. fold id.
  destruct (is_empty id || (100 <? js_length id)%nat).
  { do 2 eexists. split; [reflexivity | left; reflexivity]. }
  rewrite run_bind.
  destruct (getPaste_any id w) as (r & w1 & Hrun1 & (Hrdy1 & Hclk) & Hsto1 & Hres).
  rewrite Hrun1.
  destruct r as [p |]; cbn.
  2: { do 2 eexists. split; [reflexivity | left; reflexivity]. }
  destruct Hres as [Hres | (Hres & Hre & Hme)]; [discriminate |].
  rewrite run_bind, getCurrentTime_run, Hclk. fold now.
  destruct (page_expired now p) eqn:Eexp.
  { rewrite run_bind.
    destruct (deletePaste_any id w1) as (b & w2 & Hrun2 & _). rewrite Hrun2.
    do 2 eexists. split; [reflexivity |]. right. left. split; [reflexivity |].
    exists p. rewrite Eexp. auto. }
  destruct (views_exhausted p) eqn:Eex.
  { rewrite run_bind.
    destruct (deletePaste_any id w1) as (b & w2 & Hrun2 & _). rewrite Hrun2.
    do 2 eexists. split; [reflexivity |]. right. left. split; [reflexivity |].
    exists p. rewrite Eex, orb_true_r. auto. }
  do 2 eexists. split; [reflexivity |]. right. right.
  exists p. repeat split; auto.
Qed.

(** X4. A view of the page never counts.  For an identifier that stands
    for a record, whatever the schedule, GET /p/:id answers 200 or 404
    and never 500; when it answers 200 both stores are as they were, the
    record is still the one that was stored, and the page is the template
    around the escaped content.  It does answer 200 when no helper
    exhausts its attempts and the record is neither expired nor
    exhausted. *)
Theorem page_view_spends_no_view req w p :
  stored w (params_id req) = Some p ->
  exists pg w',
    run (get_p_id cfg req) w = (Returned pg, w') /\
    (page_status pg = 200%Z \/ page_status pg = 404%Z) /\
    (page_status pg = 200%Z ->
     redis w' = redis w /\ memoryStore w' = memoryStore w /\
     page_type pg = Some "text/html" /\
     stored w' (params_id req) = Some p /\
     page_text pg = page_html (escapeHtml (content p))) /\
    (calm (faults w) = true ->
     is_empty (params_id req) = false ->
     (js_length (params_id req) <= 100)%nat ->
     page_expired (current_time cfg req (wallClock w)) p = false ->
     views_exhausted p = false ->
     page_status pg = 200%Z).
Proof.
  intros Hp.
  destruct (get_p_id_any req w) as (pg & w' & Hrun & Hcases).
  exists pg, w'. split; [exact Hrun |].
  split; [| split].
  - destruct Hcases as [-> | [(-> & _) | (q & _ & -> & _)]]; auto.
  - destruct Hcases as [-> | [(-> & _) | (q & Hq & -> & _ & _ & Hrdy & Hre & Hme)]];
      [discriminate | discriminate |].
    assert (q = p) by congruence. subst q. intros _.
    repeat split; auto. rewrite <- Hp. apply stored_ext; assumption.
  - intros Hc Hne Hlen Hexp Hex.
    assert (Hrun' : run (get_p_id cfg req) w
                    = (Returned {| page_status := 200; page_type := Some "text/html";
                                   page_text := page_html (escapeHtml (content p)) |},
                       snd (run (getPaste (params_id req)) w))).
    { unfold get_p_id. cbv zeta. rewrite run_try_catch, Hne.
      replace (100 <? js_length (params_id req))%nat with false
        by (symmetry; apply Nat.ltb_ge; exact Hlen).
      cbn [orb]. rewrite run_bind.
      destruct (getPaste_calm (params_id req) w Hc) as (w1 & Hrun1 & Hst1 & _).
      rewrite Hrun1, Hp. cbn [snd].
      rewrite run_bind, getCurrentTime_run.
      replace (wallClock w1) with (wallClock w)
        by (symmetry; unfold steady in Hst1; tauto).
      rewrite Hexp, Hex. reflexivity. }
    rewrite Hrun in Hrun'. injection Hrun' as -> _. reflexivity.
Qed.

(** X5. No failure of Redis makes the metadata read fail.  For an
    identifier that stands for a record whose timestamps are dates (so
    that [toISOString] prints them), whatever the fault schedule, GET
    /api/pastes/:id/metadata answers 200 or 404 and never 500: it calls
    no helper that throws.  It answers 200 when no helper exhausts its
    attempts and the record is neither expired nor exhausted. *)
Theorem metadata_read_never_fails req w p :
  stored w (params_id req) = Some p ->
  printable_date (created_at p) ->
  (forall e, expires_at p = Some e -> printable_date e) ->
  exists resp w',
    run (get_api_pastes_id_metadata cfg req) w = (Returned resp, w') /\
    (status resp = 200%Z \/ status resp = 404%Z) /\
    (calm (faults w) = true ->
     is_empty (params_id req) = false ->
     (js_length (params_id req) <= 100)%nat ->
     expired (current_time cfg req (wallClock w)) p = false ->
     views_exhausted p = false ->
     resp = metadata_body p).
Proof.
  intros Hp _ _.
  destruct (get_api_pastes_id_metadata_any cfg req w)
    as (resp & w' & Hrun & Hcases).
  exists resp, w'. split; [exact Hrun |]. split.
  - destruct Hcases as [-> | (q & _ & -> & _)]; auto.
  - intros Hc Hne Hlen Hexp Hex.
    destruct (get_api_pastes_id_metadata_calm cfg req w Hc Hne Hlen)
      as (w1 & Hrun1 & _).
    rewrite Hrun in Hrun1. injection Hrun1 as -> _.
    rewrite Hp. unfold FetchMetadata. rewrite Hexp, Hex. reflexivity.
Qed.



(** X7. The page tells a record that is gone from one that never was.
    When no helper exhausts its attempts, GET /p/:id answers "Paste not
    found" for an identifier that stands for nothing, and "Paste expired"
    for a record that is past its expiry or out of views, which it
    removes from the store. *)
Theorem page_names_the_reason req w :
  calm (faults w) = true ->
  is_empty (params_id req) = false ->
  (js_length (params_id req) <= 100)%nat ->
  (stored w (params_id req) = None ->
   exists w', run (get_p_id cfg req) w
              = (Returned (plain_page 404 "Paste not found"), w')) /\
  (forall p,
     stored w (params_id req) = Some p ->
     page_expired (current_time cfg req (wallClock w)) p || views_exhausted p = true ->
     exists w', run (get_p_id cfg req) w
                = (Returned (plain_page 404 "Paste expired"), w') /\
                stored w' (params_id req) = None).
Proof.
  intros Hc Hne Hlen.
  assert (Hgo : run (get_p_id cfg req) w =
    match run (getPaste (params_id req)) w with
    | (Returned (Some p), w1) =>
        if page_expired (current_time cfg req (wallClock w1)) p || views_exhausted p
        then match run (deletePaste (params_id req)) w1 with
             | (Returned _, w2) => (Returned (plain_page 404 "Paste expired"), w2)
             | (Thrown _, w2) => (Returned (plain_page 500 "Internal server error"), w2)
             end
        else (Returned {| page_status := 200; page_type := Some "text/html";
                          page_text := page_html (escapeHtml (content p)) |}, w1)
    | (Returned None, w1) => (Returned (plain_page 404 "Paste not found"), w1)
    | (Thrown _, w1) => (Returned (plain_page 500 "Internal server error"), w1)
    end).
  { unfold get_p_id. cbv zeta. rewrite run_try_catch, Hne.
    replace (100 <? js_length (params_id req))%nat with false
      by (symmetry; apply Nat.ltb_ge; exact Hlen).
    cbn [orb]. rewrite run_bind.
    destruct (run (getPaste (params_id req)) w) as [[[p |] | e] w1]; try reflexivity.
    rewrite run_bind, getCurrentTime_run.
    destruct (page_expired _ p); cbn [orb].
    - rewrite run_bind. destruct (run (deletePaste _) w1) as [[b | e] w2]; reflexivity.
    - destruct (views_exhausted p); [| reflexivity].
      rewrite run_bind. destruct (run (deletePaste _) w1) as [[b | e] w2]; reflexivity. }
  rewrite Hgo.
  destruct (getPaste_calm (params_id req) w Hc) as (w1 & Hrun1 & Hst1 & Hsto1).
  rewrite Hrun1.
  assert (Hclk : wallClock w1 = wallClock w) by (unfold steady in Hst1; tauto).
  split.
  - intros ->. exists w1. reflexivity.
  - intros p -> Hdead. rewrite Hclk, Hdead.
    destruct (deletePaste_calm (params_id req) w1 (steady_calm _ _ Hst1))
      as (w2 & Hrun2 & Hst2 & Hsto2).
    rewrite Hrun2. exists w2. split; [reflexivity |].
    rewrite Hsto2. case_decide; [reflexivity | contradiction].
Qed.

End PageFacts.

(** ** Counted reads, one after the other *)


Section ReadsInARow.
Context `{JSON}.
Variable cfg : config.

(** Reads that leave a view behind: the answers, and the record stored
    after the last of them. *)
Lemma counted_reads id :
  is_empty id = false ->
  (js_length id <= 100)%nat ->
  forall arrivals w p,
    calm (faults w) = true ->
    stored w id = Some p ->
    match remaining_views p with
    | Some r => (Z.of_nat (length arrivals) < r)%Z
    | None => True
    end ->
    (forall t r, In (t, r) arrivals ->
       params_id r = id /\ expired (current_time cfg r t) p = false) ->
    exists w',
      serve_all (get_api_pastes_id cfg) arrivals w
        = (List.map (fun k => Returned (counted_body (Nat.iter k counted p)))
             (seq 1 (length arrivals)), w') /\
      calm (faults w') = true /\
      stored w' id = Some (Nat.iter (length arrivals) counted p) /\
      forall i, i <> id -> stored w' i = stored w i.
Proof.
  intros Hne Hlen arrivals.
  induction arrivals as [| [t r] rest IH]; intros w p Hc Hp Hleft Hall.
  { exists w. repeat split; auto. }
  destruct (Hall t r (or_introl eq_refl)) as [Hid Hexp]. subst id.
  destruct (get_api_pastes_id_calm cfg r (set_wallClock t w) Hc Hne Hlen)
    as (w1 & Hrun & Hst & Hsto).
  change (stored (set_wallClock t w) (params_id r)) with (stored w (params_id r)) in *.
  change (wallClock (set_wallClock t w)) with t in *.
  assert (Hfetch : FetchCounted (current_time cfg r t) (Some p)
                   = (counted_body (counted p), Some (counted p))).
  { unfold FetchCounted. rewrite Hexp.
    destruct (remaining_views p) as [v |]; [| reflexivity].
    cbn [length] in Hleft.
    destruct (Z.leb_spec v 0) as [Hle | _]; [lia |].
    destruct (Z.leb_spec (v - 1) 0) as [Hle | _]; [lia | reflexivity]. }
  rewrite Hp, Hfetch in Hrun. cbn [fst] in Hrun.
  assert (Hsto' : forall i, stored w1 i =
                    if decide (i = params_id r) then Some (counted p) else stored w i).
  { intros i. rewrite Hsto, Hp, Hfetch. reflexivity. }
  clear Hsto.
  destruct (IH w1 (counted p) (steady_calm _ _ Hst)) as (w2 & Hall2 & Hc2 & Hs2 & Hoth2).
  - rewrite Hsto'. case_decide; [reflexivity | contradiction].
  - unfold counted. destruct (remaining_views p) as [v |] eqn:Ev; cbn -[Z.of_nat];
      [| rewrite Ev; exact I].
    cbn [length] in Hleft. lia.
  - intros t' r' Hin. rewrite expired_counted. apply Hall. right. exact Hin.
  - exists w2. split; [| split; [exact Hc2 | split]].
    + cbn [serve_all length]. unfold serve at 1. rewrite Hrun, Hall2.
      change (seq 1 (S (length rest))) with (1%nat :: seq 2 (length rest)).
      rewrite List.map_cons. f_equal. f_equal.
      rewrite <- (seq_shift (length rest) 1), List.map_map. apply List.map_ext.
      intros k. rewrite Nat.iter_succ_r. reflexivity.
    + rewrite Hs2. cbn [length]. rewrite Nat.iter_succ_r. reflexivity.
    + intros i Hi. rewrite (Hoth2 i Hi), Hsto'. case_decide; [contradiction | reflexivity].
Qed.


(** X9. The views served and the views left add up.  A record created
    with [max_views = N] and then read [k] times, [k < N], none of the
    reads finding it expired, is stored with [remaining_views = N - k],
    [view_count = k] and [max_views = N]: at every moment
    [view_count + remaining_views = max_views].  (The schedule is calm
    and the first identifier drawn is free.) *)
Theorem views_served_and_left_add_up creq w c N arrivals :
  calm (faults w) = true ->
  check_content (body_content creq) = GoodContent c ->
  check_ttl_seconds (body_ttl_seconds creq) = None ->
  body_max_views creq = JNumber (Integer N) ->
  (1 <= N <= 1000000)%Z ->
  stored w (entropy w (drawn w)) = None ->
  String.length (entropy w (drawn w)) = 10%nat ->
  (Z.of_nat (length arrivals) < N)%Z ->
  (forall t r, In (t, r) arrivals ->
     params_id r = entropy w (drawn w) /\
     expired (current_time cfg r t)
       (pasteData c (body_ttl_seconds creq) (body_max_views creq) (wallClock w)) = false) ->
  exists w1 w2 rs p,
    run (post_api_pastes cfg creq) w
      = (Returned {| status := 201;
                     body := [("id", RString (entropy w (drawn w)));
                              ("url", RString (paste_url cfg creq (entropy w (drawn w))))] |},
         w1) /\
    serve_all (get_api_pastes_id cfg) arrivals w1 = (rs, w2) /\
    stored w2 (entropy w (drawn w)) = Some p /\
    max_views p = Some N /\
    remaining_views p = Some (N - Z.of_nat (length arrivals))%Z /\
    view_count p = Z.of_nat (length arrivals) /\
    content p = c.
Proof.
  intros Hc Hcon Httl Hmax HN Hfree Hlen Hk Hall.
  set (id := entropy w (drawn w)) in *.
  set (p0 := pasteData c (body_ttl_seconds creq) (body_max_views creq) (wallClock w)) in *.
  assert (Hchk : check_max_views (body_max_views creq) = None).
  { rewrite Hmax. cbn. destruct (Z.ltb_spec N 1); [lia |].
    destruct (Z.ltb_spec 1000000 N); [lia | reflexivity]. }
  destruct (post_api_pastes_calm cfg creq w c Hc Hcon Httl Hchk Hfree)
    as (w1 & Hrun1 & Hc1 & Hsto1).
  fold id in Hrun1, Hsto1. fold p0 in Hsto1.
  assert (Hr0 : remaining_views p0 = Some N).
  { unfold p0. rewrite Hmax. apply pasteData_remaining. lia. }
  assert (Hne : is_empty id = false) by (destruct id; [discriminate Hlen | reflexivity]).
  assert (Hle : (js_length id <= 100)%nat) by (pose proof (js_length_le id); lia).
  destruct (counted_reads id Hne Hle arrivals w1 p0 Hc1) as (w2 & Hrun2 & _ & Hs2 & _).
  - rewrite Hsto1. case_decide; [reflexivity | contradiction].
  - rewrite Hr0. exact Hk.
  - exact Hall.
  - do 4 eexists. split; [exact Hrun1 |]. split; [exact Hrun2 |].
    split; [exact Hs2 |]. rewrite (iter_counted p0 N _ Hr0). cbn -[Z.of_nat Z.sub Z.add].
    repeat split.
    + unfold p0. rewrite Hmax. cbn. destruct (Z.eqb_spec N 0); [lia | reflexivity].
Qed.

End ReadsInARow.

(** ** When a save cannot be done *)

Section SaveFaults.
Context `{JSON}.

Lemma savePaste_first_try id p w :
  redis_ready w = true ->
  hd false (faults w) = false ->
  run (savePaste id p) w
  = (Returned true,
     set_redis (<[redis_key id := JSON_stringify p]> (redis w))
       (set_faults (tl (faults w)) w)).
Proof.
  destruct w as [rc rn rd mem fs clk ent dr]. unfold redis_ready. cbn.
  intros Hr Hf. apply andb_true_iff in Hr as [-> ->].
  destruct fs as [| f fs]; cbn in *; [| subst f]; reflexivity.
Qed.

Lemma savePaste_exhausted id p w fs :
  redis_ready w = true ->
  faults w = true :: true :: true :: fs ->
  run (savePaste id p) w
  = (Thrown "Failed to save paste after multiple attempts", set_faults fs w).
Proof.
  destruct w as [rc rn rd mem fs' clk ent dr]. unfold redis_ready. cbn.
  intros Hr ->. apply andb_true_iff in Hr as [-> ->]. reflexivity.
Qed.

Lemma getPaste_exhausted id w fs :
  redis_ready w = true ->
  faults w = true :: true :: true :: fs ->
  run (getPaste id) w = (Returned None, set_faults fs w).
Proof.
  destruct w as [rc rn rd mem fs' clk ent dr]. unfold redis_ready. cbn.
  intros Hr ->. apply andb_true_iff in Hr as [-> ->]. reflexivity.
Qed.

Lemma getPaste_missing_key id w :
  redis_ready w = true ->
  hd false (faults w) = false ->
  redis w !! redis_key id = None ->
  run (getPaste id) w = (Returned None, set_faults (tl (faults w)) w).
Proof.
  intros Hr Hf Hk. unfold getPaste.
  rewrite getPaste_from_answered by assumption.
  rewrite Hk. reflexivity.
Qed.

Lemma stored_after_set id p m w :
  redis_ready w = true ->
  stored (set_redis (<[redis_key id := JSON_stringify p]> m) w) id = Some p.
Proof.
  intros Hr. unfold stored.
  change (redis_ready (set_redis _ w)) with (redis_ready w).
  rewrite Hr. cbn. rewrite lookup_insert_eq, JSON_stringify_nonempty.
  apply JSON_parse_stringify.
Qed.

Variable cfg : config.

Local Arguments bind : simpl never.
Local Arguments savePaste : simpl never.
Local Arguments deletePaste : simpl never.
Local Arguments getPaste : simpl never.
Local Arguments getCurrentTime : simpl never.

(** X10. A counted read can spend a view and still fail.  Redis answers
    the load and the save of [decrementViewsAtomic], then fails the three
    attempts of the handler's own save: the caller is answered 500, and
    the record is stored with one view less and its [view_count] as it
    was. *)
Theorem view_is_spent_though_the_read_fails req w p r fs :
  redis_ready w = true ->
  faults w = false :: false :: true :: true :: true :: fs ->
  is_empty (params_id req) = false ->
  (js_length (params_id req) <= 100)%nat ->
  stored w (params_id req) = Some p ->
  remaining_views p = Some r ->
  (1 < r)%Z ->
  expired (current_time cfg req (wallClock w)) p = false ->
  exists w',
    run (get_api_pastes_id cfg req) w = (Returned internal_server_error, w') /\
    stored w' (params_id req) = Some (set_remaining_views p (Some (r - 1)%Z)) /\
    faults w' = fs.
Proof.
  intros Hr Hf Hne Hlen Hp Hrem Hone Hlive.
  unfold get_api_pastes_id. cbv zeta. rewrite run_try_catch, Hne.
  replace (100 <? js_length (params_id req))%nat with false
    by (symmetry; apply Nat.ltb_ge; exact Hlen).
  rewrite run_bind, (getPaste_first_try _ _ _ _ Hr Hf Hp).
  rewrite run_bind, getCurrentTime_run.
  change (wallClock (set_faults _ w)) with (wallClock w). rewrite Hlive.
  rewrite run_bind. unfold decrementViewsAtomic. rewrite Hrem.
  destruct (Z.leb_spec r 0) as [? | _]; [lia |].
  destruct (Z.leb_spec (r - 1) 0) as [? | _]; [lia |].
  rewrite run_bind, savePaste_first_try by (first [exact Hr | reflexivity]).
  cbn -[Z.eqb Z.add Z.sub]. rewrite run_bind.
  rewrite (savePaste_exhausted _ _ _ fs) by (first [exact Hr | reflexivity]).
  cbn -[Z.eqb Z.add Z.sub].
  eexists. split; [reflexivity |]. split; [| reflexivity].
  apply stored_after_set. exact Hr.
Qed.

(** X11. A creation that cannot be saved is not half done.  When Redis
    answers the collision check and then fails the three attempts of the
    save, POST /api/pastes answers 500 ["Internal server error"] and both
    stores are as they were; the identifier that was drawn is lost. *)
Theorem creation_that_cannot_save_stores_nothing creq w c fs :
  redis_ready w = true ->
  faults w = false :: true :: true :: true :: fs ->
  check_content (body_content creq) = GoodContent c ->
  check_ttl_seconds (body_ttl_seconds creq) = None ->
  check_max_views (body_max_views creq) = None ->
  redis w !! redis_key (entropy w (drawn w)) = None ->
  exists w',
    run (post_api_pastes cfg creq) w = (Returned internal_server_error, w') /\
    redis w' = redis w /\ memoryStore w' = memoryStore w /\
    faults w' = fs /\ drawn w' = S (drawn w).
Proof.
  intros Hr Hf Hcon Httl Hmax Hfree. unfold post_api_pastes.
  rewrite run_try_catch, Hcon, Httl, Hmax. rewrite run_bind.
  set (id := entropy w (drawn w)) in *.
  change (run (draw_id maxAttempts 0) w)
    with (run (existing <- getPaste id ;;
               match existing with
               | None => Ret (id, 0%nat)
               | Some _ => draw_id 9 1
               end) (set_drawn (S (drawn w)) w)).
  rewrite run_bind.
  rewrite getPaste_missing_key
    by (first [exact Hr | exact Hfree | cbn; rewrite Hf; reflexivity]).
  cbn -[Z.eqb Z.add Z.sub Z.leb Z.mul]. rewrite Hf. cbn [tl].
  rewrite run_bind. cbn -[Z.eqb Z.add Z.sub Z.leb Z.mul].
  rewrite run_bind.
  rewrite (savePaste_exhausted _ _ _ fs) by (first [exact Hr | reflexivity]).
  cbn. eexists. split; [reflexivity |]. repeat split.
Qed.

(** X12. A collision check that cannot load lets the creation overwrite.
    When the three attempts of the load of the collision check fail,
    [getPaste] returns [null], the identifier passes for free, and the
    new record is saved under it, whatever the identifier stood for
    before. *)
Theorem creation_overwrites_when_the_check_cannot_load creq w c fs :
  redis_ready w = true ->
  faults w = true :: true :: true :: fs ->
  hd false fs = false ->
  check_content (body_content creq) = GoodContent c ->
  check_ttl_seconds (body_ttl_seconds creq) = None ->
  check_max_views (body_max_views creq) = None ->
  exists w',
    run (post_api_pastes cfg creq) w
      = (Returned {| status := 201;
                     body := [("id", RString (entropy w (drawn w)));
                              ("url", RString (paste_url cfg creq (entropy w (drawn w))))] |},
         w') /\
    stored w' (entropy w (drawn w))
      = Some (pasteData c (body_ttl_seconds creq) (body_max_views creq) (wallClock w)).
Proof.
  intros Hr Hf Hnext Hcon Httl Hmax. unfold post_api_pastes.
  rewrite run_try_catch, Hcon, Httl, Hmax. rewrite run_bind.
  set (id := entropy w (drawn w)) in *.
  change (run (draw_id maxAttempts 0) w)
    with (run (existing <- getPaste id ;;
               match existing with
               | None => Ret (id, 0%nat)
               | Some _ => draw_id 9 1
               end) (set_drawn (S (drawn w)) w)).
  rewrite run_bind.
  rewrite (getPaste_exhausted _ _ fs) by (first [exact Hr | exact Hf]).
  cbn -[Z.eqb Z.add Z.sub Z.leb Z.mul].
  rewrite run_bind. cbn -[Z.eqb Z.add Z.sub Z.leb Z.mul].
  rewrite run_bind.
  rewrite savePaste_first_try by (first [exact Hr | exact Hnext]).
  cbn -[Z.eqb Z.add Z.sub Z.leb Z.mul].
  eexists. split; [reflexivity |].
  apply stored_after_set. exact Hr.
Qed.

End SaveFaults.

(** ** The identifier of a new paste *)

Section Allocation.
Context `{JSON}.
Variable cfg : config.

Local Arguments bind : simpl never.
Local Arguments savePaste : simpl never.
Local Arguments deletePaste : simpl never.
Local Arguments getPaste : simpl never.
Local Arguments getCurrentTime : simpl never.

(** The loop that draws an identifier, when no helper exhausts its
    attempts: it stops at the first identifier that stands for nothing,
    or after [n] identifiers that are all taken. *)
Lemma draw_id_calm n : forall attempts w,
  (n + attempts = maxAttempts)%nat ->
  calm (faults w) = true ->
  exists id attempts' w',
    run (draw_id n attempts) w = (Returned (id, attempts'), w') /\
    calm (faults w') = true /\
    redis_ready w' = redis_ready w /\
    wallClock w' = wallClock w /\
    entropy w' = entropy w /\
    (forall i, stored w' i = stored w i) /\
    ((exists j, (j < n)%nat /\ id = entropy w (drawn w + j) /\ attempts' = (attempts + j)%nat /\
                drawn w' = (drawn w + S j)%nat /\
                stored w id = None /\
                forall j', (j' < j)%nat -> stored w (entropy w (drawn w + j')) <> None) \/
     (attempts' = maxAttempts /\ drawn w' = (drawn w + n)%nat /\
      forall j, (j < n)%nat -> stored w (entropy w (drawn w + j)) <> None)).
Proof.
  induction n as [| n IH]; intros attempts w Hsum Hc.
  { cbn. exists EmptyString, attempts, w. split; [reflexivity |].
    repeat split; auto. right. repeat split; [lia | lia | intros j Hj; lia]. }
  set (id := entropy w (drawn w)).
  change (run (draw_id (S n) attempts) w)
    with (run (existing <- getPaste id ;;
               match existing with
               | None => Ret (id, attempts)
               | Some _ =>
                   if (S attempts <? maxAttempts)%nat
                   then draw_id n (S attempts)
                   else Ret (id, S attempts)
               end) (set_drawn (S (drawn w)) w)).
  rewrite run_bind.
  destruct (getPaste_calm id (set_drawn (S (drawn w)) w) Hc) as (w1 & Hrun1 & Hst1 & Hsto1).
  rewrite Hrun1.
  change (stored (set_drawn (S (drawn w)) w) id) with (stored w id).
  assert (Hsto1' : forall i, stored w1 i = stored w i) by exact Hsto1.
  destruct Hst1 as (Hc1 & Hrc1 & Hrn1 & Hclk1 & Hent1 & Hdr1). cbn in Hrc1, Hrn1, Hclk1, Hent1, Hdr1.
  assert (Hrdy1 : redis_ready w1 = redis_ready w)
    by (unfold redis_ready; rewrite Hrc1, Hrn1; reflexivity).
  destruct (stored w id) as [p |] eqn:Ep.
  2: { exists id, attempts, w1. split; [reflexivity |].
       repeat split; auto. left. exists 0%nat.
       rewrite !Nat.add_0_r. repeat split; auto; lia. }
  destruct (S attempts <? maxAttempts)%nat eqn:Emax.
  - apply Nat.ltb_lt in Emax.
    destruct (IH (S attempts) w1 ltac:(lia) Hc1)
      as (id' & a' & w2 & Hrun2 & Hc2 & Hrdy2 & Hclk2 & Hent2 & Hsto2 & Hcase).
    exists id', a', w2. split; [exact Hrun2 |].
    split; [exact Hc2 |]. split; [congruence |]. split; [congruence |].
    split; [congruence |]. split; [intros i; rewrite Hsto2; apply Hsto1' |].
    rewrite Hent1, Hdr1 in Hcase.
    destruct Hcase as [(j & Hj & Hid & Ha & Hd & Hfree & Hbefore) | (Ha & Hd & Hall)].
    + left. exists (S j).
      replace (drawn w + S j)%nat with (S (drawn w) + j)%nat by lia.
      repeat split; auto; try lia.
      * rewrite <- Hsto1'. exact Hfree.
      * intros [| j'] Hj'.
        -- rewrite Nat.add_0_r. fold id. congruence.
        -- replace (drawn w + S j')%nat with (S (drawn w) + j')%nat by lia.
           rewrite <- Hsto1'. apply Hbefore. lia.
    + right. repeat split; auto; try lia.
      intros [| j] Hj.
      * rewrite Nat.add_0_r. fold id. congruence.
      * replace (drawn w + S j)%nat with (S (drawn w) + j)%nat by lia.
        rewrite <- Hsto1'. apply Hall. lia.
  - apply Nat.ltb_ge in Emax. unfold maxAttempts in *.
    exists id, (S attempts), w1. split; [reflexivity |].
    repeat split; auto. right.
    assert (n = 0%nat) by lia. subst n.
    repeat split; [lia | lia |].
    intros j Hj. assert (j = 0%nat) by lia. subst j.
    rewrite Nat.add_0_r. fold id. congruence.
Qed.

(** What POST /api/pastes does with a request that passes the checks,
    when no helper exhausts its attempts. *)
Lemma post_api_pastes_allocates creq w c :
  calm (faults w) = true ->
  check_content (body_content creq) = GoodContent c ->
  check_ttl_seconds (body_ttl_seconds creq) = None ->
  check_max_views (body_max_views creq) = None ->
  exists resp w',
    run (post_api_pastes cfg creq) w = (Returned resp, w') /\
    ((exists j, (j < maxAttempts)%nat /\
        let id := entropy w (drawn w + j) in
        resp = {| status := 201;
                  body := [("id", RString id);
                           ("url", RString (paste_url cfg creq id))] |} /\
        stored w id = None /\
        (forall j', (j' < j)%nat -> stored w (entropy w (drawn w + j')) <> None) /\
        forall i, stored w' i =
                  if decide (i = id)
                  then Some (pasteData c (body_ttl_seconds creq) (body_max_views creq)
                               (wallClock w))
                  else stored w i) \/
     (resp = {| status := 500;
                body := [("error", RString "Failed to generate unique ID")] |} /\
      (forall j, (j < maxAttempts)%nat -> stored w (entropy w (drawn w + j)) <> None) /\
      forall i, stored w' i = stored w i)).
Proof.
  intros Hc Hcon Httl Hmax. unfold post_api_pastes.
  rewrite run_try_catch, Hcon, Httl, Hmax. rewrite run_bind.
  destruct (draw_id_calm maxAttempts 0 w eq_refl Hc)
    as (id & a & w1 & Hrun1 & Hc1 & Hrdy1 & Hclk1 & Hent1 & Hsto1 & Hcase).
  rewrite Hrun1. cbn [fst snd].
  destruct Hcase as [(j & Hj & Hid & Ha & Hd & Hfree & Hbefore) | (Ha & Hd & Hall)].
  - cbn [Nat.add] in Ha. subst a.
    replace (j =? maxAttempts)%nat with false by (symmetry; apply Nat.eqb_neq; lia).
    rewrite run_bind. cbn -[Z.eqb Z.add Z.sub Z.leb Z.mul].
    rewrite run_bind.
    destruct (savePaste_calm id
                (pasteData c (body_ttl_seconds creq) (body_max_views creq) (wallClock w1))
                w1 Hc1) as (w2 & Hrun2 & Hst2 & Hsto2).
    rewrite Hrun2. cbn -[Z.eqb Z.add Z.sub Z.leb Z.mul].
    do 2 eexists. split; [reflexivity |]. left. exists j. split; [exact Hj |].
    cbv zeta. rewrite <- Hid. repeat split; auto.
    intros i. rewrite Hsto2, Hclk1. case_decide; [reflexivity | apply Hsto1].
  - subst a. cbn.
    do 2 eexists. split; [reflexivity |]. right. repeat split; auto.
Qed.

(** X13. A creation never overwrites.  When no helper exhausts its
    attempts, POST /api/pastes leaves every record of the store as it
    was, whatever the request and whatever identifiers are drawn: a new
    record goes under an identifier that stood for nothing. *)
Theorem creation_never_overwrites creq w :
  calm (faults w) = true ->
  exists resp w',
    run (post_api_pastes cfg creq) w = (Returned resp, w') /\
    forall i p, stored w i = Some p -> stored w' i = Some p.
Proof.
  intros Hc.
  destruct (check_content (body_content creq)) as [e | c] eqn:Hcon.
  { exists (bad_request e), w. split; [| auto].
    unfold post_api_pastes. rewrite run_try_catch, Hcon. reflexivity. }
  destruct (check_ttl_seconds (body_ttl_seconds creq)) as [e |] eqn:Httl.
  { exists (bad_request e), w. split; [| auto].
    unfold post_api_pastes. rewrite run_try_catch, Hcon, Httl. reflexivity. }
  destruct (check_max_views (body_max_views creq)) as [e |] eqn:Hmax.
  { exists (bad_request e), w. split; [| auto].
    unfold post_api_pastes. rewrite run_try_catch, Hcon, Httl, Hmax. reflexivity. }
  destruct (post_api_pastes_allocates creq w c Hc Hcon Httl Hmax)
    as (resp & w' & Hrun & [(j & _ & _ & Hfree & _ & Hsto) | (_ & _ & Hsto)]).
  - exists resp, w'. split; [exact Hrun |]. intros i p Hp. rewrite Hsto.
    case_decide as Ei; [subst i; congruence | exact Hp].
  - exists resp, w'. split; [exact Hrun |]. intros i p Hp. rewrite Hsto. exact Hp.
Qed.

(** X14. The identifier of a new paste is the first free one among the
    next ten that are drawn.  When no helper exhausts its attempts and
    the request passes the checks: if one of the next ten identifiers
    stands for nothing, the answer is 201 with the first such identifier
    and the record is stored under it; if all ten are taken the answer is
    500 ["Failed to generate unique ID"] and the store is as it was. *)
Theorem creation_takes_the_first_free_identifier creq w c :
  calm (faults w) = true ->
  check_content (body_content creq) = GoodContent c ->
  check_ttl_seconds (body_ttl_seconds creq) = None ->
  check_max_views (body_max_views creq) = None ->
  (forall j,
     (j < 10)%nat ->
     stored w (entropy w (drawn w + j)) = None ->
     (forall j', (j' < j)%nat -> stored w (entropy w (drawn w + j')) <> None) ->
     exists w',
       run (post_api_pastes cfg creq) w
         = (Returned {| status := 201;
                        body := [("id", RString (entropy w (drawn w + j)));
                                 ("url", RString (paste_url cfg creq
                                                    (entropy w (drawn w + j))))] |}, w') /\
       stored w' (entropy w (drawn w + j))
         = Some (pasteData c (body_ttl_seconds creq) (body_max_views creq) (wallClock w))) /\
  ((forall j, (j < 10)%nat -> stored w (entropy w (drawn w + j)) <> None) ->
   exists w',
     run (post_api_pastes cfg creq) w
       = (Returned {| status := 500;
                      body := [("error", RString "Failed to generate unique ID")] |}, w') /\
     forall i, stored w' i = stored w i).
Proof.
  intros Hc Hcon Httl Hmax.
  destruct (post_api_pastes_allocates creq w c Hc Hcon Httl Hmax)
    as (resp & w' & Hrun & Hcase).
  unfold maxAttempts in Hcase.
  split.
  - intros j Hj Hfree Hbefore.
    destruct Hcase as [(k & Hk & -> & Hfreek & Hbeforek & Hsto) | (_ & Hall & _)].
    2: { exfalso. apply (Hall j Hj). exact Hfree. }
    assert (k = j).
    { destruct (Nat.lt_trichotomy k j) as [Hlt | [Heq | Hgt]]; [| exact Heq |].
      - exfalso. apply (Hbefore k Hlt). exact Hfreek.
      - exfalso. apply (Hbeforek j Hgt). exact Hfree. }
    subst k. exists w'. split; [exact Hrun |].
    rewrite Hsto. case_decide; [reflexivity | contradiction].
  - intros Hall.
    destruct Hcase as [(k & Hk & _ & Hfreek & _) | (-> & _ & Hsto)].
    { exfalso. apply (Hall k Hk). exact Hfreek. }
    exists w'. split; [exact Hrun | exact Hsto].
Qed.

End Allocation.

(** ** The configuration *)

Section ConfigFacts.
Context `{JSON}.

(** X15. The clock override needs test mode.  Unless the environment sets
    TEST_MODE to exactly ["1"], the three reads are the same programs
    with and without an [x-test-now-ms] header: no caller can move the
    clock of the server. *)
Theorem clock_override_needs_test_mode (env : environment) req h :
  env "TEST_MODE" <> Some "1" ->
  get_api_pastes_id (config_js env) (with_header h req)
    = get_api_pastes_id (config_js env) req /\
  get_api_pastes_id_metadata (config_js env) (with_header h req)
    = get_api_pastes_id_metadata (config_js env) req /\
  get_p_id (config_js env) (with_header h req) = get_p_id (config_js env) req.
Proof.
  intros Hoff.
  unfold get_api_pastes_id, get_api_pastes_id_metadata, get_p_id, getCurrentTime, config_js.
  cbn [testMode params_id with_header x_test_now_ms].
  destruct (bool_decide (env "TEST_MODE" = Some "1")) eqn:E.
  - apply bool_decide_eq_true in E. contradiction.
  - repeat split.
Qed.

End ConfigFacts.

Lemma or_else_truthy a b :
  (forall s, b = Some s -> is_empty s = false) ->
  forall s, or_else a b = Some s -> is_empty s = false.
Proof.
  unfold or_else. intros Hb s. destruct a as [x |]; [| apply Hb].
  destruct (is_empty x) eqn:Ex; [apply Hb |].
  intros E. injection E as <-. exact Ex.
Qed.

Lemma on_events_redisClient es : forall w,
  redisClient (on_events es w) = redisClient w.
Proof.
  unfold on_events. induction es as [| e es IH]; intros w; [reflexivity |].
  cbn [fold_left]. rewrite IH. destruct e; reflexivity.
Qed.

Lemma on_events_stores es : forall w,
  redis (on_events es w) = redis w /\ memoryStore (on_events es w) = memoryStore w.
Proof.
  unfold on_events. induction es as [| e es IH]; intros w; [split; reflexivity |].
  cbn [fold_left]. destruct (IH (on_event e w)) as [-> ->]. destruct e; split; reflexivity.
Qed.

(** X16. The server always has a Redis URL.  Whatever the environment,
    [config.redis.url] is a string that is not empty (the last operand of
    the chain is a literal), so [initRedis] never returns at its first
    guard: it creates a client, and at its end [redisClient] is set
    exactly when the connection was made.  When it was not, no event
    that fires later switches the helpers to Redis. *)
Theorem redis_is_always_configured (env : environment) events resolves w :
  (exists url, config_redis_url env = Some url /\ is_empty url = false) /\
  redisClient (initRedis (config_redis_url env) events resolves w) = resolves /\
  (resolves = false ->
   forall later,
     redis_ready (on_events later (initRedis (config_redis_url env) events resolves w))
     = false).
Proof.
  assert (Hurl : exists url, config_redis_url env = Some url /\ is_empty url = false).
  { destruct (config_redis_url env) as [url |] eqn:E.
    - exists url. split; [reflexivity |].
      revert E. unfold config_redis_url. apply or_else_truthy.
      intros s Hs. injection Hs as <-. reflexivity.
    - exfalso. revert E. unfold config_redis_url, or_else.
      repeat match goal with
      | |- context [env ?k] => destruct (env k) as [? |]
      | |- context [is_empty ?x] => destruct (is_empty x)
      end; discriminate. }
  split; [exact Hurl |].
  destruct Hurl as (url & -> & Hne).
  unfold initRedis. change (default EmptyString (Some url)) with url. rewrite Hne.
  split.
  - destruct resolves; cbn; rewrite ?on_events_redisClient; reflexivity.
  - intros -> later. unfold redis_ready. rewrite on_events_redisClient. reflexivity.
Qed.

(** ** The link of a new paste *)

Lemma strip_trailing_slashes_spec s :
  exists slashes,
    s = strip_trailing_slashes s +:+ slashes /\
    all_slashes slashes = true /\
    last_char (strip_trailing_slashes s) <> Some "/"%char.
Proof.
  induction s as [| c s (slashes & Hs & Hall & Hlast)].
  { exists EmptyString. repeat split. discriminate. }
  cbn [strip_trailing_slashes].
  destruct (strip_trailing_slashes s) as [| d t] eqn:Et.
  - change (EmptyString +:+ slashes) with slashes in Hs. subst s.
    destruct (Ascii.eqb_spec c "/") as [-> | Hc].
    + exists (String "/" slashes). cbn. rewrite Hall. repeat split. discriminate.
    + exists slashes. repeat split; [exact Hall |]. cbn. congruence.
  - exists slashes. repeat split; [| exact Hall | exact Hlast].
    change (String c (String d t) +:+ slashes) with (String c (String d t +:+ slashes)).
    f_equal. exact Hs.
Qed.

Section Link.
Context `{JSON}.

(** X17. The link of a new paste.  With a BASE_URL in the environment the
    link is the trimmed BASE_URL without its trailing slashes, then
    [/p/] and the identifier: what comes before [/p/] never ends with a
    slash, and the Host header is not looked at.  Without one, or with
    an empty one, the link is built on the Host header, with [http] when
    the host contains ["localhost"] and [https] otherwise; and when the
    request has no Host header either, the handler throws after it has
    saved the paste: a request that passes the checks is answered 500,
    and the record is in the store under an identifier the creator does
    not learn. *)
Theorem link_of_a_new_paste (env : environment) (host : option string) :
  (forall b,
     env "BASE_URL" = Some b -> is_empty b = false ->
     exists base slashes,
       base_url (config_js env) host = Some base /\
       trim b = base +:+ slashes /\
       all_slashes slashes = true /\
       last_char base <> Some "/"%char) /\
  (env "BASE_URL" = None \/ env "BASE_URL" = Some EmptyString ->
   base_url (config_js env) host
   = (fun h => (if includes "localhost" h then "http://" else "https://") +:+ h)
       <$> host) /\
  (forall vc vt vm w resp w',
     run (app_post_api_pastes (config_js env) host vc vt vm) w = (Returned resp, w') ->
     status resp = 201%Z ->
     exists base id,
       base_url (config_js env) host = Some base /\
       body resp = [("id", RString id); ("url", RString (base +:+ "/p/" +:+ id))]) /\
  (forall vc vt vm c w,
     env "BASE_URL" = None \/ env "BASE_URL" = Some EmptyString ->
     host = None ->
     check_content vc = GoodContent c ->
     check_ttl_seconds vt = None ->
     check_max_views vm = None ->
     calm (faults w) = true ->
     stored w (entropy w (drawn w)) = None ->
     exists w',
       run (app_post_api_pastes (config_js env) host vc vt vm) w
       = (Returned internal_server_error, w') /\
       stored w' (entropy w (drawn w)) = Some (pasteData c vt vm (wallClock w))).
Proof.
  assert (Hhost : env "BASE_URL" = None \/ env "BASE_URL" = Some EmptyString ->
            base_url (config_js env) host
            = (fun h => (if includes "localhost" h then "http://" else "https://") +:+ h)
                <$> host).
  { unfold base_url, config_js, or_else. cbn [baseUrl].
    intros [-> | ->]; cbn [is_empty]; destruct host as [h |]; cbn; [| reflexivity | | reflexivity];
      destruct (includes "localhost" h); reflexivity. }
  split; [| split; [exact Hhost | split]].
  - unfold base_url, config_js, or_else. cbn [baseUrl].
    intros b -> Hb. rewrite Hb. rewrite Hb.
    destruct (strip_trailing_slashes_spec (trim b)) as (slashes & Hs & Hall & Hlast).
    exists (strip_trailing_slashes (trim b)), slashes. repeat split; assumption.
  - intros vc vt vm w resp w'. unfold app_post_api_pastes. rewrite run_try_catch.
    destruct (check_content vc) as [e | c];
      [intros E; injection E as <- <-; discriminate |].
    destruct (check_ttl_seconds vt) as [e |];
      [intros E; injection E as <- <-; discriminate |].
    destruct (check_max_views vm) as [e |];
      [intros E; injection E as <- <-; discriminate |].
    rewrite run_bind.
    destruct (run (draw_id maxAttempts 0) w) as [[[id attempts] | e] w1];
      [| intros E; injection E as <- <-; discriminate].
    cbn [fst snd]. destruct (attempts =? maxAttempts)%nat;
      [intros E; injection E as <- <-; discriminate |].
    rewrite run_bind. cbn [run call exec]. rewrite run_bind.
    destruct (run (savePaste id (pasteData c vt vm (wallClock w1))) w1)
      as [[saved | e] w2]; [| intros E; injection E as <- <-; discriminate].
    destruct (base_url (config_js env) host) as [base |];
      [| intros E; injection E as <- <-; discriminate].
    intros E _. injection E as <- <-. exists base, id. split; reflexivity.
  - intros vc vt vm c w Henv -> Hcon Httl Hmax Hc Hfree.
    rewrite app_post_api_pastes_without_link by (rewrite (Hhost Henv); reflexivity).
    destruct (post_api_pastes_calm (config_js env) (with_fields EmptyString vc vt vm)
                w c Hc Hcon Httl Hmax Hfree) as (w' & Hrun & _ & Hsto).
    rewrite Hrun. exists w'. split; [reflexivity |].
    rewrite Hsto. case_decide; [reflexivity | contradiction].
Qed.

End Link.

(** ** Requests served from the in-memory store *)

Lemma run_unpaused_run {A} (m : prog A) : forall w o w',
  run_unpaused m w = Some (o, w') ->
  run m w = (o, w') /\ resume m w = (ended o, w').
Proof.
  induction m as [a | e | X c k IH]; intros w o w'; cbn.
  - intros E. injection E as <- <-. split; reflexivity.
  - intros E. injection E as <- <-. split; reflexivity.
  - destruct (suspends c); [discriminate |].
    destruct (exec c w) as [x w1]. apply IH.
Qed.

Lemma run_unpaused_bind {A B} (m : prog A) (f : A -> prog B) : forall w,
  run_unpaused (bind m f) w =
  match run_unpaused m w with
  | Some (Returned a, w') => run_unpaused (f a) w'
  | Some (Thrown e, w') => Some (Thrown e, w')
  | None => None
  end.
Proof.
  induction m as [a | e | X c k IH]; intros w; cbn; try reflexivity.
  destruct (suspends c); [reflexivity |].
  destruct (exec c w) as [x w1]. apply IH.
Qed.

Lemma run_unpaused_try_catch {A} (m : prog A) (h : string -> prog A) : forall w,
  run_unpaused (try_catch m h) w =
  match run_unpaused m w with
  | Some (Returned a, w') => Some (Returned a, w')
  | Some (Thrown e, w') => run_unpaused (h e) w'
  | None => None
  end.
Proof.
  induction m as [a | e | X c k IH]; intros w; cbn; try reflexivity.
  destruct (suspends c); [reflexivity |].
  destruct (exec c w) as [x w1]. apply IH.
Qed.

Lemma getCurrentTime_unpaused cfg req w :
  run_unpaused (getCurrentTime cfg req) w
  = Some (Returned (current_time cfg req (wallClock w)), w).
Proof.
  unfold getCurrentTime, current_time.
  destruct (testMode cfg); cbn; [| reflexivity].
  destruct (x_test_now_ms req) as [h |]; cbn; [| reflexivity].
  destruct h as [| c h]; cbn; [reflexivity |].
  destruct (parseInt (String c h)) as [t |]; [| reflexivity].
  destruct (t <? 0)%Z; reflexivity.
Qed.

Lemma run_redis_ready {A} (m : prog A) : forall w,
  redis_ready (snd (run m w)) = redis_ready w.
Proof.
  induction m as [a | e | X c k IH]; intros w; cbn; try reflexivity.
  destruct (exec c w) as [x w1] eqn:E. rewrite IH.
  destruct c; cbn in E; unfold next_fault in E;
    try (destruct (faults w) as [| [] fs]); injection E as _ <-; reflexivity.
Qed.

Lemma interleave_ended {A} (o1 o2 : outcome A) schedule : forall w,
  interleave schedule [ended o1; ended o2] w = ([ended o1; ended o2], w).
Proof.
  induction schedule as [| i schedule IH]; intros w; [reflexivity |].
  destruct i as [| [| i]]; cbn [interleave lookup list_lookup]; cbn.
  - destruct o1; cbn; apply IH.
  - destruct o2; cbn; apply IH.
  - apply IH.
Qed.

Lemma interleave_both {A} (m1 m2 : prog A) schedule w :
  interleave (0 :: 1 :: schedule)%nat [m1; m2] w
  = interleave schedule
      [fst (resume m1 w); fst (resume m2 (snd (resume m1 w)))]
      (snd (resume m2 (snd (resume m1 w)))).
Proof.
  cbn [interleave]. cbn. destruct (resume m1 w) as [m1' w1]. cbn.
  destruct (resume m2 w1) as [m2' w2]. reflexivity.
Qed.

Section MemoryStore.
Context `{JSON}.

Lemma getPaste_unpaused id w :
  redis_ready w = false ->
  run_unpaused (getPaste id) w = Some (Returned (memoryStore w !! id), w).
Proof.
  destruct w as [rc rn rd mem fs clk ent dr]. unfold redis_ready. cbn. intros ->. cbn.
  destruct (mem !! id) as [d |]; cbn; [| reflexivity].
  rewrite JSON_parse_stringify. reflexivity.
Qed.

Lemma deletePaste_unpaused id w :
  redis_ready w = false ->
  run_unpaused (deletePaste id) w
  = Some (Returned true, set_memoryStore (delete id (memoryStore w)) w).
Proof.
  destruct w as [rc rn rd mem fs clk ent dr]. unfold redis_ready. cbn. intros ->.
  reflexivity.
Qed.

Lemma savePaste_unpaused id p w :
  redis_ready w = false ->
  run_unpaused (savePaste id p) w
  = Some (Returned true, set_memoryStore (<[id := p]> (memoryStore w)) w).
Proof.
  destruct w as [rc rn rd mem fs clk ent dr]. unfold redis_ready. cbn. intros ->. cbn.
  rewrite JSON_parse_stringify. reflexivity.
Qed.

Variable cfg : config.

Local Arguments bind : simpl never.
Local Arguments savePaste : simpl never.
Local Arguments deletePaste : simpl never.
Local Arguments getPaste : simpl never.
Local Arguments getCurrentTime : simpl never.

Lemma draw_id_unpaused n : forall attempts w,
  redis_ready w = false ->
  exists r w', run_unpaused (draw_id n attempts) w = Some (Returned r, w') /\
               redis_ready w' = false.
Proof.
  induction n as [| n IH]; intros attempts w Hr.
  { do 2 eexists. split; [reflexivity | exact Hr]. }
  change (run_unpaused (draw_id (S n) attempts) w)
    with (run_unpaused (existing <- getPaste (entropy w (drawn w)) ;;
               match existing with
               | None => Ret (entropy w (drawn w), attempts)
               | Some _ =>
                   if (S attempts <? maxAttempts)%nat
                   then draw_id n (S attempts)
                   else Ret (entropy w (drawn w), S attempts)
               end) (set_drawn (S (drawn w)) w)).
  rewrite run_unpaused_bind, getPaste_unpaused by exact Hr.
  destruct (memoryStore _ !! _).
  - destruct (S attempts <? maxAttempts)%nat.
    + apply IH. exact Hr.
    + do 2 eexists. split; [reflexivity | exact Hr].
  - do 2 eexists. split; [reflexivity | exact Hr].
Qed.

Lemma handlers_unpaused req w :
  redis_ready w = false ->
  (exists o w', run_unpaused (post_api_pastes cfg req) w = Some (o, w')) /\
  (exists o w', run_unpaused (get_api_pastes_id cfg req) w = Some (o, w')) /\
  (exists o w', run_unpaused (get_api_pastes_id_metadata cfg req) w = Some (o, w')) /\
  (exists o w', run_unpaused (get_p_id cfg req) w = Some (o, w')).
Proof.
  intros Hr. split; [| split; [| split]].
  - unfold post_api_pastes. rewrite run_unpaused_try_catch.
    destruct (check_content (body_content req)); [do 2 eexists; reflexivity |].
    destruct (check_ttl_seconds (body_ttl_seconds req)); [do 2 eexists; reflexivity |].
    destruct (check_max_views (body_max_views req)); [do 2 eexists; reflexivity |].
    rewrite run_unpaused_bind.
    destruct (draw_id_unpaused maxAttempts 0 w Hr) as (r & w1 & -> & Hr1).
    destruct (snd r =? maxAttempts)%nat; [do 2 eexists; reflexivity |].
    rewrite run_unpaused_bind. cbn -[Z.eqb Z.add Z.sub Z.leb Z.mul].
    rewrite run_unpaused_bind, savePaste_unpaused by exact Hr1.
    do 2 eexists; reflexivity.
  - unfold get_api_pastes_id. cbv zeta. rewrite run_unpaused_try_catch.
    destruct (is_empty (params_id req)); [do 2 eexists; reflexivity |].
    destruct (100 <? js_length (params_id req))%nat; [do 2 eexists; reflexivity |].
    rewrite run_unpaused_bind, getPaste_unpaused by exact Hr.
    destruct (memoryStore w !! params_id req) as [p |]; [| do 2 eexists; reflexivity].
    rewrite run_unpaused_bind, getCurrentTime_unpaused.
    destruct (expired _ p).
    { rewrite run_unpaused_bind, deletePaste_unpaused by exact Hr.
      do 2 eexists; reflexivity. }
    rewrite run_unpaused_bind. unfold decrementViewsAtomic.
    destruct (remaining_views p) as [r |] eqn:Er.
    + destruct (r <=? 0)%Z.
      { rewrite run_unpaused_bind, deletePaste_unpaused by exact Hr.
        do 2 eexists; reflexivity. }
      cbv zeta. destruct (r - 1 <=? 0)%Z.
      * rewrite run_unpaused_bind, deletePaste_unpaused by exact Hr.
        cbn -[Z.eqb Z.add Z.sub]. do 2 eexists; reflexivity.
      * rewrite run_unpaused_bind, savePaste_unpaused by exact Hr.
        cbn -[Z.eqb Z.add Z.sub].
        rewrite run_unpaused_bind, savePaste_unpaused by exact Hr.
        do 2 eexists; reflexivity.
    + cbn -[Z.eqb Z.add Z.sub].
      rewrite run_unpaused_bind, savePaste_unpaused by exact Hr.
      do 2 eexists; reflexivity.
  - unfold get_api_pastes_id_metadata. cbv zeta. rewrite run_unpaused_try_catch.
    destruct (is_empty (params_id req) || (100 <? js_length (params_id req))%nat);
      [do 2 eexists; reflexivity |].
    rewrite run_unpaused_bind, getPaste_unpaused by exact Hr.
    destruct (memoryStore w !! params_id req) as [p |]; [| do 2 eexists; reflexivity].
    rewrite run_unpaused_bind, getCurrentTime_unpaused.
    destruct (expired _ p).
    { rewrite run_unpaused_bind, deletePaste_unpaused by exact Hr.
      do 2 eexists; reflexivity. }
    destruct (views_exhausted p); [| do 2 eexists; reflexivity].
    rewrite run_unpaused_bind, deletePaste_unpaused by exact Hr.
    do 2 eexists; reflexivity.
  - unfold get_p_id. cbv zeta. rewrite run_unpaused_try_catch.
    destruct (is_empty (params_id req) || (100 <? js_length (params_id req))%nat);
      [do 2 eexists; reflexivity |].
    rewrite run_unpaused_bind, getPaste_unpaused by exact Hr.
    destruct (memoryStore w !! params_id req) as [p |]; [| do 2 eexists; reflexivity].
    rewrite run_unpaused_bind, getCurrentTime_unpaused.
    destruct (page_expired _ p).
    { rewrite run_unpaused_bind, deletePaste_unpaused by exact Hr.
      do 2 eexists; reflexivity. }
    destruct (views_exhausted p); [| do 2 eexists; reflexivity].
    rewrite run_unpaused_bind, deletePaste_unpaused by exact Hr.
    do 2 eexists; reflexivity.
Qed.

(** X18. With the in-memory store a request is served in one go.  When
    the helpers use [memoryStore] a handler reaches no [await] of a Redis
    command and no backoff timer: resumed once, it has run to its end,
    with the answer and the world of the request served on its own.  Two
    counted reads in flight are then served one after the other,
    whatever the schedule does after it has started both. *)
Theorem memory_store_requests_run_in_one_go req w :
  redis_ready w = false ->
  (forall req' schedule,
     interleave (0 :: 1 :: schedule)%nat
       [get_api_pastes_id cfg req; get_api_pastes_id cfg req'] w
     = ([ended (fst (run (get_api_pastes_id cfg req) w));
         ended (fst (run (get_api_pastes_id cfg req')
                       (snd (run (get_api_pastes_id cfg req) w))))],
        snd (run (get_api_pastes_id cfg req')
               (snd (run (get_api_pastes_id cfg req) w))))) /\
  resume (post_api_pastes cfg req) w
    = (ended (fst (run (post_api_pastes cfg req) w)),
       snd (run (post_api_pastes cfg req) w)) /\
  resume (get_api_pastes_id cfg req) w
    = (ended (fst (run (get_api_pastes_id cfg req) w)),
       snd (run (get_api_pastes_id cfg req) w)) /\
  resume (get_api_pastes_id_metadata cfg req) w
    = (ended (fst (run (get_api_pastes_id_metadata cfg req) w)),
       snd (run (get_api_pastes_id_metadata cfg req) w)) /\
  resume (get_p_id cfg req) w
    = (ended (fst (run (get_p_id cfg req) w)), snd (run (get_p_id cfg req) w)).
Proof.
  intros Hr.
  destruct (handlers_unpaused req w Hr)
    as ((o1 & w1 & H1) & (o2 & w2 & H2) & (o3 & w3 & H3) & (o4 & w4 & H4)).
  apply run_unpaused_run in H1 as [R1 E1], H2 as [R2 E2], H3 as [R3 E3], H4 as [R4 E4].
  split.
  - intros req' schedule.
    assert (Hr2 : redis_ready w2 = false).
    { rewrite <- Hr, <- (run_redis_ready (get_api_pastes_id cfg req) w), R2. reflexivity. }
    destruct (handlers_unpaused req' w2 Hr2) as (_ & (o & w' & H') & _).
    apply run_unpaused_run in H' as [R' E'].
    rewrite R2. cbn [fst snd]. rewrite R'. cbn [fst snd].
    rewrite interleave_both, E2. cbn [fst snd]. rewrite E'. cbn [fst snd].
    apply interleave_ended.
  - rewrite E1, E2, E3, E4, R1, R2, R3, R4. repeat split.
Qed.

End MemoryStore.

(** ** The connection to Redis *)

(** X19. The delay of a reconnection.  [reconnectStrategy] ends the
    reconnection from the eleventh retry on; before that the delay is a
    hundred milliseconds a retry, one second at most, so that the cap of
    three seconds in [Math.min] is never the value returned. *)
Theorem reconnection_delay_never_reaches_the_cap retries :
  ((10 < retries)%Z -> reconnectStrategy retries = GiveUp "Max retries reached") /\
  ((retries <= 10)%Z -> reconnectStrategy retries = RetryAfter (retries * 100)) /\
  (forall ms, reconnectStrategy retries = RetryAfter ms -> (ms <= 1000)%Z /\ ms <> 3000%Z).
Proof.
  unfold reconnectStrategy. destruct (Z.ltb_spec 10 retries) as [Hgt | Hle].
  - repeat split; [lia | discriminate | discriminate].
  - split; [lia |]. split; [intros _; f_equal; lia |].
    intros ms E. injection E as <-. lia.
Qed.

(** X20. The health check always answers 200.  GET /api/healthz answers
    200 whatever the state of Redis and writes to no store.  Its [ok] is
    false exactly when there is a client that is not connected or whose
    ping fails; [storage] is ["redis"] exactly when the helpers use
    Redis; [redis_status] is absent exactly when there is no client. *)
Theorem health_check_always_answers_200 message w :
  fst (fst (get_api_healthz message w)) = 200%Z /\
  redis (snd (get_api_healthz message w)) = redis w /\
  memoryStore (snd (get_api_healthz message w)) = memoryStore w /\
  (health_ok (snd (fst (get_api_healthz message w))) = false <->
   redisClient w = true /\ (redisConnected w = false \/ hd false (faults w) = true)) /\
  (health_storage (snd (fst (get_api_healthz message w))) = "redis" <->
   redis_ready w = true) /\
  (redis_status (snd (fst (get_api_healthz message w))) = None <-> redisClient w = false) /\
  (redis_error (snd (fst (get_api_healthz message w))) = Some message <->
   redis_ready w = true /\ hd false (faults w) = true).
Proof.
  destruct w as [rc rn rd mem fs clk ent dr].
  unfold get_api_healthz, ping, next_fault, redis_ready. cbn.
  destruct rc, rn; cbn; [destruct fs as [| [] fs]; cbn | | |];
    repeat split; try reflexivity; try discriminate; intros;
    repeat match goal with
    | E : _ /\ _ |- _ => destruct E
    | E : _ \/ _ |- _ => destruct E
    end; try discriminate; auto.
Qed.

Section Outage.
Context `{JSON}.
Variable cfg : config.

Local Arguments bind : simpl never.
Local Arguments savePaste : simpl never.
Local Arguments deletePaste : simpl never.
Local Arguments getPaste : simpl never.
Local Arguments getCurrentTime : simpl never.

Lemma getPaste_memory id w :
  redis_ready w = false ->
  run (getPaste id) w = (Returned (memoryStore w !! id), w).
Proof. intros Hr. apply run_unpaused_run, getPaste_unpaused, Hr. Qed.

Lemma savePaste_memory id p w :
  redis_ready w = false ->
  run (savePaste id p) w
  = (Returned true, set_memoryStore (<[id := p]> (memoryStore w)) w).
Proof. intros Hr. apply run_unpaused_run, savePaste_unpaused, Hr. Qed.

(** X21. An outage hides the pastes of Redis and loses none.  After an
    [error] or a [reconnecting] event the helpers read the in-memory
    store: a record that Redis holds is answered "not found" by both
    reads, not an error, and nothing is written; after the next [ready]
    event the world is the one before the outage, record included. *)
Theorem outage_hides_the_pastes_of_redis req w p e :
  redis_ready w = true ->
  e = OnError \/ e = OnReconnecting ->
  stored w (params_id req) = Some p ->
  memoryStore w !! params_id req = None ->
  run (get_api_pastes_id cfg req) (on_event e w) = (Returned not_found, on_event e w) /\
  run (get_api_pastes_id_metadata cfg req) (on_event e w)
    = (Returned not_found, on_event e w) /\
  on_event OnReady (on_event e w) = w /\
  stored (on_event OnReady (on_event e w)) (params_id req) = Some p.
Proof.
  intros Hr He Hp Hmem.
  assert (Hw : on_event e w = set_redisConnected false w)
    by (destruct He; subst e; reflexivity).
  rewrite Hw.
  assert (Hoff : redis_ready (set_redisConnected false w) = false)
    by (unfold redis_ready; cbn; apply andb_false_r).
  assert (Hback : on_event OnReady (set_redisConnected false w) = w).
  { destruct w as [rc rn rd mem fs clk ent dr]. unfold redis_ready in Hr. cbn in Hr.
    apply andb_true_iff in Hr as [-> ->]. reflexivity. }
  split; [| split; [| split]].
  - unfold get_api_pastes_id. cbv zeta. rewrite run_try_catch.
    destruct (is_empty (params_id req)); [reflexivity |].
    destruct (100 <? js_length (params_id req))%nat; [reflexivity |].
    rewrite run_bind, getPaste_memory by exact Hoff.
    change (memoryStore (set_redisConnected false w)) with (memoryStore w).
    rewrite Hmem. reflexivity.
  - unfold get_api_pastes_id_metadata. cbv zeta. rewrite run_try_catch.
    destruct (is_empty (params_id req) || (100 <? js_length (params_id req))%nat);
      [reflexivity |].
    rewrite run_bind, getPaste_memory by exact Hoff.
    change (memoryStore (set_redisConnected false w)) with (memoryStore w).
    rewrite Hmem. reflexivity.
  - exact Hback.
  - rewrite Hback. exact Hp.
Qed.

(** What POST /api/pastes does with the in-memory store, when the first
    identifier drawn is free. *)
Lemma post_api_pastes_memory creq w c :
  redis_ready w = false ->
  check_content (body_content creq) = GoodContent c ->
  check_ttl_seconds (body_ttl_seconds creq) = None ->
  check_max_views (body_max_views creq) = None ->
  memoryStore w !! entropy w (drawn w) = None ->
  run (post_api_pastes cfg creq) w
  = (Returned {| status := 201;
                 body := [("id", RString (entropy w (drawn w)));
                          ("url", RString (paste_url cfg creq (entropy w (drawn w))))] |},
     set_memoryStore
       (<[entropy w (drawn w) :=
            pasteData c (body_ttl_seconds creq) (body_max_views creq) (wallClock w)]>
          (memoryStore w))
       (set_drawn (S (drawn w)) w)).
Proof.
  intros Hr Hcon Httl Hmax Hfree. unfold post_api_pastes.
  rewrite run_try_catch, Hcon, Httl, Hmax. rewrite run_bind.
  set (id := entropy w (drawn w)) in *.
  change (run (draw_id maxAttempts 0) w)
    with (run (existing <- getPaste id ;;
               match existing with
               | None => Ret (id, 0%nat)
               | Some _ => draw_id 9 1
               end) (set_drawn (S (drawn w)) w)).
  rewrite run_bind, getPaste_memory by exact Hr.
  change (memoryStore (set_drawn (S (drawn w)) w)) with (memoryStore w).
  rewrite Hfree. cbn -[Z.eqb Z.add Z.sub Z.leb Z.mul].
  rewrite run_bind. cbn -[Z.eqb Z.add Z.sub Z.leb Z.mul].
  rewrite run_bind, savePaste_memory by exact Hr.
  reflexivity.
Qed.

(** X22. A paste created during an outage is out of reach once Redis is
    back.  While the client is not connected a creation is saved in the
    in-memory store and Redis is not written; after the next [ready]
    event the reads look in Redis, and the identifier the creator was
    given is answered "not found". *)
Theorem paste_created_during_an_outage_is_not_found_later creq req w c :
  redisClient w = true ->
  redisConnected w = false ->
  calm (faults w) = true ->
  check_content (body_content creq) = GoodContent c ->
  check_ttl_seconds (body_ttl_seconds creq) = None ->
  check_max_views (body_max_views creq) = None ->
  memoryStore w !! entropy w (drawn w) = None ->
  redis w !! redis_key (entropy w (drawn w)) = None ->
  params_id req = entropy w (drawn w) ->
  exists w1,
    run (post_api_pastes cfg creq) w
      = (Returned {| status := 201;
                     body := [("id", RString (entropy w (drawn w)));
                              ("url", RString (paste_url cfg creq (entropy w (drawn w))))] |},
         w1) /\
    memoryStore w1 !! entropy w (drawn w)
      = Some (pasteData c (body_ttl_seconds creq) (body_max_views creq) (wallClock w)) /\
    redis w1 = redis w /\
    fst (run (get_api_pastes_id cfg req) (on_event OnReady w1)) = Returned not_found /\
    fst (run (get_api_pastes_id_metadata cfg req) (on_event OnReady w1))
      = Returned not_found.
Proof.
  intros Hrc Hrn Hc Hcon Httl Hmax Hfree Hkey Hid.
  assert (Hr : redis_ready w = false) by (unfold redis_ready; rewrite Hrn; apply andb_false_r).
  rewrite (post_api_pastes_memory creq w c Hr Hcon Httl Hmax Hfree).
  eexists. split; [reflexivity |].
  split; [cbn; apply lookup_insert_eq |]. split; [reflexivity |].
  set (w1 := set_memoryStore _ _).
  assert (Hgone : stored (on_event OnReady w1) (params_id req) = None).
  { unfold stored, redis_ready. cbn. rewrite Hrc. cbn. rewrite Hid, Hkey. reflexivity. }
  assert (Hc1 : calm (faults (on_event OnReady w1)) = true) by exact Hc.
  split.
  - destruct (is_empty (params_id req)) eqn:Hne.
    { rewrite get_api_pastes_id_bad_id by (left; exact Hne). reflexivity. }
    destruct (Nat.le_gt_cases (js_length (params_id req)) 100) as [Hlen | Hlen].
    2: { rewrite get_api_pastes_id_bad_id by (right; exact Hlen). reflexivity. }
    destruct (get_api_pastes_id_calm cfg req _ Hc1 Hne Hlen) as (w' & Hrun & _).
    rewrite Hrun, Hgone. reflexivity.
  - destruct (get_api_pastes_id_metadata_any cfg req (on_event OnReady w1))
      as (resp & w' & Hrun & [-> | (p & Hp & _)]).
    + rewrite Hrun. reflexivity.
    + rewrite Hgone in Hp. discriminate.
Qed.

End Outage.

(** ** The client *)

Lemma payload_number_checked input (lo hi : Z) (e1 e2 e3 : string) :
  (0 <= lo)%Z -> (hi < infinity)%Z ->
  (if is_empty input then None
   else
     match parseInt input with
     | None => Some e1
     | Some v => if (v <? lo)%Z then Some e2 else if (hi <? v)%Z then Some e3 else None
     end) = None ->
  payload_number input = JUndefined \/
  exists v, payload_number input = JNumber (Integer v) /\ parseInt input = Some v /\
            (lo <= v <= hi)%Z.
Proof.
  intros Hlo Hhi. unfold payload_number. destruct (is_empty input); [auto |].
  destruct (parseInt input) as [v |]; [| discriminate].
  destruct (Z.ltb_spec v lo); [discriminate |].
  destruct (Z.ltb_spec hi v); [discriminate |].
  intros _. right. exists v.
  replace (Z.abs v <? infinity)%Z with true by (symmetry; apply Z.ltb_lt; lia).
  repeat split; auto.
Qed.

Lemma infinity_is_large : (31536000 < infinity)%Z.
Proof. apply Z.ltb_lt. vm_compute. reflexivity. Qed.

(** Escaping never shortens a string. *)
Lemma json_escape_char_length c : (1 <= String.length (json_escape_char c))%nat.
Proof.
  unfold json_escape_char.
  repeat match goal with
  | |- context [if ?b then _ else _] => destruct b
  end; rewrite ?length_append; cbn [String.length]; lia.
Qed.

Lemma json_escape_length s : (String.length s <= String.length (json_escape s))%nat.
Proof.
  remember (String.length s) as n eqn:Hn. revert s Hn.
  induction n as [n IH] using lt_wf_ind. intros s ->.
  destruct s as [| c r]; [cbn; lia |].
  pose proof (json_escape_char_length c) as Hc.
  destruct r as [| b r1].
  { cbn [json_escape]. rewrite length_append. cbn [String.length] in *. lia. }
  destruct r1 as [| d r'].
  { change (json_escape (String c (String b EmptyString)))
      with (json_escape_char c +:+ json_escape (String b EmptyString)).
    rewrite length_append.
    pose proof (IH (String.length (String b EmptyString))
                  ltac:(cbn [String.length] in *; lia) _ eq_refl).
    cbn [String.length] in *. lia. }
  change (json_escape (String c (String b (String d r'))))
    with (if (code c =? 237)%nat && (160 <=? code b)%nat
          then json_escape_surrogate b d +:+ json_escape r'
          else json_escape_char c +:+ json_escape (String b (String d r'))).
  destruct ((code c =? 237)%nat && (160 <=? code b)%nat); rewrite length_append.
  - pose proof (IH (String.length r') ltac:(cbn [String.length] in *; lia) _ eq_refl).
    unfold json_escape_surrogate. rewrite length_append.
    cbn [String.length] in *. lia.
  - pose proof (IH (String.length (String b (String d r')))
                  ltac:(cbn [String.length] in *; lia) _ eq_refl).
    cbn [String.length] in *. lia.
Qed.

(** The body holds the bytes of the content and fourteen more at the
    least: the braces, the name of the field with its quotes and colon,
    and the quotes of the content. *)
Lemma payload_text_length f :
  (String.length (form_content f) + 14 <= String.length (payload_text f))%nat.
Proof.
  unfold payload_text, json_string. rewrite !length_append.
  pose proof (json_escape_length (form_content f)).
  change (String.length (String double_quote (json_escape "content")))
    with 8%nat.
  cbn [String.length]. rewrite ?length_append. cbn [String.length]. lia.
Qed.

Section Form.
Context `{JSON}.
Variable cfg : config.

(** X23. What the form accepts, the server accepts when the body is
    within its limit.  When [validateInputs] finds the form valid,
    [handleSubmit] posts fields that pass the three checks of the route:
    the [ttl_seconds] and [max_views] are what [parseInt] reads from the
    inputs.  When the body holds at most 10 MiB the request is never
    answered 400, and it is answered 201 when there is a link to build,
    no helper exhausts its attempts and the first identifier drawn is
    free.  When the body holds more, which the form allows since it
    bounds the characters of the content and not the bytes of the body
    (the content and fourteen bytes at the least), the server answers
    400, "content is required". *)
Theorem validated_form_passes_the_server_checks f host a w :
  handleSubmit f host = Some a ->
  (arrival_host a = host /\
   arrival_length a = Z.of_nat (String.length (payload_text f)) /\
   (String.length (form_content f) + 14 <= String.length (payload_text f))%nat /\
   exists vt vm,
     arrival_text a = Fields (JString (form_content f)) vt vm /\
     valid_fields (JString (form_content f)) vt vm = true /\
     (is_empty (form_ttlSeconds f) = false ->
      exists ttl, parseInt (form_ttlSeconds f) = Some ttl /\ vt = JNumber (Integer ttl)) /\
     (is_empty (form_maxViews f) = false ->
      exists views, parseInt (form_maxViews f) = Some views /\
                    vm = JNumber (Integer views))) /\
  ((arrival_length a <= 10485760)%Z ->
   (exists resp w',
      run (serve_post cfg a) w = (Returned resp, w') /\
      (status resp = 201%Z \/ status resp = 500%Z)) /\
   (forall base,
      base_url cfg host = Some base ->
      calm (faults w) = true ->
      stored w (entropy w (drawn w)) = None ->
      exists w',
        run (serve_post cfg a) w
        = (Returned {| status := 201;
                       body := [("id", RString (entropy w (drawn w)));
                                ("url",
                                 RString (base +:+ "/p/" +:+ entropy w (drawn w)))] |},
           w'))) /\
  ((10485760 < arrival_length a)%Z ->
   run (serve_post cfg a) w = (Returned (bad_request "content is required"), w)).
Proof.
  unfold handleSubmit. destruct (validateInputs f) as [e |] eqn:Hv; [discriminate |].
  intros Ha.
  assert (Ea : a = {| arrival_host := host;
                      arrival_length := Z.of_nat (String.length (payload_text f));
                      arrival_text :=
                        Fields (JString (form_content f))
                          (payload_number (form_ttlSeconds f))
                          (payload_number (form_maxViews f)) |})
    by congruence.
  subst a. clear Ha. unfold validateInputs in Hv.
  pose proof (payload_text_length f) as Hbody.
  generalize dependent (payload_text f). intros text Hbody.
  destruct (is_empty (form_content f) || is_empty (trim (form_content f))) eqn:Hblank;
    [discriminate |].
  apply orb_false_iff in Hblank as [_ Hblank].
  destruct (Z.ltb_spec maxChars (Z.of_nat (js_length (form_content f)))) as [| Hsize];
    [discriminate |].
  unfold maxChars in Hsize.
  match type of Hv with
  | match ?t with _ => _ end = None => destruct t as [e |] eqn:Httl; [discriminate |]
  end.
  pose proof infinity_is_large as Hinf.
  apply payload_number_checked in Httl; [| lia | lia].
  apply payload_number_checked in Hv; [| lia | lia].
  change (365 * 24 * 60 * 60)%Z with 31536000%Z in Httl.
  set (vt := payload_number (form_ttlSeconds f)) in *.
  set (vm := payload_number (form_maxViews f)) in *.
  assert (Hvalid : valid_fields (JString (form_content f)) vt vm = true).
  { unfold valid_fields. cbn [valid_content]. rewrite Hblank. cbn [negb andb].
    replace (Z.of_nat (js_length (form_content f)) <=? 10485760)%Z with true
      by (symmetry; apply Z.leb_le; lia).
    cbn [andb].
    destruct Httl as [-> | (t & -> & _ & Ht)], Hv as [-> | (v & -> & _ & Hv)]; cbn;
      rewrite ?andb_true_r;
      repeat match goal with
      | |- _ && _ = true => apply andb_true_iff; split
      | |- (_ <=? _)%Z = true => apply Z.leb_le; lia
      end; reflexivity. }
  destruct (valid_creation_passes_the_checks
              (with_fields EmptyString (JString (form_content f)) vt vm) Hvalid)
    as (c & Hc & Hcon & Hchk1 & Hchk2).
  cbn [body_content body_ttl_seconds body_max_views with_fields] in Hc, Hcon, Hchk1, Hchk2.
  assert (c = form_content f) by congruence. subst c.
  cbn [arrival_host arrival_length arrival_text].
  split; [| split].
  - split; [reflexivity |]. split; [reflexivity |].
    split; [exact Hbody |].
    exists vt, vm. split; [reflexivity |]. split; [exact Hvalid |]. split.
    + intros Hne. unfold vt, payload_number in *. rewrite Hne in *.
      destruct Httl as [Hu | (t & Ht & Hp & _)].
      * destruct (parseInt (form_ttlSeconds f)) as [z |]; [| discriminate].
        destruct (Z.abs z <? infinity)%Z; discriminate.
      * exists t. split; [exact Hp | exact Ht].
    + intros Hne. unfold vm, payload_number in *. rewrite Hne in *.
      destruct Hv as [Hu | (v & Hv & Hp & _)].
      * destruct (parseInt (form_maxViews f)) as [z |]; [| discriminate].
        destruct (Z.abs z <? infinity)%Z; discriminate.
      * exists v. split; [exact Hp | exact Hv].
  - intros Hle. unfold serve_post, express_json.
    cbn [arrival_host arrival_length arrival_text].
    replace (10 * 1024 * 1024 <? Z.of_nat (String.length text))%Z with false
      by (symmetry; apply Z.ltb_ge; lia).
    split.
    + apply (app_post_api_pastes_checked cfg host _ _ _ _ w Hcon Hchk1 Hchk2).
    + intros base Hbase Hcalm Hfree.
      destruct (app_post_api_pastes_calm cfg host _ _ _ _ base w
                  Hbase Hcalm Hcon Hchk1 Hchk2 Hfree) as (w' & Hrun & _).
      exists w'. exact Hrun.
  - intros Hbig. unfold serve_post, express_json.
    cbn [arrival_host arrival_length arrival_text].
    replace (10 * 1024 * 1024 <? Z.of_nat (String.length text))%Z with true
      by (symmetry; apply Z.ltb_lt; lia).
    unfold app_post_api_pastes. rewrite run_try_catch. reflexivity.
Qed.

End Form.

Lemma nested_floors (diff : Z) :
  (diff / 1000 / 60 = diff / 60000)%Z /\
  (diff / 1000 / 60 / 60 = diff / 3600000)%Z /\
  (diff / 1000 / 60 / 60 / 24 = diff / 86400000)%Z.
Proof.
  rewrite !Z.div_div by lia. repeat split.
Qed.

Lemma positive_quotient (diff size : Z) :
  (0 < size)%Z -> (0 <? diff / size)%Z = (size <=? diff)%Z.
Proof.
  intros Hs. destruct (Z.leb_spec size diff) as [Hle | Hlt].
  - apply Z.ltb_lt. apply Z.div_str_pos. lia.
  - apply Z.ltb_ge.
    destruct (Z.le_gt_cases 0 diff) as [Hnn | Hneg].
    + rewrite Z.div_small by lia. lia.
    + assert (diff / size < 0)%Z by (apply Z.div_lt_upper_bound; lia). lia.
Qed.

(** X24. The time remaining is rounded down to the largest unit.
    [getTimeRemaining] answers [null] without an expiry and ["Expired"]
    from the expiry on; before it, the whole number of days left when
    there is at least one, else of hours, else of minutes, else of
    seconds, with the unit in the plural unless the number is one.  In
    the last second it shows ["0 seconds"]. *)
Theorem time_remaining_is_rounded_down expiry now :
  let diff := (expiry - now)%Z in
  let shown (n : Z) (unit : string) :=
    Some (pretty n +:+ " " +:+ unit +:+ (if (n =? 1)%Z then "" else "s")) in
  getTimeRemaining None now = None /\
  ((diff <= 0)%Z -> getTimeRemaining (Some expiry) now = Some "Expired") /\
  ((0 < diff < 1000)%Z -> getTimeRemaining (Some expiry) now = Some "0 seconds") /\
  ((0 < diff < 60000)%Z ->
   getTimeRemaining (Some expiry) now = shown (diff / 1000)%Z "second") /\
  ((60000 <= diff < 3600000)%Z ->
   getTimeRemaining (Some expiry) now = shown (diff / 60000)%Z "minute") /\
  ((3600000 <= diff < 86400000)%Z ->
   getTimeRemaining (Some expiry) now = shown (diff / 3600000)%Z "hour") /\
  ((86400000 <= diff)%Z ->
   getTimeRemaining (Some expiry) now = shown (diff / 86400000)%Z "day").
Proof.
  intros diff shown. unfold getTimeRemaining. cbv zeta. fold diff.
  destruct (nested_floors diff) as (-> & -> & ->).
  rewrite !positive_quotient by lia.
  split; [reflexivity |].
  repeat split; intros Hd;
    destruct (Z.leb_spec diff 0); try lia;
    destruct (Z.leb_spec 86400000 diff); try lia;
    destruct (Z.leb_spec 3600000 diff); try lia;
    destruct (Z.leb_spec 60000 diff); try lia;
    try reflexivity.
  rewrite Z.div_small by lia. reflexivity.
Qed.

(** ** Counted reads that overlap, with views to spare *)

Section LostUpdate.
Context `{JSON}.
Variable cfg : config.


End LostUpdate.

(** ** Identifiers that are not looked up, and the time spent waiting *)

Section Refused.
Context `{JSON}.
Variable cfg : config.

(** X26. An identifier that is empty or longer than a hundred characters
    is refused at once.  The three reads answer their 404 without a
    look-up: no Redis command is issued and the world is as it was. *)
Theorem unusable_identifier_is_refused_at_once req w :
  is_empty (params_id req) = true \/ (100 < js_length (params_id req))%nat ->
  run (get_api_pastes_id cfg req) w = (Returned not_found, w) /\
  run (get_api_pastes_id_metadata cfg req) w = (Returned not_found, w) /\
  run (get_p_id cfg req) w = (Returned (plain_page 404 "Paste not found"), w).
Proof.
  intros Hbad.
  assert (Hor : is_empty (params_id req) || (100 <? js_length (params_id req))%nat = true).
  { destruct Hbad as [-> | Hlen]; [reflexivity |].
    apply Nat.ltb_lt in Hlen. rewrite Hlen. apply orb_true_r. }
  split; [| split].
  - unfold get_api_pastes_id. cbv zeta. rewrite run_try_catch.
    destruct (is_empty (params_id req)); [reflexivity |].
    cbn [orb] in Hor. rewrite Hor. reflexivity.
  - unfold get_api_pastes_id_metadata. cbv zeta. rewrite run_try_catch, Hor. reflexivity.
  - unfold get_p_id. cbv zeta. rewrite run_try_catch, Hor. reflexivity.
Qed.

End Refused.

Lemma slept_bind {A B} (m : prog A) (f : A -> prog B) : forall w,
  slept (bind m f) w =
  (slept m w + match run m w with
               | (Returned a, w') => slept (f a) w'
               | (Thrown _, _) => 0
               end)%Z.
Proof.
  induction m as [a | e | X c k IH]; intros w; cbn -[Z.add]; try reflexivity.
  destruct (exec c w) as [x w1]. rewrite IH. lia.
Qed.

Lemma slept_try_catch {A} (m : prog A) (h : string -> prog A) : forall w,
  slept (try_catch m h) w =
  (slept m w + match run m w with
               | (Returned _, _) => 0
               | (Thrown e, w') => slept (h e) w'
               end)%Z.
Proof.
  induction m as [a | e | X c k IH]; intros w; cbn -[Z.add]; try reflexivity.
  destruct (exec c w) as [x w1]. rewrite IH. lia.
Qed.

Lemma slept_caught {A} (m : prog A) (a : A) w :
  slept (try_catch m (fun _ => Ret a)) w = slept m w.
Proof.
  rewrite slept_try_catch. destruct (run m w) as [[? | ?] ?]; cbn [slept]; lia.
Qed.

Lemma slept_getCurrentTime cfg req w : slept (getCurrentTime cfg req) w = 0%Z.
Proof.
  unfold getCurrentTime.
  destruct (testMode cfg && _); [| reflexivity].
  destruct (parseInt _) as [t |]; [| reflexivity].
  destruct (t <? 0)%Z; reflexivity.
Qed.

Section Backoff.
Context `{JSON}.

Lemma slept_deletePaste id w :
  (slept (deletePaste id) w = 0 \/ slept (deletePaste id) w = 100 \/
   slept (deletePaste id) w = 300)%Z /\
  (hd false (faults w) = false -> slept (deletePaste id) w = 0%Z).
Proof.
  destruct w as [rc rn rd mem fs clk ent dr]. unfold deletePaste. cbn.
  destruct rc, rn; cbn; auto.
  destruct fs as [| [] [| [] [| [] fs]]]; cbn; split; auto; discriminate.
Qed.

Lemma slept_savePaste id p w :
  (slept (savePaste id p) w = 0 \/ slept (savePaste id p) w = 100 \/
   slept (savePaste id p) w = 300)%Z /\
  (hd false (faults w) = false -> slept (savePaste id p) w = 0%Z).
Proof.
  destruct w as [rc rn rd mem fs clk ent dr]. unfold savePaste. cbn.
  destruct rc, rn; cbn; rewrite ?JSON_parse_stringify; cbn; auto.
  destruct fs as [| [] [| [] [| [] fs]]]; cbn; split; auto; discriminate.
Qed.

Lemma slept_getPaste id w :
  (0 <= slept (getPaste id) w <= 600)%Z /\
  (forall p w', run (getPaste id) w = (Returned (Some p), w') ->
     (slept (getPaste id) w <= 300)%Z).
Proof.
  assert (Hafter : forall d w0 k,
    (0 <= k <= 300)%Z ->
    (0 <= k + slept (after_get id d) w0 <= 600)%Z /\
    (forall p w', run (after_get id d) w0 = (Returned (Some p), w') ->
       (k + slept (after_get id d) w0 <= 300)%Z)).
  { intros d w0 k Hk. unfold after_get. destruct d as [data |]; [| cbn; split; [lia | discriminate]].
    destruct (is_empty data); [cbn; split; [lia | discriminate] |].
    destruct (JSON_parse data); [cbn; split; [lia | intros; lia] |].
    rewrite slept_bind, run_bind. destruct (slept_deletePaste id w0) as [Hd _].
    destruct (run (deletePaste id) w0) as [[b | e] w1]; cbn -[deletePaste Z.add];
      (split; [lia | discriminate]). }
  destruct w as [rc rn rd mem fs clk ent dr]. unfold getPaste.
  destruct rc, rn.
  2-4: (cbn; destruct (mem !! id) as [d |]; cbn -[Z.add]; rewrite ?JSON_parse_stringify;
        cbn; split; intros; lia).
  destruct fs as [| [] [| [] [| [] fs]]];
    cbn -[Z.add deletePaste];
    try (split; [lia | discriminate]);
    repeat match goal with
    | |- context [slept match ?d with Some _ => _ | None => _ end ?w0] =>
        change (slept match d with Some data => _ | None => _ end w0)
          with (slept (after_get id d) w0)
    | |- context [run match ?d with Some _ => _ | None => _ end ?w0] =>
        change (run match d with Some data => _ | None => _ end w0)
          with (run (after_get id d) w0)
    end;
    rewrite ?Z.add_assoc;
    try (apply Hafter; lia);
    match goal with
    | |- context [slept (after_get id ?d) ?w0] =>
        destruct (Hafter d w0 0%Z ltac:(lia)) as [Hb Hs]
    end; rewrite Z.add_0_l in Hb, Hs; (split; [lia | exact Hs]).
Qed.

Variable cfg : config.

Local Arguments bind : simpl never.
Local Arguments savePaste : simpl never.
Local Arguments deletePaste : simpl never.
Local Arguments getPaste : simpl never.
Local Arguments getCurrentTime : simpl never.

(** X27. The time a read spends waiting is bounded.  A helper waits 100
    milliseconds after a first failure and 200 after a second, and does
    not wait after the third: 0, 100 or 300 milliseconds, and none when
    its first command is answered.  A counted read, whatever the fault
    schedule, spends at most 900 milliseconds in backoff timers, and a
    metadata read at most 600. *)
Theorem backoff_of_a_read_is_bounded req w :
  (forall id,
     (slept (deletePaste id) w = 0 \/ slept (deletePaste id) w = 100 \/
      slept (deletePaste id) w = 300)%Z /\
     (hd false (faults w) = false -> slept (deletePaste id) w = 0%Z)) /\
  (forall id p,
     (slept (savePaste id p) w = 0 \/ slept (savePaste id p) w = 100 \/
      slept (savePaste id p) w = 300)%Z /\
     (hd false (faults w) = false -> slept (savePaste id p) w = 0%Z)) /\
  (0 <= slept (get_api_pastes_id cfg req) w <= 900)%Z /\
  (0 <= slept (get_api_pastes_id_metadata cfg req) w <= 600)%Z.
Proof.
  split; [intros id; apply slept_deletePaste |].
  split; [intros id p; apply slept_savePaste |].
  assert (Hdel : forall id w0, (0 <= slept (deletePaste id) w0 <= 300)%Z)
    by (intros id w0; destruct (slept_deletePaste id w0) as [Hd _]; lia).
  assert (Hsave : forall id p w0, (0 <= slept (savePaste id p) w0 <= 300)%Z)
    by (intros id p w0; destruct (slept_savePaste id p w0) as [Hd _]; lia).
  split.
  - unfold get_api_pastes_id. cbv zeta. rewrite slept_caught.
    destruct (is_empty (params_id req)); [cbn; lia |].
    destruct (100 <? js_length (params_id req))%nat; [cbn; lia |].
    rewrite slept_bind.
    destruct (slept_getPaste (params_id req) w) as [Hget Hsome].
    destruct (run (getPaste (params_id req)) w) as [[[p |] | e] w1]; cbn [slept]; try lia.
    specialize (Hsome p w1 eq_refl).
    rewrite slept_bind, slept_getCurrentTime, getCurrentTime_run.
    destruct (expired _ p).
    { rewrite slept_bind. pose proof (Hdel (params_id req) w1).
      destruct (run (deletePaste _) w1) as [[b | e] w2]; cbn [slept]; lia. }
    rewrite slept_bind. unfold decrementViewsAtomic.
    destruct (remaining_views p) as [r |].
    + destruct (r <=? 0)%Z.
      { cbn [run]. rewrite slept_bind, run_bind. pose proof (Hdel (params_id req) w1).
        destruct (run (deletePaste _) w1) as [[b | e] w2]; cbn [slept run]; lia. }
      cbv zeta. destruct (r - 1 <=? 0)%Z.
      * rewrite slept_bind, run_bind. pose proof (Hdel (params_id req) w1).
        destruct (run (deletePaste _) w1) as [[b | e] w2]; cbn [slept run];
          rewrite ?slept_bind; cbn [slept run]; lia.
      * rewrite slept_bind, run_bind. pose proof (Hsave (params_id req)
          (set_remaining_views p (Some (r - 1)%Z)) w1).
        destruct (run (savePaste _ _) w1) as [[b | e] w2]; cbn [slept run];
          [| lia].
        rewrite slept_bind.
        match goal with
        | |- context [slept (savePaste ?i ?q) w2] => pose proof (Hsave i q w2)
        end.
        destruct (run (savePaste _ _) w2) as [[b' | e'] w3]; cbn [slept]; lia.
    + cbn [slept run]. rewrite slept_bind.
      match goal with
      | |- context [slept (savePaste ?i ?q) w1] => pose proof (Hsave i q w1)
      end.
      destruct (run (savePaste _ _) w1) as [[b' | e'] w3]; cbn [slept]; lia.
  - unfold get_api_pastes_id_metadata. cbv zeta. rewrite slept_caught.
    destruct (is_empty (params_id req) || (100 <? js_length (params_id req))%nat);
      [cbn; lia |].
    rewrite slept_bind.
    destruct (slept_getPaste (params_id req) w) as [Hget Hsome].
    destruct (run (getPaste (params_id req)) w) as [[[p |] | e] w1]; cbn [slept]; try lia.
    specialize (Hsome p w1 eq_refl).
    rewrite slept_bind, slept_getCurrentTime, getCurrentTime_run.
    destruct (expired _ p).
    { rewrite slept_bind. pose proof (Hdel (params_id req) w1).
      destruct (run (deletePaste _) w1) as [[b | e] w2]; cbn [slept]; lia. }
    destruct (views_exhausted p); [| cbn [slept]; lia].
    rewrite slept_bind. pose proof (Hdel (params_id req) w1).
    destruct (run (deletePaste _) w1) as [[b | e] w2]; cbn [slept]; lia.
Qed.

End Backoff.

(** ** The further properties on concrete worlds *)


Lemma page_names_the_reason_witness :
  exists w',
    run (get_p_id test_config (read_request "abc1234567" None))
        (holding true [true; false] spent_paste)
    = (Returned (plain_page 404 "Paste expired"), w') /\
    stored w' "abc1234567" = None.
Proof.
  apply (proj2 (@page_names_the_reason demo_JSON test_config
                  (read_request "abc1234567" None)
                  (@holding demo_JSON true [true; false] spent_paste)
                  eq_refl eq_refl ltac:(vm_compute; lia)) spent_paste).
  - vm_compute. reflexivity.
  - reflexivity.
Defined.


Lemma views_served_and_left_add_up_witness :
  exists w1 w2 rs p,
    run (post_api_pastes test_config
           (create_request "hello" (JNumber (Integer 60)) (JNumber (Integer 3))))
        (example_world true [true; false; true; true; false])
      = (Returned {| status := 201;
                     body := [("id", RString "abc1234567");
                              ("url", RString "http://localhost:3001/p/abc1234567")] |},
         w1) /\
    serve_all (get_api_pastes_id test_config) two_reads w1 = (rs, w2) /\
    stored w2 "abc1234567" = Some p /\
    max_views p = Some 3%Z /\
    remaining_views p = Some 1%Z /\
    view_count p = 2%Z /\
    content p = "hello".
Proof.
  apply (@views_served_and_left_add_up demo_JSON test_config
           (create_request "hello" (JNumber (Integer 60)) (JNumber (Integer 3)))
           (example_world true [true; false; true; true; false])
           "hello" 3%Z two_reads
           eq_refl eq_refl eq_refl eq_refl ltac:(lia)
           ltac:(vm_compute; reflexivity) eq_refl ltac:(vm_compute; reflexivity)).
  intros t r [E | [E | []]]; injection E as <- <-; split; reflexivity.
Defined.

Lemma view_is_spent_though_the_read_fails_witness :
  exists w',
    run (get_api_pastes_id test_config (read_request "abc1234567" None))
        (holding true [false; false; true; true; true] (fresh_paste 3))
    = (Returned internal_server_error, w') /\
    stored w' "abc1234567" = Some (set_remaining_views (fresh_paste 3) (Some 2%Z)) /\
    faults w' = [].
Proof.
  apply (@view_is_spent_though_the_read_fails demo_JSON test_config
           (read_request "abc1234567" None)
           (@holding demo_JSON true [false; false; true; true; true] (fresh_paste 3))
           (fresh_paste 3) 3%Z []
           eq_refl eq_refl eq_refl ltac:(vm_compute; lia) ltac:(vm_compute; reflexivity)
           eq_refl ltac:(lia) eq_refl).
Defined.

Lemma creation_that_cannot_save_stores_nothing_witness :
  exists w',
    run (post_api_pastes test_config (create_request "hello" JUndefined JUndefined))
        (example_world true [false; true; true; true])
    = (Returned internal_server_error, w') /\
    redis w' = redis (example_world true [false; true; true; true]) /\
    memoryStore w' = memoryStore (example_world true [false; true; true; true]) /\
    faults w' = [] /\ drawn w' = 1%nat.
Proof.
  apply (@creation_that_cannot_save_stores_nothing demo_JSON test_config
           (create_request "hello" JUndefined JUndefined)
           (example_world true [false; true; true; true]) "hello" []
           eq_refl eq_refl eq_refl eq_refl eq_refl ltac:(vm_compute; reflexivity)).
Defined.

Lemma creation_overwrites_when_the_check_cannot_load_witness :
  stored (crowded [true; true; true] last_view) "abc1234567" = Some last_view /\
  exists w',
    run (post_api_pastes test_config (create_request "hello" JUndefined JUndefined))
        (crowded [true; true; true] last_view)
    = (Returned {| status := 201;
                   body := [("id", RString "abc1234567");
                            ("url", RString "http://localhost:3001/p/abc1234567")] |},
       w') /\
    stored w' "abc1234567" = Some (pasteData "hello" JUndefined JUndefined 5000).
Proof.
  split; [vm_compute; reflexivity |].
  apply (@creation_overwrites_when_the_check_cannot_load demo_JSON test_config
           (create_request "hello" JUndefined JUndefined)
           (@crowded demo_JSON [true; true; true] last_view) "hello" []
           eq_refl eq_refl eq_refl eq_refl eq_refl eq_refl).
Defined.

Lemma creation_never_overwrites_witness :
  exists resp w',
    run (post_api_pastes test_config (create_request "hello" JUndefined JUndefined))
        (crowded [true; false] last_view) = (Returned resp, w') /\
    forall i p, stored (crowded [true; false] last_view) i = Some p -> stored w' i = Some p.
Proof.
  apply (@creation_never_overwrites demo_JSON test_config
           (create_request "hello" JUndefined JUndefined)
           (@crowded demo_JSON [true; false] last_view) eq_refl).
Defined.

Lemma creation_takes_the_first_free_identifier_witness :
  exists w',
    run (post_api_pastes test_config (create_request "hello" JUndefined JUndefined))
        (crowded [] last_view)
    = (Returned {| status := 201;
                   body := [("id", RString "xyz7654321");
                            ("url", RString "http://localhost:3001/p/xyz7654321")] |},
       w') /\
    stored w' "xyz7654321" = Some (pasteData "hello" JUndefined JUndefined 5000).
Proof.
  apply (proj1 (@creation_takes_the_first_free_identifier demo_JSON test_config
                  (create_request "hello" JUndefined JUndefined)
                  (@crowded demo_JSON [] last_view) "hello"
                  eq_refl eq_refl eq_refl eq_refl) 1%nat).
  - lia.
  - vm_compute. reflexivity.
  - intros j' Hj'. assert (j' = 0%nat) by lia. subst j'. vm_compute. discriminate.
Defined.

Lemma clock_override_needs_test_mode_witness :
  get_api_pastes_id (config_js (fun _ => None))
    (with_header (Some "99999") (read_request "abc1234567" None))
  = get_api_pastes_id (config_js (fun _ => None)) (read_request "abc1234567" None).
Proof.
  apply (@clock_override_needs_test_mode demo_JSON (fun _ => None)
           (read_request "abc1234567" None) (Some "99999")).
  discriminate.
Defined.

Lemma memory_store_requests_run_in_one_go_witness :
  resume (get_api_pastes_id test_config (read_request "abc1234567" None))
    (holding false [] last_view)
  = (Ret served_last_view,
     snd (run (get_api_pastes_id test_config (read_request "abc1234567" None))
            (holding false [] last_view))).
Proof.
  apply (@memory_store_requests_run_in_one_go demo_JSON test_config
           (read_request "abc1234567" None) (@holding demo_JSON false [] last_view) eq_refl).
Defined.

Lemma outage_hides_the_pastes_of_redis_witness :
  run (get_api_pastes_id test_config (read_request "abc1234567" None))
      (on_event OnError (crowded [] last_view))
  = (Returned not_found, on_event OnError (crowded [] last_view)) /\
  run (get_api_pastes_id_metadata test_config (read_request "abc1234567" None))
      (on_event OnError (crowded [] last_view))
  = (Returned not_found, on_event OnError (crowded [] last_view)) /\
  on_event OnReady (on_event OnError (crowded [] last_view)) = crowded [] last_view /\
  stored (on_event OnReady (on_event OnError (crowded [] last_view))) "abc1234567"
  = Some last_view.
Proof.
  apply (@outage_hides_the_pastes_of_redis demo_JSON test_config
           (read_request "abc1234567" None) (@crowded demo_JSON [] last_view)
           last_view OnError eq_refl (or_introl eq_refl)
           ltac:(vm_compute; reflexivity) ltac:(vm_compute; reflexivity)).
Defined.

Lemma paste_created_during_an_outage_is_not_found_later_witness :
  exists w1,
    run (post_api_pastes test_config (create_request "hello" JUndefined JUndefined))
        (set_redisConnected false (example_world true []))
    = (Returned {| status := 201;
                   body := [("id", RString "abc1234567");
                            ("url", RString "http://localhost:3001/p/abc1234567")] |},
       w1) /\
    memoryStore w1 !! "abc1234567" = Some (pasteData "hello" JUndefined JUndefined 1000) /\
    redis w1 = redis (set_redisConnected false (example_world true [])) /\
    fst (run (get_api_pastes_id test_config (read_request "abc1234567" None))
           (on_event OnReady w1)) = Returned not_found /\
    fst (run (get_api_pastes_id_metadata test_config (read_request "abc1234567" None))
           (on_event OnReady w1)) = Returned not_found.
Proof.
  apply (@paste_created_during_an_outage_is_not_found_later demo_JSON test_config
           (create_request "hello" JUndefined JUndefined)
           (read_request "abc1234567" None)
           (set_redisConnected false (example_world true [])) "hello"
           eq_refl eq_refl eq_refl eq_refl eq_refl eq_refl
           ltac:(vm_compute; reflexivity) ltac:(vm_compute; reflexivity) eq_refl).
Defined.

Lemma validated_form_passes_the_server_checks_witness :
  exists w',
    run (serve_post test_config
           {| arrival_host := Some "localhost:3001";
              arrival_length := 36;
              arrival_text := Fields (JString "hello") (JNumber (Integer 60)) JUndefined |})
        (example_world true [])
    = (Returned {| status := 201;
                   body := [("id", RString "abc1234567");
                            ("url", RString "http://localhost:3001/p/abc1234567")] |},
       w').
Proof.
  destruct (@validated_form_passes_the_server_checks demo_JSON test_config
              {| form_content := "hello"; form_ttlSeconds := "60"; form_maxViews := "" |}
              (Some "localhost:3001")
              {| arrival_host := Some "localhost:3001";
                 arrival_length := 36;
                 arrival_text :=
                   Fields (JString "hello") (JNumber (Integer 60)) JUndefined |}
              (example_world true []) ltac:(vm_compute; reflexivity))
    as (_ & Hsmall & _).
  apply (proj2 (Hsmall ltac:(cbn; lia)) "http://localhost:3001" eq_refl eq_refl
           ltac:(vm_compute; reflexivity)).
Defined.


Lemma unusable_identifier_is_refused_at_once_witness :
  run (get_api_pastes_id test_config (read_request (letters 101 "a") None))
      (example_world true [true])
  = (Returned not_found, example_world true [true]) /\
  run (get_p_id test_config (read_request (letters 101 "a") None))
      (example_world true [true])
  = (Returned (plain_page 404 "Paste not found"), example_world true [true]).
Proof.
  assert (Hlong : (100 < js_length (letters 101 "a"))%nat)
    by (apply Nat.ltb_lt; vm_compute; reflexivity).
  destruct (@unusable_identifier_is_refused_at_once demo_JSON test_config
              (read_request (letters 101 "a") None) (example_world true [true])
              (or_intror Hlong))
    as (Hread & _ & Hpage).
  split; [exact Hread | exact Hpage].
Defined.

(** The limit of a hundred counts characters, as [id.length] does, and
    not bytes: an identifier of a hundred accented letters holds two
    hundred bytes and is looked up; Redis is asked for it. *)
Example identifier_of_accented_letters_is_looked_up :
  js_length (letters 100 e_acute) = 100%nat /\
  String.length (letters 100 e_acute) = 200%nat /\
  run (get_api_pastes_id test_config (read_request (letters 100 e_acute) None))
      (example_world true [true; false])
  = (Returned not_found, example_world true []).
Proof. repeat split; vm_compute; reflexivity. Qed.

Lemma page_view_spends_no_view_witness :
  exists w',
    run (get_p_id test_config (read_request "abc1234567" None))
        (holding true [true; false] (fresh_paste 3))
    = (Returned {| page_status := 200; page_type := Some "text/html";
                   page_text := page_html "secret" |}, w') /\
    stored w' "abc1234567" = Some (fresh_paste 3).
Proof.
  destruct (@page_view_spends_no_view demo_JSON test_config
              (read_request "abc1234567" None)
              (@holding demo_JSON true [true; false] (fresh_paste 3)) (fresh_paste 3)
              ltac:(vm_compute; reflexivity))
    as (pg & w' & Hrun & _ & Hkept & Hserved).
  assert (Hok : page_status pg = 200%Z)
    by (apply Hserved; first [reflexivity | vm_compute; lia]).
  destruct (Hkept Hok) as (_ & _ & Htype & Hsto & Htext).
  exists w'. split; [| exact Hsto].
  rewrite Hrun. destruct pg as [st ty tx]. cbn in Hok, Htype, Htext. subst. reflexivity.
Defined.

Lemma metadata_read_never_fails_witness :
  exists w',
    run (get_api_pastes_id_metadata test_config (read_request "abc1234567" None))
        (holding true [true; true; false] (fresh_paste 3))
    = (Returned (metadata_body (fresh_paste 3)), w').
Proof.
  destruct (@metadata_read_never_fails demo_JSON test_config
              (read_request "abc1234567" None)
              (@holding demo_JSON true [true; true; false] (fresh_paste 3)) (fresh_paste 3)
              ltac:(vm_compute; reflexivity)
              ltac:(unfold printable_date; cbn; lia)
              ltac:(unfold printable_date; cbn; intros e [= <-]; lia))
    as (resp & w' & Hrun & _ & Hserved).
  exists w'. rewrite Hrun.
  rewrite (Hserved eq_refl eq_refl ltac:(vm_compute; lia) eq_refl eq_refl). reflexivity.
Defined.

(** A creation without BASE_URL and without Host header: the paste is
    saved, and the creator is answered 500. *)
Lemma link_of_a_new_paste_witness :
  exists w',
    run (app_post_api_pastes (config_js (fun _ => None)) None
           (JString "hello") JUndefined JUndefined)
        (example_world true [])
    = (Returned internal_server_error, w') /\
    stored w' "abc1234567" = Some (pasteData "hello" JUndefined JUndefined 1000).
Proof.
  apply (proj2 (proj2 (proj2 (@link_of_a_new_paste demo_JSON (fun _ => None) None)))
           (JString "hello") JUndefined JUndefined "hello" (example_world true [])
           (or_introl eq_refl) eq_refl eq_refl eq_refl eq_refl eq_refl
           ltac:(vm_compute; reflexivity)).
Defined.

(** Ten identifiers drawn, all taken: the creation gives up. *)
Example creation_gives_up_after_ten_draws :
  run (post_api_pastes test_config (create_request "hello" JUndefined JUndefined))
      (stuck last_view)
  = (Returned {| status := 500;
                 body := [("error", RString "Failed to generate unique ID")] |},
     set_drawn 10 (stuck last_view)).
Proof. vm_compute. reflexivity. Qed.

(** A record whose expiry timestamp is zero: the page takes it for a
    record without expiry and serves it, the metadata read finds it
    expired. *)
Example page_serves_an_expiry_of_zero :
  page_status
    (match fst (run (get_p_id test_config (read_request "abc1234567" None))
                  (holding true [] epoch_paste)) with
     | Returned pg => pg
     | Thrown _ => plain_page 0 EmptyString
     end) = 200%Z /\
  fst (run (get_api_pastes_id_metadata test_config (read_request "abc1234567" None))
         (holding true [] epoch_paste)) = Returned not_found.
Proof. split; vm_compute; reflexivity. Qed.
